(** * ankisyncd: the sync application (ankisyncd/sync_app.py) and its
    controller (ankisyncd/__main__.py)

    A shallow embedding of the collection-sync handler, the media-sync
    handler, the request dispatcher and the controller's configuration
    of ankisyncd, the properties its specification states about them,
    and further properties of the code.

    Conventions.  Python integers are [Z]; [str] is [string] (a sequence
    of 8-bit characters, so the string functions below are the ASCII part
    of Python's); [bytes] is [list Byte.byte]; [None] for an optional
    argument is [None : option _]; a [dict] read by key is a [gmap], a
    [dict] whose insertion order is observed is an association list.  A
    raised exception is the [Raise] case of [res]; stateful methods thread
    their object through explicitly and keep the state reached when an
    exception is raised, as Python does.  Floating point values are not
    part of [value]. *)

From Stdlib Require Import ZArith Floats Lia List String Ascii.
From stdpp Require Import base option list gmap strings pretty.

Set Warnings "-register-all".

Local Open Scope string_scope.
Local Open Scope Z_scope.
Local Open Scope list_scope.

Abbreviation bytes := (list Byte.byte).

(** ** Python: exceptions, values, and the built-ins the code calls *)

Module Py.

(** The exception classes the modelled code can raise or catch.
    [JSONDecodeError] and [UnicodeDecodeError] are subclasses of
    [ValueError]; the [HTTP*] classes are webob's. *)
Inductive exn : Type :=
  | ValueError
  | JSONDecodeError
  | UnicodeDecodeError
  | TypeError
  | KeyError
  | IndexError
  | AttributeError
  | AssertionError
  | OSError
  | OverflowError
  | RecursionError
  | HTTPNotFound
  | HTTPForbidden (body : string)
  | HTTPInternalServerError
  | Exception (msg : string).

(** [isinstance(e, OSError)], the test of [except OSError]. *)
Definition is_OSError (e : exn) : bool :=
  match e with
  | OSError => true
  | _ => false
  end.

(** [isinstance(e, ValueError)], the test of [except ValueError]. *)
Definition is_ValueError (e : exn) : bool :=
  match e with
  | ValueError | JSONDecodeError | UnicodeDecodeError => true
  | _ => false
  end.

Inductive res (A : Type) : Type :=
  | Ok (a : A)
  | Raise (e : exn).
Arguments Ok {A} a.
Arguments Raise {A} e.

Definition bind {A B : Type} (m : res A) (k : A -> res B) : res B :=
  match m with
  | Ok a => k a
  | Raise e => Raise e
  end.

Notation "x <- m ;; k" := (bind m (fun x => k))
  (at level 100, m at next level, right associativity, only parsing).

(** Values that travel through the dispatcher: what [json.loads] yields,
    plus [bytes] (the wrapped raw payload). A [dict] keeps its items in
    insertion order. *)
Inductive value : Type :=
  | VNone
  | VBool (b : bool)
  | VInt (z : Z)
  | VStr (s : string)
  | VBytes (b : bytes)
  | VList (l : list value)
  | VDict (items : list (string * value)).

(** The items of a dict have distinct keys; a key is looked up from
    the front. *)
Fixpoint dict_get (k : string) (items : list (string * value)) : option value :=
  match items with
  | [] => None
  | (k', v) :: rest => if String.eqb k k' then Some v else dict_get k rest
  end.

(** *** Characters *)

Definition is_digit (c : ascii) : bool :=
  let n := nat_of_ascii c in (48 <=? n)%nat && (n <=? 57)%nat.

Definition digit_val (c : ascii) : Z := Z.of_nat (nat_of_ascii c) - 48.

(** Whitespace as [int()] strips it from an ASCII string: TAB, LF, VT,
    FF, CR and the space. *)
Definition is_space (c : ascii) : bool :=
  let n := nat_of_ascii c in
  ((9 <=? n)%nat && (n <=? 13)%nat) || (n =? 32)%nat.

Definition is_newline (c : ascii) : bool := Ascii.eqb c "010"%char.

(** *** [sub in s], [s.startswith(p)], [s.split(sep)] *)

Definition startswith (s p : string) : bool := String.prefix p s.

Fixpoint contains (sub s : string) : bool :=
  String.prefix sub s ||
  match s with
  | EmptyString => false
  | String _ s' => contains sub s'
  end.

(** [split_go sep skip cur s]: [cur] is the piece being read, reversed;
    [skip] counts the characters of a separator still to be passed. *)
Fixpoint split_go (sep : string) (skip : nat) (cur : list ascii) (s : string)
  : list string :=
  match s with
  | EmptyString => [string_of_list_ascii (rev cur)]
  | String c s' =>
      match skip with
      | S k => split_go sep k cur s'
      | O =>
          if String.prefix sep s
          then string_of_list_ascii (rev cur)
               :: split_go sep (String.length sep - 1) [] s'
          else split_go sep O (c :: cur) s'
      end
  end.

(** [s.split(sep)] for a non-empty [sep] (every separator in the code is
    a non-empty literal): never the empty list. *)
Definition split (s sep : string) : list string := split_go sep O [] s.

(** [l[0]] and [l[-1]] of a list that [split] returned. *)
Definition first_of (l : list string) : string := hd "" l.
Definition last_of (l : list string) : string := List.last l "".

(** [s[n:]] *)
Fixpoint drop_prefix (n : nat) (s : string) : string :=
  match n, s with
  | O, _ => s
  | S k, EmptyString => EmptyString
  | S k, String _ s' => drop_prefix k s'
  end.

(** *** [int(s)] for a [str] *)

Fixpoint lstrip (s : list ascii) : list ascii :=
  match s with
  | c :: s' => if is_space c then lstrip s' else s
  | [] => []
  end.

Definition strip (s : list ascii) : list ascii := rev (lstrip (rev (lstrip s))).

(** Decimal digits, single underscores allowed between two digits. *)
Fixpoint digits_go (acc : Z) (after_digit : bool) (s : list ascii) : option Z :=
  match s with
  | [] => if after_digit then Some acc else None
  | c :: s' =>
      if is_digit c then digits_go (10 * acc + digit_val c) true s'
      else if Ascii.eqb c "_"%char && after_digit then digits_go acc false s'
      else None
  end.

Definition int_of_str (s : string) : res Z :=
  let body := strip (list_ascii_of_string s) in
  let signed :=
    match body with
    | c :: s' =>
        if Ascii.eqb c "-"%char then option_map Z.opp (digits_go 0 false s')
        else if Ascii.eqb c "+"%char then digits_go 0 false s'
        else digits_go 0 false body
    | [] => None
    end in
  match signed with
  | Some z => Ok z
  | None => Raise ValueError
  end.

(** *** [re.sub(r'[^0-9.].*$', '', s)]

    A match starts at a character outside [0-9.]; [.*] then runs to the
    next newline or the end, and [$] holds at the end of the string or
    just before its final newline.  So a match at a character exists
    exactly when what follows it has no newline or has its only newline
    as last character, and it then removes everything to the end (a
    final newline by a second match). Without a match the character
    stays and the search goes on. *)
Fixpoint newline_free_or_final (rest : list ascii) : bool :=
  match rest with
  | [] => true
  | c :: r =>
      if is_newline c then match r with [] => true | _ :: _ => false end
      else newline_free_or_final r
  end.

Fixpoint sub_nosuffix_go (s : list ascii) : list ascii :=
  match s with
  | [] => []
  | c :: r =>
      if is_digit c || Ascii.eqb c "."%char then c :: sub_nosuffix_go r
      else if newline_free_or_final r then []
      else c :: sub_nosuffix_go r
  end.

Definition sub_nosuffix (s : string) : string :=
  string_of_list_ascii (sub_nosuffix_go (list_ascii_of_string s)).

(** *** [a < b] on lists of integers (lexicographic) *)
Fixpoint list_lt (a b : list Z) : bool :=
  match a, b with
  | [], [] => false
  | [], _ :: _ => true
  | _ :: _, [] => false
  | x :: a', y :: b' => if x =? y then list_lt a' b' else x <? y
  end.

Definition list_eqb (a b : list Z) : bool := bool_decide (a = b).

(** [[f(x) for x in l]] with a function that can raise. *)
Fixpoint mapM {A B : Type} (f : A -> res B) (l : list A) : res (list B) :=
  match l with
  | [] => Ok []
  | x :: l' => bind (f x) (fun y => bind (mapM f l') (fun ys => Ok (y :: ys)))
  end.

Fixpoint foldM {A S : Type} (f : A -> S -> res S) (l : list A) (s : S) : res S :=
  match l with
  | [] => Ok s
  | x :: l' => s' <- f x s ;; foldM f l' s'
  end.

(** *** Operations on values

    [len(v)], [for x in v], [v[i]] for an int [i], [a, b = v], and
    the dict operations, with the [TypeError]s, [KeyError]s and
    [IndexError]s of the types that do not support them. *)
Definition chars (s : string) : list value :=
  map (fun c => VStr (String c EmptyString)) (list_ascii_of_string s).

Definition py_iter (v : value) : res (list value) :=
  match v with
  | VList l => Ok l
  | VStr s => Ok (chars s)
  | VDict items => Ok (map (fun kv => VStr (fst kv)) items)
  | VBytes b => Ok (map (fun x => VInt (Z.of_N (Byte.to_N x))) b)
  | VNone | VBool _ | VInt _ => Raise TypeError
  end.

Definition py_len (v : value) : res Z :=
  l <- py_iter v ;; Ok (Z.of_nat (length l)).

(** [l[i]]: a negative index counts from the end. *)
Definition seq_index (l : list value) (i : Z) : res value :=
  let n := Z.of_nat (length l) in
  let j := if i <? 0 then i + n else i in
  if (j <? 0) || (j >=? n) then Raise IndexError
  else match nth_error l (Z.to_nat j) with
       | Some x => Ok x
       | None => Raise IndexError
       end.

Definition py_index (v : value) (i : Z) : res value :=
  match v with
  | VList l => seq_index l i
  | VStr s => seq_index (chars s) i
  | VBytes b => seq_index (map (fun x => VInt (Z.of_N (Byte.to_N x))) b) i
  | VDict _ => Raise KeyError
  | VNone | VBool _ | VInt _ => Raise TypeError
  end.

Definition unpack2 (v : value) : res (value * value) :=
  l <- py_iter v ;;
  match l with
  | [a; b] => Ok (a, b)
  | _ => Raise ValueError
  end.

Definition is_empty_str (v : value) : bool :=
  match v with
  | VStr EmptyString => true
  | _ => false
  end.

Definition has_key (k : string) (items : list (string * value)) : bool :=
  existsb (fun kv => String.eqb k (fst kv)) items.

(** ['k' in v] *)
Definition py_contains (k : string) (v : value) : res bool :=
  match v with
  | VDict items => Ok (has_key k items)
  | VList l =>
      Ok (existsb (fun x => match x with VStr s => String.eqb s k | _ => false end) l)
  | VStr s => Ok (contains k s)
  | VNone | VBool _ | VInt _ | VBytes _ => Raise TypeError
  end.

(** [v['k']] *)
Definition py_getitem (k : string) (v : value) : res value :=
  match v with
  | VDict items =>
      match dict_get k items with
      | Some x => Ok x
      | None => Raise KeyError
      end
  | _ => Raise TypeError
  end.

(** [v.get('k')] *)
Definition py_get (k : string) (v : value) : res value :=
  match v with
  | VDict items => Ok (default VNone (dict_get k items))
  | _ => Raise AttributeError
  end.

Fixpoint dict_set (k : string) (x : value) (items : list (string * value))
  : list (string * value) :=
  match items with
  | [] => [(k, x)]
  | (k', v) :: rest =>
      if String.eqb k k' then (k', x) :: rest else (k', v) :: dict_set k x rest
  end.

(** [v['k'] = x] *)
Definition py_setitem (k : string) (x : value) (v : value) : res value :=
  match v with
  | VDict items => Ok (VDict (dict_set k x items))
  | _ => Raise TypeError
  end.

(** *** [s.endswith(suffix)], [s.lower()] *)

Fixpoint endswith (s suffix : string) : bool :=
  String.eqb s suffix ||
  match s with
  | EmptyString => false
  | String _ s' => endswith s' suffix
  end.

(** The ASCII letters [A] to [Z] go to [a] to [z]; every other
    character of an 8-bit string stays. *)
Definition lower_char (c : ascii) : ascii :=
  let n := nat_of_ascii c in
  if (65 <=? n)%nat && (n <=? 90)%nat then ascii_of_nat (n + 32) else c.

Fixpoint lower (s : string) : string :=
  match s with
  | EmptyString => EmptyString
  | String c s' => String (lower_char c) (lower s')
  end.

(** [[x for x in l if keep(x)]] with a test that can raise. *)
Fixpoint filterM {A : Type} (keep : A -> res bool) (l : list A) : res (list A) :=
  match l with
  | [] => Ok []
  | x :: l' =>
      b <- keep x ;;
      rest <- filterM keep l' ;;
      Ok (if b : bool then x :: rest else rest)
  end.

(** An [int] argument: a [bool] is an [int] in Python. *)
Definition as_int (v : value) : option Z :=
  match v with
  | VInt z => Some z
  | VBool b => Some (if b then 1 else 0)
  | _ => None
  end.

End Py.

Import Py.


(** ** What the handlers take from the Anki library

    [anki.consts] and the base classes [anki.sync.Syncer] and
    [anki.sync.MediaSyncer] are not part of ankisyncd: the constants and
    the inherited methods the handlers call are taken as given. *)

Class AnkiConsts : Type := {
  SYNC_VER : Z;
  SYNC_ZIP_SIZE : Z;
  SYNC_ZIP_COUNT : Z;
  REM_CARD : Z;
  REM_NOTE : Z
}.

(** [float(z)] of the multiplication of a float by an int, for an int
    of less than 63 bits (the scales the code passes are 1 and 1000). *)
Definition float_of_int (z : Z) : float :=
  if z <? 0 then PrimFloat.opp (PrimFloat.of_uint63 (Uint63.of_Z (- z)))
  else PrimFloat.of_uint63 (Uint63.of_Z z).

(** [int(x)] of a finite double [x], which a reading of the clock times
    a scale is (of an infinity or a NaN, which are no such product,
    [int] raises; the model has 0 there). *)
Definition int_of_float (x : float) : Z :=
  match Prim2SF x with
  | S754_finite s m e =>
      let a := if 0 <=? e then Z.pos m * 2 ^ e else Z.pos m / 2 ^ (- e) in
      if s : bool then - a else a
  | _ => 0
  end.

(** [anki.utils.intTime(scale)] is [int(time.time()*scale)]: the clock
    in whole seconds, or in milliseconds for [scale = 1000].  [now] is
    the reading of [time.time()], a double; the product is the product
    of two doubles, rounded as such, and [int] truncates it toward
    zero. *)
Definition intTime (now : float) (scale : Z) : Z :=
  int_of_float (PrimFloat.mul now (float_of_int scale)).

(** *** The collection as the handlers see it *)

(** A row of the [graves] table. *)
Record GraveRow : Type := { g_usn : Z; g_oid : Z; g_type : Z }.

(** A row of the media database's [media] table; [csum = None] is SQL
    NULL, the mark of a deleted file. *)
Record MediaRow : Type := {
  fname : string;
  csum : option string;
  mtime : Z;
  dirty : Z
}.

(** [col.media]: the media database (open or not, its [lastUsn] and its
    rows in row order) and the regular files that the paths under the
    media directory lead to, each under the key of its place (see
    [MediaDir] below). *)
Record MediaManager : Type := {
  db_open : bool;
  last_usn : Z;
  rows : list MediaRow;
  files : gmap string bytes
}.

Record Collection : Type := {
  scm : Z;
  col_mod : Z;
  _usn : Z;
  sched_ver : Z;
  graves : list GraveRow;
  media : MediaManager
}.

(** A tombstone set, [{"cards": [...], "notes": [...], "decks": [...]}]. *)
Record Graves : Type := { cards : list Z; notes : list Z; decks : list Z }.

Definition no_graves : Graves := {| cards := []; notes := []; decks := [] |}.

(** What a handler method hands back to the dispatcher: a Python value,
    or a webob [Response] with the given status. *)
Inductive result : Type :=
  | Value (v : value)
  | Response (status : Z).

(** ** SyncCollectionHandler *)

(** The handler object: its collection and the attributes [start] sets
    ([None] while an attribute does not exist yet). *)
Record SyncCollectionHandler : Type := {
  col : Collection;
  maxUsn : option Z;
  minUsn : option Z;
  lnewer : option bool
}.

(** The methods inherited from [anki.sync.Syncer] that the handler calls:
    [remove(graves)] applies a tombstone set to the collection, and
    [finish(mod)] closes the pass at modification time [mod]. *)
Class Syncer : Type := {
  Syncer_remove : Graves -> Collection -> Collection;
  Syncer_finish : Z -> SyncCollectionHandler -> SyncCollectionHandler * res value
}.

Module CollectionHandler.

Definition operations : list string :=
  ["meta"; "applyChanges"; "start"; "applyGraves"; "chunk"; "applyChunk";
   "sanityCheck2"; "finish"].

(** *** [_old_client] *)

Definition note_keys : list string := ["alpha"; "beta"; "rc"].

Definition note_init : gmap string Z :=
  <["rc" := 0]> (<["beta" := 0]> (<["alpha" := 0]> ∅)).

(** One turn of [for name in note.keys()], on [(version, note)]. *)
Definition note_step (name : string) (st : string * gmap string Z)
  : res (string * gmap string Z) :=
  let '(version, note) := st in
  if contains name version then
    let vs := split version name in
    n <- int_of_str (last_of vs) ;;
    Ok (first_of vs, <[name := n]> note)
  else Ok st.

(** The lines that turn the version field into [version_int] and fill
    [note]: the loop over the note names, the [re.sub], and the list
    comprehension over the dotted parts. *)
Definition parse_version (version : string) : res (list Z * gmap string Z) :=
  vn <- foldM note_step note_keys (version, note_init) ;;
  let '(version, note) := vn in
  let version_nosuffix := sub_nosuffix version in
  version_int <- mapM int_of_str (split version_nosuffix ".") ;;
  Ok (version_int, note).

(** The result is [Some b] for [return b] and [None] where the function
    falls off its end (Python's [None]). *)
Definition _old_client (cv : option string) : res (option bool) :=
  match cv with
  | None | Some EmptyString => Ok (Some false)
  | Some cv =>
      match split cv "," with
      | [client; version; platform] =>
          p <- parse_version version ;;
          let '(version_int, note) := p in
          if String.eqb client "ankidesktop" then
            Ok (Some (list_lt version_int [2; 0; 27]))
          else if String.eqb client "ankidroid" then
            if list_eqb version_int [2; 3] then
              if negb (note !!! "alpha" =? 0) then
                Ok (Some (note !!! "alpha" <? 4))
              else Ok None
            else Ok (Some (list_lt version_int [2; 2; 3]))
          else Ok (Some false)
      | _ => Raise ValueError
      end
  end.

(** [if x:] on what [_old_client] returns. *)
Definition truthy (r : option bool) : bool :=
  match r with
  | Some true => true
  | _ => false
  end.

(** *** [meta] *)

Definition connect (m : MediaManager) : MediaManager :=
  {| db_open := true; last_usn := last_usn m; rows := rows m; files := files m |}.

Definition with_media (c : Collection) (m : MediaManager) : Collection :=
  {| scm := scm c; col_mod := col_mod c; _usn := _usn c;
     sched_ver := sched_ver c; graves := graves c; media := m |}.

Definition with_col (h : SyncCollectionHandler) (c : Collection)
  : SyncCollectionHandler :=
  {| col := c; maxUsn := maxUsn h; minUsn := minUsn h; lnewer := lnewer h |}.

Definition unsupported_msg `{AnkiConsts} (v : Z) : string :=
  "Your client is using unsupported sync protocol (" +:+ pretty v +:+
  ", supported version: " +:+ pretty SYNC_VER +:+ ")".

Definition scheduler_msg (sv : Z) : string :=
  "Your client doesn't support the v" +:+ pretty sv +:+ " scheduler.".

Definition rejection (msg : string) : result :=
  Value (VDict [("cont", VBool false); ("msg", VStr msg)]).

Definition metadata (now : float) (c : Collection) : result :=
  Value (VDict [("scm", VInt (scm c)); ("ts", VInt (intTime now 1));
                ("mod", VInt (col_mod c)); ("usn", VInt (_usn c));
                ("musn", VInt (last_usn (media c))); ("msg", VStr "");
                ("cont", VBool true)]).

(** [meta(v, cv)] at clock reading [now].  [v] is [None] or an int: the
    comparison of [None] with an int raises [TypeError]. *)
Definition meta `{AnkiConsts} (now : float) (v : option Z) (cv : option string)
    (h : SyncCollectionHandler) : SyncCollectionHandler * res result :=
  match _old_client cv with
  | Raise e => (h, Raise e)
  | Ok old =>
      if truthy old then (h, Ok (Response 501))
      else
        match v with
        | None => (h, Raise TypeError)
        | Some v =>
            if v >? SYNC_VER then (h, Ok (rejection (unsupported_msg v)))
            else if (v <? 9) && (sched_ver (col h) >=? 2) then
              (h, Ok (rejection (scheduler_msg (sched_ver (col h)))))
            else
              let c := if db_open (media (col h)) then col h
                       else with_media (col h) (connect (media (col h))) in
              (with_col h c, Ok (metadata now c))
        end
  end.

(** *** [start], [removed], [finish] *)

(** One turn of the loop over the cursor in [removed]. *)
Definition removed_step `{AnkiConsts} (acc : Graves) (row : GraveRow) : Graves :=
  if g_type row =? REM_CARD then
    {| cards := cards acc ++ [g_oid row]; notes := notes acc; decks := decks acc |}
  else if g_type row =? REM_NOTE then
    {| cards := cards acc; notes := notes acc ++ [g_oid row]; decks := decks acc |}
  else
    {| cards := cards acc; notes := notes acc; decks := decks acc ++ [g_oid row] |}.

(** The integers SQLite stores and binds to a parameter: signed, of
    64 bits. *)
Definition sqlite_int (z : Z) : bool := (- 2 ^ 63 <=? z) && (z <? 2 ^ 63).

(** [self.col.db.execute("select oid, type from graves where usn >= ?",
    min_usn)]: the argument is bound to the parameter first, and an int
    that is no SQLite integer makes [execute] raise [OverflowError]. *)
Definition select_graves (min_usn : Z) (c : Collection) : res (list GraveRow) :=
  if sqlite_int min_usn
  then Ok (List.filter (fun row => g_usn row >=? min_usn) (graves c))
  else Raise OverflowError.

Definition removed `{AnkiConsts} (h : SyncCollectionHandler) : res Graves :=
  match minUsn h with
  | None => Raise AttributeError
  | Some m =>
      curs <- select_graves m (col h) ;;
      Ok (fold_left removed_step curs no_graves)
  end.

Definition start `{AnkiConsts} `{Syncer} (min_usn : Z) (lnewer_arg : bool)
    (graves_arg : Graves) (h : SyncCollectionHandler)
  : SyncCollectionHandler * res Graves :=
  let h1 := {| col := col h; maxUsn := Some (_usn (col h));
               minUsn := Some min_usn; lnewer := Some (negb lnewer_arg) |} in
  match removed h1 with
  | Raise e => (h1, Raise e)
  | Ok lgraves => (with_col h1 (Syncer_remove graves_arg (col h1)), Ok lgraves)
  end.

Definition applyGraves `{Syncer} (chunk : Graves) (h : SyncCollectionHandler)
  : SyncCollectionHandler :=
  with_col h (Syncer_remove chunk (col h)).

(** [finish(mod)]: the argument is not used. *)
Definition finish `{Syncer} (now : float) (mod_arg : option Z)
    (h : SyncCollectionHandler) : SyncCollectionHandler * res value :=
  Syncer_finish (intTime now 1000) h.

(** *** [usnLim], [getModels], [getDecks], [getTags]

    The collection's models, decks, deck configurations and tags are
    what [col.models.all()], [col.decks.all()], [col.decks.allConf()]
    and [col.tags.allItems()] return: lists of dicts with a [usn], and
    of [(tag, usn)] pairs. *)

Definition usnLim (h : SyncCollectionHandler) : res string :=
  match minUsn h with
  | None => Raise AttributeError
  | Some m => Ok ("usn >= " +:+ pretty m)
  end.

(** [u >= self.minUsn] for a value [u] already at hand. *)
Definition at_least_minUsn (h : SyncCollectionHandler) (u : value) : res bool :=
  match minUsn h with
  | None => Raise AttributeError
  | Some m =>
      match as_int u with
      | Some z => Ok (z >=? m)
      | None => Raise TypeError
      end
  end.

(** [g['usn'] >= self.minUsn] *)
Definition usn_at_least (h : SyncCollectionHandler) (g : value) : res bool :=
  u <- py_getitem "usn" g ;; at_least_minUsn h u.

Definition getModels (models_all : list value) (h : SyncCollectionHandler)
  : res (list value) :=
  filterM (usn_at_least h) models_all.

Definition getDecks (decks_all decks_allConf : list value) (h : SyncCollectionHandler)
  : res (list value * list value) :=
  decks <- filterM (usn_at_least h) decks_all ;;
  confs <- filterM (usn_at_least h) decks_allConf ;;
  Ok (decks, confs).

(** [[t for t, usn in items if usn >= self.minUsn]] *)
Definition getTags (tags_allItems : list value) (h : SyncCollectionHandler)
  : res (list value) :=
  kept <- filterM (fun item => p <- unpack2 item ;; at_least_minUsn h (snd p))
                  tags_allItems ;;
  mapM (fun item => p <- unpack2 item ;; Ok (fst p)) kept.

End CollectionHandler.

(** ** What the code takes from Python's library and the file system *)

(** [json.loads], [json.dumps] and [bytes.decode()] (UTF-8). *)
Class Codec : Type := {
  json_loads : string -> res value;
  json_dumps : value -> res string;
  decode : bytes -> res string
}.

(** [gzip.GzipFile(mode="rb", fileobj=io.BytesIO(data)).read()] *)
Class Gzip : Type := { gunzip : bytes -> res bytes }.

(** An entry of [ZipFile.infolist()], with what [ZipFile.read] returns
    for it. *)
Record ZipInfo : Type := { filename : string; file_size : Z; content : bytes }.

(** [zipfile.ZipFile(io.BytesIO(data), "r")] as its list of entries,
    [anki.utils.checksum], [unicodedata.normalize] with the form the
    platform asks for (NFD when [anki.utils.isMac], NFC otherwise), and
    the modification time [col.media._mtime] reads for a written file. *)
Class MediaEnv : Type := {
  zip_open : bytes -> res (list ZipInfo);
  checksum : bytes -> string;
  normalize : string -> string;
  path_mtime : string -> Z
}.

(** What the media handler takes from the library besides:
    [col.media.mediaCount()] of Anki's media manager, the bytes of a
    zip archive with the given members ([f.getvalue()] once the
    [ZipFile] is closed), and [str.encode()], by which [writestr]
    turns a text into the member's bytes. *)
Class MediaLib : Type := {
  mediaCount : MediaManager -> Z;
  zip_write : list (string * bytes) -> bytes;
  encode : string -> bytes
}.

(** [os.path.join(self.col.media.dir(), name)] as the operating system
    resolves it.  The handler joins the names a client sends to the
    media directory and opens, reads or removes what the path names.
    Such a path names the place of a regular file, there or not (the
    key tells the places apart: two names of one place, as [a.jpg] and
    [./a.jpg], have one key, and a place can lie outside the media
    directory, as that of [../a.jpg]), or a directory, or nothing that
    can be reached: then [open], [os.stat] and [os.remove] raise,
    [ValueError] for a name with a NUL character and an [OSError]
    otherwise (a parent that is missing, a name that is too long, a
    place the server may not touch).  What an access finds can depend
    on the access, as for a file that can be read and not written, or
    one that [z.write] refuses with a [ValueError] for a time stamp
    before 1980.
    The code makes and removes no directory, so the resolution stays
    as it is; the names are taken to be no links, whose removal would
    change what the name leads to. *)
Inductive Access : Type := ForRead | ForWrite | ForRemove.

Inductive Place : Type :=
  | RegularFile (key : string)
  | Directory (st_size : N).

Class MediaDir : Type := { locate : Access -> string -> res Place }.

(** ** SyncMediaHandler *)

Module MediaHandler.

Definition operations : list string :=
  ["begin"; "mediaChanges"; "mediaSanity"; "uploadChanges"; "downloadFiles"].

Record SyncMediaHandler : Type := { col : Collection }.

Definition with_media (h : SyncMediaHandler) (m : MediaManager) : SyncMediaHandler :=
  {| col := CollectionHandler.with_media (col h) m |}.

(** [col.media.lastUsn()] and [col.media.setLastUsn(usn)] *)
Definition lastUsn (h : SyncMediaHandler) : Z := last_usn (media (col h)).

Definition setLastUsn (usn : Z) (m : MediaManager) : MediaManager :=
  {| db_open := db_open m; last_usn := usn; rows := rows m; files := files m |}.

(** *** [uploadChanges] *)

(** [zip_file.getinfo(name)]: the entry the name maps to, the last one
    when several entries carry it. *)
Definition getinfo (name : string) (z : list ZipInfo) : res ZipInfo :=
  match List.find (fun i => String.eqb (filename i) name) (rev z) with
  | Some i => Ok i
  | None => Raise KeyError
  end.

Definition max_zip_size : Z := 100 * 1024 * 1024.
Definition max_meta_file_size : Z := 100000.

Definition _check_zip_data (z : list ZipInfo) : res unit :=
  info <- getinfo "_meta" z ;;
  let meta_file_size := file_size info in
  let sum_file_sizes := fold_right Z.add 0 (map file_size z) in
  if meta_file_size >? max_meta_file_size then Raise ValueError
  else if sum_file_sizes >? max_zip_size then Raise ValueError
  else Ok tt.

Definition _normalize_filename `{MediaEnv} (v : value) : res string :=
  match v with
  | VStr s => Ok (normalize s)
  | _ => Raise TypeError
  end.

(** [json.loads(zip_file.read("_meta").decode())] *)
Definition read_meta `{Codec} (z : list ZipInfo) : res value :=
  info <- getinfo "_meta" z ;;
  s <- decode (content info) ;;
  json_loads s.

(** One turn of [for normname, ordinal in meta]. *)
Definition remove_step `{MediaEnv} (elem : value) (media_to_remove : list string)
  : res (list string) :=
  p <- unpack2 elem ;;
  let '(normname, ordinal) := p in
  if is_empty_str ordinal then
    n <- _normalize_filename normname ;; Ok (media_to_remove ++ [n])
  else Ok media_to_remove.

(** [with open(file_path, 'wb') as f: f.write(file_data)] for the path
    of [name]: the file at the place the path names holds the bytes
    afterwards; [open] raises for a directory and for a path that
    leads nowhere. *)
Definition write_file `{MediaDir} (name : string) (file_data : bytes)
    (m : MediaManager) : MediaManager * res unit :=
  match locate ForWrite name with
  | Raise e => (m, Raise e)
  | Ok (Directory _) => (m, Raise OSError)
  | Ok (RegularFile key) =>
      ({| db_open := db_open m; last_usn := last_usn m; rows := rows m;
          files := <[key := file_data]> (files m) |}, Ok tt)
  end.

(** The loop [for i in zip_file.infolist()]: every file is written when
    its turn comes, so the directory keeps the files written before a
    turn that raises. *)
Fixpoint add_loop `{MediaEnv} `{MediaDir} (meta : value) (infos : list ZipInfo)
    (m : MediaManager) (media_to_add : list MediaRow)
  : MediaManager * res (list MediaRow) :=
  match infos with
  | [] => (m, Ok media_to_add)
  | i :: rest =>
      if String.eqb (filename i) "_meta" then add_loop meta rest m media_to_add
      else
        let file_data := content i in
        let csum_i := checksum file_data in
        match (idx <- int_of_str (filename i) ;;
               elem <- py_index meta idx ;;
               n <- py_index elem 0 ;;
               _normalize_filename n) with
        | Raise e => (m, Raise e)
        | Ok name =>
            match write_file name file_data m with
            | (m', Raise e) => (m', Raise e)
            | (m', Ok _) =>
                add_loop meta rest m'
                  (media_to_add ++
                   [{| fname := name; csum := Some csum_i;
                       mtime := path_mtime name; dirty := 0 |}])
            end
        end
  end.

(** [UPDATE media SET csum = NULL WHERE fname = ?], run for every name. *)
Definition mark_deleted (filenames : list string) (rs : list MediaRow)
  : list MediaRow :=
  map (fun r =>
         if existsb (String.eqb (fname r)) filenames
         then {| fname := fname r; csum := None; mtime := mtime r; dirty := dirty r |}
         else r) rs.

(** [os.remove(path)] for the path of [name], inside [try] with
    [except OSError]: a regular file at the place is removed; for a
    place without a file and for a directory [os.remove] raises an
    [OSError], which is logged and passed over, as is the [OSError] of
    a path that leads nowhere; any other exception, the [ValueError]
    of a name with a NUL character, is not caught. *)
Definition remove_file `{MediaDir} (name : string) (fs : gmap string bytes)
  : gmap string bytes * res unit :=
  match locate ForRemove name with
  | Ok (RegularFile key) => (delete key fs, Ok tt)
  | Ok (Directory _) => (fs, Ok tt)
  | Raise e => if is_OSError e then (fs, Ok tt) else (fs, Raise e)
  end.

(** The loop [for filename in filenames]. *)
Fixpoint remove_files `{MediaDir} (filenames : list string) (fs : gmap string bytes)
  : gmap string bytes * res unit :=
  match filenames with
  | [] => (fs, Ok tt)
  | name :: rest =>
      match remove_file name fs with
      | (fs', Raise e) => (fs', Raise e)
      | (fs', Ok _) => remove_files rest fs'
      end
  end.

(** The [UPDATE]s first, then the loop over the files: an exception
    that leaves the loop finds the rows already marked. *)
Definition _remove_media_files `{MediaDir} (filenames : list string) (m : MediaManager)
  : MediaManager * res unit :=
  let '(fs, r) := remove_files filenames (files m) in
  ({| db_open := db_open m; last_usn := last_usn m;
      rows := mark_deleted filenames (rows m);
      files := fs |}, r).

(** [INSERT OR REPLACE INTO media VALUES (?,?,?,?)]: [fname] is the
    primary key; the row that held it goes and the new one is appended. *)
Definition insert_or_replace (rs : list MediaRow) (r : MediaRow) : list MediaRow :=
  List.filter (fun r' => negb (String.eqb (fname r') (fname r))) rs ++ [r].

Definition insert_media (media_to_add : list MediaRow) (m : MediaManager)
  : MediaManager :=
  {| db_open := db_open m; last_usn := last_usn m;
     rows := fold_left insert_or_replace media_to_add (rows m);
     files := files m |}.

Definition _adopt_media_changes_from_zip `{Codec} `{MediaEnv} `{MediaDir}
    (z : list ZipInfo) (m : MediaManager) : MediaManager * res Z :=
  match (meta <- read_meta z ;;
         elems <- py_iter meta ;;
         media_to_remove <- foldM remove_step elems [] ;;
         Ok (meta, media_to_remove)) with
  | Raise e => (m, Raise e)
  | Ok (meta, media_to_remove) =>
      match add_loop meta z m [] with
      | (m1, Raise e) => (m1, Raise e)
      | (m1, Ok media_to_add) =>
          let processed_count :=
            Z.of_nat (length media_to_remove) + Z.of_nat (length media_to_add) in
          match py_len meta with
          | Raise e => (m1, Raise e)
          | Ok n =>
              if negb (n =? processed_count) then (m1, Raise AssertionError)
              else
                match (match media_to_remove with
                       | [] => (m1, Ok tt)
                       | _ :: _ => _remove_media_files media_to_remove m1
                       end) with
                | (m2, Raise e) => (m2, Raise e)
                | (m2, Ok _) =>
                    let m3 := match media_to_add with
                              | [] => m2
                              | _ :: _ => insert_media media_to_add m2
                              end in
                    (m3, Ok processed_count)
                end
          end
      end
  end.

Definition uploadChanges `{Codec} `{MediaEnv} `{MediaDir} (data : bytes)
    (h : SyncMediaHandler) : SyncMediaHandler * res value :=
  match (z <- zip_open data ;; _ <- _check_zip_data z ;; Ok z) with
  | Raise e => (h, Raise e)
  | Ok z =>
      match _adopt_media_changes_from_zip z (media (col h)) with
      | (m, Raise e) => (with_media h m, Raise e)
      | (m, Ok processed_count) =>
          let our_last_usn := last_usn m in
          let m' := setLastUsn (our_last_usn + processed_count) m in
          (with_media h m',
           Ok (VDict [("data", VList [VInt processed_count; VInt (last_usn m')]);
                      ("err", VStr "")]))
      end
  end.

(** *** [downloadFiles] *)

(** The archive [downloadFiles] writes: the files under their archive
    names in the order written, and the dict [flist] whose JSON text is
    the member [_meta]. *)
Record Archive : Type := {
  members : list (string * bytes);
  flist : list (string * value)
}.

(** What [z.write(path, arcname)] and [os.path.getsize(path)] find at
    the path of [name]: whether it is a directory, the bytes that go
    into the archive, and the size.  A regular file gives its bytes
    and their number; a directory gives no bytes and the size its
    [stat] reports; a place without a file, and a path that leads
    nowhere, make [z.write] raise. *)
Definition stat_read `{MediaDir} (dir : gmap string bytes) (name : string)
  : res (bool * bytes * Z) :=
  match locate ForRead name with
  | Raise e => Raise e
  | Ok (Directory st_size) => Ok (true, [], Z.of_N st_size)
  | Ok (RegularFile key) =>
      match dir !! key with
      | None => Raise OSError
      | Some file_data => Ok (false, file_data, Z.of_nat (length file_data))
      end
  end.

(** The name [z.write] gives the member: [arcname], with a slash added
    for a directory. *)
Definition member_arcname (cnt : Z) (is_dir : bool) : string :=
  if is_dir then pretty cnt +:+ "/" else pretty cnt.

(** The loop [for fname in files], from the state [(cnt, sz)]. *)
Fixpoint pack `{AnkiConsts} `{MediaDir} (dir : gmap string bytes)
    (files_arg : list string) (cnt sz : Z) (acc : Archive) : res Archive :=
  match files_arg with
  | [] => Ok acc
  | name :: rest =>
      match stat_read dir name with
      | Raise e => Raise e
      | Ok (is_dir, file_data, size) =>
          let acc' := {| members := members acc ++ [(member_arcname cnt is_dir, file_data)];
                         flist := dict_set (pretty cnt) (VStr name) (flist acc) |} in
          let sz' := sz + size in
          if (sz' >? SYNC_ZIP_SIZE) || (cnt >? SYNC_ZIP_COUNT) then Ok acc'
          else pack dir rest (cnt + 1) sz' acc'
      end
  end.

Definition downloadFiles `{AnkiConsts} `{MediaDir} (files_arg : list string)
    (h : SyncMediaHandler) : res Archive :=
  pack (files (media (col h))) files_arg 0 0 {| members := []; flist := [] |}.

(** *** [mediaChanges] *)

Definition csum_value (c : option string) : value :=
  match c with
  | Some s => VStr s
  | None => VNone
  end.

Definition mediaChanges (lastUsn_arg : Z) (h : SyncMediaHandler) : value :=
  let usn := lastUsn h in
  let result :=
    if (lastUsn_arg <? usn) || (lastUsn_arg =? 0) then
      fold_left (fun result r => result ++ [VList [VStr (fname r); VInt usn; csum_value (csum r)]])
                (rows (media (col h))) []
    else [] in
  VDict [("data", VList result); ("err", VStr "")].

(** *** [begin], [mediaSanity] *)

Definition begin (skey_arg : value) (h : SyncMediaHandler) : value :=
  VDict [("data", VDict [("sk", skey_arg); ("usn", VInt (lastUsn h))]);
         ("err", VStr "")].

(** [self.col.media.mediaCount() == local]: an int equals an int or a
    bool of the same value, and nothing else a payload can hold. *)
Definition mediaSanity `{MediaLib} (local_arg : value) (h : SyncMediaHandler) : value :=
  let result :=
    match as_int local_arg with
    | Some n => if mediaCount (media (col h)) =? n then "OK" else "FAILED"
    | None => "FAILED"
    end in
  VDict [("data", VStr result); ("err", VStr "")].

(** *** The methods as the dispatcher calls them

    [downloadFiles] on whatever the payload holds as [files]: the loop
    is the one of [pack], and a file name that is not a [str] makes
    [os.path.join] raise [TypeError] when its turn comes. *)
Fixpoint pack_values `{AnkiConsts} `{MediaDir} (dir : gmap string bytes)
    (files_arg : list value) (cnt sz : Z) (acc : Archive) : res Archive :=
  match files_arg with
  | [] => Ok acc
  | VStr name :: rest =>
      match stat_read dir name with
      | Raise e => Raise e
      | Ok (is_dir, file_data, size) =>
          let acc' := {| members := members acc ++ [(member_arcname cnt is_dir, file_data)];
                         flist := dict_set (pretty cnt) (VStr name) (flist acc) |} in
          let sz' := sz + size in
          if (sz' >? SYNC_ZIP_SIZE) || (cnt >? SYNC_ZIP_COUNT) then Ok acc'
          else pack_values dir rest (cnt + 1) sz' acc'
      end
  | _ :: _ => Raise TypeError
  end.

(** The bytes [downloadFiles] returns: the archive of the packed files
    and of [_meta], the JSON text of [flist]. *)
Definition archive_bytes `{Codec} `{MediaLib} (a : Archive) : res bytes :=
  t <- json_dumps (VDict (flist a)) ;;
  Ok (zip_write (members a ++ [("_meta", encode t)])).

Definition downloadFiles_value `{AnkiConsts} `{Codec} `{MediaLib} `{MediaDir}
    (files_arg : value) (h : SyncMediaHandler) : res bytes :=
  l <- py_iter files_arg ;;
  a <- pack_values (files (media (col h))) l 0 0 {| members := []; flist := [] |} ;;
  archive_bytes a.

(** [uploadChanges] on whatever the payload holds as [data]:
    [io.BytesIO] takes [bytes], and [None] for no bytes at all. *)
Definition uploadChanges_value `{Codec} `{MediaEnv} `{MediaDir} (data : value)
    (h : SyncMediaHandler) : SyncMediaHandler * res value :=
  match data with
  | VBytes b => uploadChanges b h
  | VNone => uploadChanges [] h
  | _ => (h, Raise TypeError)
  end.

(** [mediaChanges] on whatever the payload holds as [lastUsn]: the
    comparison with the media usn wants a number. *)
Definition mediaChanges_value (lastUsn_arg : value) (h : SyncMediaHandler) : res value :=
  match as_int lastUsn_arg with
  | Some n => Ok (mediaChanges n h)
  | None => Raise TypeError
  end.

End MediaHandler.

(** ** SyncUserSession *)

(** The session object.  [ident] tells the objects apart, as Python's
    [id(session)] does: the session manager holds the objects
    themselves, and entries of it with one [ident] are one object. *)
Record SyncUserSession : Type := {
  ident : nat;
  skey : option string;
  name : value;
  path : string;
  version : value;
  client_version : value;
  collection_handler : option SyncCollectionHandler;
  media_handler : option MediaHandler.SyncMediaHandler
}.

(** The handler object [get_handler_for_operation] returns. *)
Inductive handler : Type :=
  | OfCollection (h : SyncCollectionHandler)
  | OfMedia (h : MediaHandler.SyncMediaHandler).

Definition mem (x : string) (l : list string) : bool := existsb (String.eqb x) l.

Definition new_collection_handler (c : Collection) : SyncCollectionHandler :=
  {| col := c; maxUsn := None; minUsn := None; lnewer := None |}.

Definition set_collection_handler (s : SyncUserSession) (h : SyncCollectionHandler)
  : SyncUserSession :=
  {| ident := ident s; skey := skey s; name := name s; path := path s;
     version := version s; client_version := client_version s;
     collection_handler := Some h; media_handler := media_handler s |}.

Definition set_media_handler (s : SyncUserSession) (h : MediaHandler.SyncMediaHandler)
  : SyncUserSession :=
  {| ident := ident s; skey := skey s; name := name s; path := path s;
     version := version s; client_version := client_version s;
     collection_handler := collection_handler s; media_handler := Some h |}.

(** The handler is the session's own object of the family the operation
    name belongs to, made on first use and bound to [c] on every call. *)
Definition get_handler_for_operation (operation : string) (c : Collection)
    (s : SyncUserSession) : res (handler * SyncUserSession) :=
  if mem operation CollectionHandler.operations then
    let h := match collection_handler s with
             | None => new_collection_handler c
             | Some h => h
             end in
    let h := CollectionHandler.with_col h c in
    Ok (OfCollection h, set_collection_handler s h)
  else if mem operation MediaHandler.operations then
    let h := {| MediaHandler.col := c |} in
    Ok (OfMedia h, set_media_handler s h)
  else Raise (Exception ("no handler for " +:+ operation)).

(** ** Calling a handler method with the payload

    The call of [handler_method] with the payload unpacked into
    keyword arguments binds the items of the payload to the parameters
    of the method: the payload has to be a dict, each of
    its keys a parameter of the method, and each parameter without a
    default among its keys; anything else is a [TypeError], raised
    before the method runs. *)
Definition bind_kwargs (params required : list string) (kw : value)
  : res (list (string * value)) :=
  match kw with
  | VDict items =>
      if forallb (fun kv => mem (fst kv) params) items
         && forallb (fun k => has_key k items) required
      then Ok items
      else Raise TypeError
  | _ => Raise TypeError
  end.

(** The argument bound to a parameter whose default is [None]. *)
Definition kwarg (k : string) (items : list (string * value)) : value :=
  default VNone (dict_get k items).

(** [getattr(handler, method_name)] on a [SyncMediaHandler], called
    with the payload as keyword arguments. *)
Definition call_media_method `{AnkiConsts} `{Codec} `{MediaEnv} `{MediaLib} `{MediaDir}
    (method_name : string) (keyword_args : value) (h : MediaHandler.SyncMediaHandler)
  : MediaHandler.SyncMediaHandler * res result :=
  if String.eqb method_name "begin" then
    match bind_kwargs ["skey"] ["skey"] keyword_args with
    | Raise e => (h, Raise e)
    | Ok items => (h, Ok (Value (MediaHandler.begin (kwarg "skey" items) h)))
    end
  else if String.eqb method_name "mediaChanges" then
    match bind_kwargs ["lastUsn"] ["lastUsn"] keyword_args with
    | Raise e => (h, Raise e)
    | Ok items =>
        (h, v <- MediaHandler.mediaChanges_value (kwarg "lastUsn" items) h ;; Ok (Value v))
    end
  else if String.eqb method_name "mediaSanity" then
    match bind_kwargs ["local"] [] keyword_args with
    | Raise e => (h, Raise e)
    | Ok items => (h, Ok (Value (MediaHandler.mediaSanity (kwarg "local" items) h)))
    end
  else if String.eqb method_name "uploadChanges" then
    match bind_kwargs ["data"] ["data"] keyword_args with
    | Raise e => (h, Raise e)
    | Ok items =>
        let '(h', r) := MediaHandler.uploadChanges_value (kwarg "data" items) h in
        (h', v <- r ;; Ok (Value v))
    end
  else if String.eqb method_name "downloadFiles" then
    match bind_kwargs ["files"] ["files"] keyword_args with
    | Raise e => (h, Raise e)
    | Ok items =>
        (h, b <- MediaHandler.downloadFiles_value (kwarg "files" items) h ;;
            Ok (Value (VBytes b)))
    end
  else (h, Raise AttributeError).

(** ** SyncApp *)

(** A form field: a text value, or an uploaded file ([.file.read()]). *)
Inductive Field : Type :=
  | Text (s : string)
  | File (file_content : bytes).

Record Request : Type := { req_path : string; POST : gmap string Field }.

(** What [__call__] returns: a [str], [bytes] or a webob [Response]. *)
Inductive body : Type :=
  | Str (s : string)
  | Bytes (b : bytes)
  | Resp (status : Z).

(** A pre- or post-hook, run on the worker with the collection and the
    session. *)
Abbreviation hook := (Collection -> SyncUserSession -> Collection * res unit).

(** The application object: its configuration, the session store (a
    dict from the host key of a request, [None] when it has no [k], to
    the session), the live collections of the worker by path, and the
    hooks by operation name. *)
Record SyncApp : Type := {
  data_root : string;
  base_url : string;
  base_media_url : string;
  sessions : gmap (option string) SyncUserSession;
  collections : gmap string Collection;
  prehooks : gmap string hook;
  posthooks : gmap string hook
}.

(** The collaborators behind a request: the methods of the two handler
    classes (the attribute of the given name, called with the payload
    dict unpacked into keyword arguments), [col.save()], the user
    manager, the full-sync manager, the collection a worker opens for a
    path it does not hold yet, the host and session keys a login
    draws, and the file system where the users' directories are, as
    it answers while the request runs: [os.path.exists(path)], and
    what [os.mkdir(path)] gives when the path is not there, [OSError]
    for a parent that is missing or that cannot be written to. *)
Class Collaborators : Type := {
  collection_method :
    string -> value -> SyncCollectionHandler -> SyncCollectionHandler * res result;
  media_method :
    string -> value -> MediaHandler.SyncMediaHandler ->
    MediaHandler.SyncMediaHandler * res result;
  col_save : Collection -> Collection;
  open_collection : string -> Collection;
  authenticate : value -> value -> bool;
  userdir : value -> option string;
  generateHostKey : value -> string;
  _generate_session_key : string;
  path_exists : string -> bool;
  mkdir : string -> res unit;
  full_sync_upload : Collection -> value -> SyncUserSession -> Collection * res body;
  full_sync_download : Collection -> SyncUserSession -> Collection * res body
}.

Module App.

Definition valid_urls : list string :=
  CollectionHandler.operations ++ MediaHandler.operations ++
  ["hostKey"; "upload"; "download"].

(** *** The session store and the worker *)

(** Modelled from the spec: [session_manager.load(hkey, factory)]
    ([ankisyncd.sessions] is not among the sources) resolves a session
    by its host key. *)
Definition load (hkey : option string) (app : SyncApp) : option SyncUserSession :=
  sessions app !! hkey.

(** Modelled from the spec: [session_manager.load_from_skey(skey,
    factory)] resolves a session by the secondary key it carries. *)
Definition load_from_skey (sk : string) (app : SyncApp) : option SyncUserSession :=
  List.find (fun s => bool_decide (skey s = Some sk))
            (map snd (map_to_list (sessions app))).

Definition with_sessions (app : SyncApp) (ss : gmap (option string) SyncUserSession)
  : SyncApp :=
  {| data_root := data_root app;
     base_url := base_url app; base_media_url := base_media_url app;
     sessions := ss; collections := collections app;
     prehooks := prehooks app; posthooks := posthooks app |}.

Definition with_collection (app : SyncApp) (p : string) (c : Collection) : SyncApp :=
  {| data_root := data_root app;
     base_url := base_url app; base_media_url := base_media_url app;
     sessions := sessions app; collections := <[p := c]> (collections app);
     prehooks := prehooks app; posthooks := posthooks app |}.

(** Modelled from the spec: [session_manager.save(hkey, session)]
    stores the session under the key. *)
Definition save (hkey : option string) (s : SyncUserSession) (app : SyncApp) : SyncApp :=
  with_sessions app (<[hkey := s]> (sessions app)).

(** Modelled from the spec: the session manager hands out the session
    objects it holds, so what a request writes to the attributes of
    its session is there for the next request, under every key that
    holds the object. *)
Definition write_session (s : SyncUserSession) (app : SyncApp) : SyncApp :=
  with_sessions app
    ((fun s0 => if (ident s0 =? ident s)%nat then s else s0) <$> sessions app).

(** An identity that no session of the store has: that of an object
    made now. *)
Definition fresh_ident (app : SyncApp) : nat :=
  S (max_list (map (fun ks => ident (snd ks)) (map_to_list (sessions app)))).

(** Modelled from the spec: the collection worker of a session
    ([session.get_thread()]; [ankisyncd.thread] is not among the
    sources) runs a callable on the live collection of the session's
    path, opening it when it is not held yet, and passes on what the
    callable returns or raises. *)
Definition live_col `{Collaborators} (s : SyncUserSession) (app : SyncApp) : Collection :=
  default (open_collection (path s)) (collections app !! path s).

(** *** [_decode_data] *)

(** The part after the decompression: [json.loads(data.decode())], the
    bytes wrapped as [{'data': data}] when that raises a [ValueError]
    (of which [UnicodeDecodeError] and the JSON decode error are kinds). *)
Definition json_or_wrap `{Codec} (data : bytes) : res value :=
  match (s <- decode data ;; json_loads s) with
  | Ok v => Ok v
  | Raise e => if is_ValueError e then Ok (VDict [("data", VBytes data)]) else Raise e
  end.

Definition _decode_data `{Codec} `{Gzip} (data : bytes) (compression : Z) : res value :=
  data' <- (if negb (compression =? 0) then gunzip data else Ok data) ;;
  json_or_wrap data'.

(** *** Reading the request *)

(** [req.POST[k]] as a key of the session store. *)
Definition post_text (k : string) (req : Request) : option string :=
  match POST req !! k with
  | Some (Text s) => Some s
  | _ => None
  end.

(** [int(req.POST['c'])], [0] on [KeyError]. *)
Definition compression_of (req : Request) : res Z :=
  match POST req !! "c" with
  | None => Ok 0
  | Some (Text s) => int_of_str s
  | Some (File _) => Raise TypeError
  end.

(** [req.POST['data'].file.read()] decoded, [{}] on [KeyError]. *)
Definition data_of `{Codec} `{Gzip} (req : Request) (compression : Z) : res value :=
  match POST req !! "data" with
  | None => Ok (VDict [])
  | Some (Text _) => Raise AttributeError
  | Some (File b) =>
      match _decode_data b compression with
      | Raise KeyError => Ok (VDict [])
      | r => r
      end
  end.

(** The payload of a request, as [__call__] decodes it. *)
Definition request_data `{Codec} `{Gzip} (req : Request) : res value :=
  compression <- compression_of req ;; data_of req compression.

Definition resolve_session (req : Request) (app : SyncApp) : option SyncUserSession :=
  match load (post_text "k" req) app with
  | Some s => Some s
  | None =>
      match POST req !! "sk" with
      | Some (Text sk) => load_from_skey sk app
      | _ => None
      end
  end.

(** *** Running an operation on the worker *)

(** What a request leaves behind: the application, the session object
    as the request last held it, and the reply or the exception. *)
Record Outcome : Type := {
  app_after : SyncApp;
  session_after : option SyncUserSession;
  reply : res body
}.

(** [_execute_handler_method_in_thread]: the handler comes from
    [get_handler_for_operation], the method from its class by name, and
    [col.save()] follows a method that returned.  The handler is an
    attribute of the session object, which is the object of the
    session store: the store has the session with its handler as the
    call leaves it. *)
Definition _execute_handler_method_in_thread `{Collaborators}
    (method_name : string) (keyword_args : value) (s : SyncUserSession)
    (app : SyncApp) : SyncApp * SyncUserSession * res result :=
  let c := live_col s app in
  match get_handler_for_operation method_name c s with
  | Raise e => (app, s, Raise e)
  | Ok (OfCollection h, s1) =>
      let '(h', r) := collection_method method_name keyword_args h in
      let c' := match r with Ok _ => col_save (col h') | Raise _ => col h' end in
      let s' := set_collection_handler s1 (CollectionHandler.with_col h' c') in
      (write_session s' (with_collection app (path s) c'), s', r)
  | Ok (OfMedia h, s1) =>
      let '(h', r) := media_method method_name keyword_args h in
      let c' := match r with
                | Ok _ => col_save (MediaHandler.col h')
                | Raise _ => MediaHandler.col h'
                end in
      let s' := set_media_handler s1 {| MediaHandler.col := c' |} in
      (write_session s' (with_collection app (path s) c'), s', r)
  end.

(** [thread.execute(hooks[url], [session])] when the name has a hook. *)
Definition run_hook `{Collaborators} (hooks : gmap string hook) (url : string)
    (s : SyncUserSession) (app : SyncApp) : SyncApp * res unit :=
  match hooks !! url with
  | None => (app, Ok tt)
  | Some f =>
      let '(c, r) := f (live_col s app) s in
      (with_collection app (path s) c, r)
  end.

(** [json.dumps(result)] unless the result is a [str], [bytes] or, where
    [keep_response] holds, a [Response]. *)
Definition serialize `{Codec} (keep_response : bool) (r : result) : res body :=
  match r with
  | Value (VStr s) => Ok (Str s)
  | Value (VBytes b) => Ok (Bytes b)
  | Value v => s <- json_dumps v ;; Ok (Str s)
  | Response status => if keep_response then Ok (Resp status) else Raise TypeError
  end.

(** *** [operation_hostKey] *)

(** [os.path.join(a, b)] on POSIX. *)
Definition path_join (a b : string) : string :=
  if String.prefix "/" b then b
  else if String.eqb a "" || String.eqb (String.substring (String.length a - 1) 1 a) "/"
       then a +:+ b
       else a +:+ "/" +:+ b.

(** [create_session], which is [SyncUserSession.__init__]: the
    attributes are set, and the user's directory is made when it is not
    there; what [os.mkdir] then raises leaves the constructor, and
    there is no session.  [fresh] is the identity of the new object. *)
Definition create_session `{Collaborators} (fresh : nat) (username : value)
    (user_path : string) : res SyncUserSession :=
  let session :=
    {| ident := fresh;
       skey := Some _generate_session_key; name := username; path := user_path;
       version := VNone; client_version := VNone;
       collection_handler := None; media_handler := None |} in
  if negb (path_exists user_path) then _ <- mkdir user_path ;; Ok session
  else Ok session.

(** The result is [Some] of the dict for [return {'key': hkey}] and
    [None] for the bare [return]s. *)
Definition operation_hostKey `{Collaborators} (username password : value)
    (app : SyncApp) : SyncApp * res (option value) :=
  if negb (authenticate username password) then (app, Ok None)
  else
    match userdir username with
    | None => (app, Ok None)
    | Some dirname =>
        let hkey := generateHostKey username in
        let user_path := path_join (data_root app) dirname in
        match create_session (fresh_ident app) username user_path with
        | Raise e => (app, Raise e)
        | Ok session =>
            (save (Some hkey) session app, Ok (Some (VDict [("key", VStr hkey)])))
        end
    end.

(** *** [__call__] *)

Definition set_skey (s : SyncUserSession) (k : option string) : SyncUserSession :=
  {| ident := ident s; skey := k; name := name s; path := path s;
     version := version s; client_version := client_version s;
     collection_handler := collection_handler s; media_handler := media_handler s |}.

Definition set_version (s : SyncUserSession) (v : value) : SyncUserSession :=
  {| ident := ident s; skey := skey s; name := name s; path := path s;
     version := v; client_version := client_version s;
     collection_handler := collection_handler s; media_handler := media_handler s |}.

Definition set_client_version (s : SyncUserSession) (v : value) : SyncUserSession :=
  {| ident := ident s; skey := skey s; name := name s; path := path s; version := version s;
     client_version := v;
     collection_handler := collection_handler s; media_handler := media_handler s |}.

(** The session bookkeeping of [meta], up to the save: the secondary key
    [s] of the request is adopted when the session has none, and [v] and
    [cv] of the payload are recorded.  The attributes are written one
    after the other, and the object keeps those written before a test
    or a subscription that raises. *)
Definition meta_steps (req : Request) (data : value) (s : SyncUserSession)
  : SyncUserSession * res unit :=
  let s1 := match skey s, POST req !! "s" with
            | None, Some (Text k) => set_skey s (Some k)
            | _, _ => s
            end in
  match (has_v <- py_contains "v" data ;;
         if has_v : bool then v <- py_getitem "v" data ;; Ok (set_version s1 v)
         else Ok s1) with
  | Raise e => (s1, Raise e)
  | Ok s2 =>
      match (has_cv <- py_contains "cv" data ;;
             if has_cv : bool
             then v <- py_getitem "cv" data ;; Ok (set_client_version s2 v)
             else Ok s2) with
      | Raise e => (s2, Raise e)
      | Ok s3 => (s3, Ok tt)
      end
  end.

(** The session the bookkeeping leaves when it returns. *)
Definition meta_bookkeeping (req : Request) (data : value) (s : SyncUserSession)
  : res SyncUserSession :=
  _ <- snd (meta_steps req data s) ;; Ok (fst (meta_steps req data s)).

Definition skey_value (s : SyncUserSession) : value :=
  match skey s with
  | Some k => VStr k
  | None => VNone
  end.

(** The branch of the collection-sync path for a name of one of the two
    operation lists. *)
Definition run_operation `{Codec} `{Collaborators} (req : Request) (url : string)
    (data : value) (session : SyncUserSession) (app : SyncApp) : Outcome :=
  let hkey := post_text "k" req in
  let booked :=
    if String.eqb url "meta" then
      let '(s, r) := meta_steps req data session in
      let app0 := write_session s app in
      match r with
      | Raise e => (app0, Some s, Raise e)
      | Ok _ =>
          let app1 := save hkey s app0 in
          match load hkey app1 with
          | Some s' => (app1, Some s', Ok s')
          | None => (app1, None, Raise AttributeError)
          end
      end
    else (app, Some session, Ok session) in
  match booked with
  | (app1, so, Raise e) =>
      {| app_after := app1; session_after := so; reply := Raise e |}
  | (app1, _, Ok s) =>
      match run_hook (prehooks app1) url s app1 with
      | (app2, Raise e) =>
          {| app_after := app2; session_after := Some s; reply := Raise e |}
      | (app2, Ok _) =>
          match _execute_handler_method_in_thread url data s app2 with
          | (app3, s3, Raise e) =>
              {| app_after := app3; session_after := Some s3; reply := Raise e |}
          | (app3, s3, Ok r) =>
              match serialize true r with
              | Raise e =>
                  {| app_after := app3; session_after := Some s3; reply := Raise e |}
              | Ok b =>
                  match run_hook (posthooks app3) url s3 app3 with
                  | (app4, Raise e) =>
                      {| app_after := app4; session_after := Some s3; reply := Raise e |}
                  | (app4, Ok _) =>
                      {| app_after := app4; session_after := Some s3; reply := Ok b |}
                  end
              end
          end
      end
  end.

(** [upload] and [download]: the full-sync manager's entry point on the
    worker, between the hooks of the name. *)
Definition run_full_sync `{Collaborators} (url : string) (data : value)
    (s : SyncUserSession) (app : SyncApp) : Outcome :=
  match run_hook (prehooks app) url s app with
  | (app1, Raise e) =>
      {| app_after := app1; session_after := Some s; reply := Raise e |}
  | (app1, Ok _) =>
      let called :=
        if String.eqb url "upload" then
          match py_getitem "data" data with
          | Raise e => (app1, Raise e)
          | Ok d =>
              let '(c, r) := full_sync_upload (live_col s app1) d s in
              (with_collection app1 (path s) c, r)
          end
        else
          let '(c, r) := full_sync_download (live_col s app1) s in
          (with_collection app1 (path s) c, r) in
      match called with
      | (app2, Raise e) =>
          {| app_after := app2; session_after := Some s; reply := Raise e |}
      | (app2, Ok b) =>
          match run_hook (posthooks app2) url s app2 with
          | (app3, Raise e) =>
              {| app_after := app3; session_after := Some s; reply := Raise e |}
          | (app3, Ok _) =>
              {| app_after := app3; session_after := Some s; reply := Ok b |}
          end
      end
  end.

(** The branch of the media-sync path, once the session is there and
    the name is one of [valid_urls]. *)
Definition run_media `{Codec} `{Collaborators} (url : string) (data : value)
    (session : SyncUserSession) (app : SyncApp) : Outcome :=
  match (if String.eqb url "begin"
         then py_setitem "skey" (skey_value session) data
         else Ok data) with
  | Raise e => {| app_after := app; session_after := Some session; reply := Raise e |}
  | Ok data' =>
      match _execute_handler_method_in_thread url data' session app with
      | (app1, s1, Raise e) =>
          {| app_after := app1; session_after := Some s1; reply := Raise e |}
      | (app1, s1, Ok r) =>
          {| app_after := app1; session_after := Some s1; reply := serialize false r |}
      end
  end.

Definition __call__ `{Codec} `{Gzip} `{Collaborators} (req : Request) (app : SyncApp)
  : Outcome :=
  let session := resolve_session req app in
  let fail e := {| app_after := app; session_after := session; reply := Raise e |} in
  match request_data req with
  | Raise e => fail e
  | Ok data =>
      if startswith (req_path req) (base_url app) then
        let url := drop_prefix (String.length (base_url app)) (req_path req) in
        if negb (mem url valid_urls) then fail HTTPNotFound
        else if String.eqb url "hostKey" then
          match (u <- py_get "u" data ;; p <- py_get "p" data ;; Ok (u, p)) with
          | Raise e => fail e
          | Ok (u, p) =>
              match operation_hostKey u p app with
              | (app1, Raise e) =>
                  {| app_after := app1; session_after := session; reply := Raise e |}
              | (app1, Ok (Some r)) =>
                  {| app_after := app1; session_after := session;
                     reply := (t <- json_dumps r ;; Ok (Str t)) |}
              | (app1, Ok None) =>
                  {| app_after := app1; session_after := session;
                     reply := Raise (HTTPForbidden "null") |}
              end
          end
        else
          match session with
          | None => fail (HTTPForbidden "")
          | Some s =>
              if mem url (CollectionHandler.operations ++ MediaHandler.operations)
              then run_operation req url data s app
              else if String.eqb url "upload" || String.eqb url "download"
              then run_full_sync url data s app
              else fail HTTPInternalServerError
          end
      else if startswith (req_path req) (base_media_url app) then
        match session with
        | None => fail (HTTPForbidden "")
        | Some s =>
            let url := drop_prefix (String.length (base_media_url app)) (req_path req) in
            if negb (mem url valid_urls) then fail HTTPNotFound
            else run_media url data s app
        end
      else {| app_after := app; session_after := session;
              reply := Ok (Str "Anki Sync Server") |}
  end.

(** *** The backwards-compatible hook properties

    [hook_pre_sync], [hook_post_sync], [hook_upload] and
    [hook_download] read and write one entry of [prehooks] or
    [posthooks]. *)

Definition with_prehooks (app : SyncApp) (hs : gmap string hook) : SyncApp :=
  {| data_root := data_root app;
     base_url := base_url app; base_media_url := base_media_url app;
     sessions := sessions app; collections := collections app;
     prehooks := hs; posthooks := posthooks app |}.

Definition with_posthooks (app : SyncApp) (hs : gmap string hook) : SyncApp :=
  {| data_root := data_root app;
     base_url := base_url app; base_media_url := base_media_url app;
     sessions := sessions app; collections := collections app;
     prehooks := prehooks app; posthooks := hs |}.

Definition hook_pre_sync (app : SyncApp) : option hook := prehooks app !! "start".

Definition set_hook_pre_sync (value : hook) (app : SyncApp) : SyncApp :=
  with_prehooks app (<["start" := value]> (prehooks app)).

Definition hook_post_sync (app : SyncApp) : option hook := posthooks app !! "finish".

Definition set_hook_post_sync (value : hook) (app : SyncApp) : SyncApp :=
  with_posthooks app (<["finish" := value]> (posthooks app)).

Definition hook_upload (app : SyncApp) : option hook := prehooks app !! "upload".

Definition set_hook_upload (value : hook) (app : SyncApp) : SyncApp :=
  with_prehooks app (<["upload" := value]> (prehooks app)).

Definition hook_download (app : SyncApp) : option hook := posthooks app !! "download".

Definition set_hook_download (value : hook) (app : SyncApp) : SyncApp :=
  with_posthooks app (<["download" := value]> (posthooks app)).

(** *** [__init__]

    [config] is the mapping the application is made from, [abspath] is
    [os.path.abspath], and [store] is what the session manager holds;
    the managers themselves are taken as built. *)
Definition with_slash (url : string) : string :=
  if endswith url "/" then url else url +:+ "/".

Definition __init__ (abspath : string -> string) (config : gmap string string)
    (store : gmap (option string) SyncUserSession) : res SyncApp :=
  match config !! "data_root", config !! "base_url", config !! "base_media_url" with
  | Some root, Some url, Some media_url =>
      Ok {| data_root := abspath root;
            base_url := with_slash url; base_media_url := with_slash media_url;
            sessions := store; collections := ∅;
            prehooks := ∅; posthooks := ∅ |}
  | _, _, _ => Raise KeyError
  end.

End App.

(** ** SyncAppController (ankisyncd/__main__.py) *)

Module Controller.

(** [os.getenv(key)] on the items of [os.environ], in its order. *)
Fixpoint getenv (key : string) (environ : list (string * string)) : option string :=
  match environ with
  | [] => None
  | (k, v) :: rest => if String.eqb key k then Some v else getenv key rest
  end.

(** The loop of [get_config_from_os_env] over the names that start
    with [ANKISYNCD_]. *)
Definition env_step (environ : list (string * string)) (conf : gmap string string)
    (key : string) : gmap string string :=
  match getenv key environ with
  | Some v => <[lower (drop_prefix 10 key) := v]> conf
  | None => conf
  end.

Definition get_config_from_os_env (environ : list (string * string))
  : gmap string string :=
  let key_in_os_envs_for_anki :=
    List.filter (fun os_env => startswith os_env "ANKISYNCD_") (map fst environ) in
  fold_left (env_step environ) key_in_os_envs_for_anki ∅.

(** [get_config_from_files]: the section [sync_app] of the file at
    [settings.config_path] as the parser read it, [None] when the file
    has no such section. *)
Definition get_config_from_files (sync_app : option (gmap string string))
  : res (gmap string string) :=
  match sync_app with
  | Some conf => Ok conf
  | None => Raise KeyError
  end.

(** [config.update(other)] *)
Definition update (config other : gmap string string) : gmap string string :=
  other ∪ config.

Definition load_config (sync_app : option (gmap string string))
    (environ : list (string * string)) : res (gmap string string) :=
  from_files <- get_config_from_files sync_app ;;
  Ok (update (update ∅ from_files) (get_config_from_os_env environ)).

(** The arguments [make_server] hands to [make_wsgi_server]. *)
Record Server : Type := { host : string; port : Z; app : SyncApp }.

Definition make_server (abspath : string -> string)
    (store : gmap (option string) SyncUserSession) (config : gmap string string)
  : res Server :=
  match config !! "host" with
  | None => Raise KeyError
  | Some h =>
      match config !! "port" with
      | None => Raise KeyError
      | Some p =>
          n <- int_of_str p ;;
          a <- App.__init__ abspath config store ;;
          Ok {| host := h; port := n; app := a |}
      end
  end.

End Controller.

(** ** The vocabulary of the statements *)

(** *** Tombstones *)

(** The three kinds of tombstone, as [removed] tells them apart. *)
Definition is_card `{AnkiConsts} (row : GraveRow) : bool := g_type row =? REM_CARD.
Definition is_note `{AnkiConsts} (row : GraveRow) : bool :=
  negb (g_type row =? REM_CARD) && (g_type row =? REM_NOTE).
Definition is_deck `{AnkiConsts} (row : GraveRow) : bool :=
  negb (g_type row =? REM_CARD) && negb (g_type row =? REM_NOTE).

Definition oids (kind : GraveRow -> bool) (l : list GraveRow) : list Z :=
  map g_oid (List.filter kind l).

(** The rows of the graves table at or above a usn. *)
Definition graves_since (min_usn : Z) (c : Collection) : list GraveRow :=
  List.filter (fun row => g_usn row >=? min_usn) (graves c).

(** The handler as [start] leaves it when the query of [removed] has
    been reached: the three attributes stored, the collection as it
    was. *)
Definition started (min_usn : Z) (lnewer_arg : bool) (h : SyncCollectionHandler)
  : SyncCollectionHandler :=
  {| col := col h; maxUsn := Some (_usn (col h));
     minUsn := Some min_usn; lnewer := Some (negb lnewer_arg) |}.

(** *** Archives *)

Definition member_size (m : string * bytes) : Z := Z.of_nat (length (snd m)).

Definition total_size (l : list (string * bytes)) : Z :=
  fold_right Z.add 0 (map member_size l).

(** The place of a regular file that a name leads to for an access. *)
Definition place `{MediaDir} (a : Access) (name : string) : option string :=
  match locate a name with
  | Ok (RegularFile key) => Some key
  | _ => None
  end.

(** The regular file a name leads to for reading, when there is one. *)
Definition file_at `{MediaDir} (dir : gmap string bytes) (name : string)
  : option bytes :=
  match place ForRead name with
  | Some key => dir !! key
  | None => None
  end.

(** The bytes a request for [files_arg] asks for, read off the files
    [dir]. *)
Definition requested_size `{MediaDir} (dir : gmap string bytes)
    (files_arg : list string) : Z :=
  fold_right Z.add 0
    (map (fun name => Z.of_nat (length (default [] (file_at dir name)))) files_arg).

(** An element of [_meta] that marks a deletion: it unpacks into two
    and its ordinal is the empty string. *)
Definition is_deletion (elem : value) : bool :=
  match unpack2 elem with
  | Ok (_, ordinal) => is_empty_str ordinal
  | Raise _ => false
  end.

Definition deletions (elems : list value) : nat :=
  length (List.filter is_deletion elems).

(** The archive members the handler adds: all but [_meta]. *)
Definition is_added (i : ZipInfo) : bool := negb (String.eqb (filename i) "_meta").

Definition added (z : list ZipInfo) : nat := length (List.filter is_added z).

(** The media index: the rows of the media table and [lastUsn]. *)
Definition index (m : MediaManager) : list MediaRow * Z := (rows m, last_usn m).

(** The [_meta] a client writes: a list of [[name, ordinal]] pairs of
    strings. *)
Definition meta_pair (p : string * string) : value :=
  VList [VStr (fst p); VStr (snd p)].

Definition meta_of (pairs : list (string * string)) : value :=
  VList (map meta_pair pairs).

Definition empty_ordinal (p : string * string) : bool := String.eqb (snd p) "".

(** The name the loop over the members gives the member [i]:
    [self._normalize_filename(meta[int(i.filename)][0])]. *)
Definition member_name `{MediaEnv} (meta : value) (i : ZipInfo) : res string :=
  idx <- int_of_str (filename i) ;;
  elem <- py_index meta idx ;;
  n <- py_index elem 0 ;;
  MediaHandler._normalize_filename n.

(** The names [_meta] marks as deleted, as the first loop collects them. *)
Definition deleted_names `{MediaEnv} (pairs : list (string * string)) : list string :=
  map (fun p => normalize (fst p)) (List.filter empty_ordinal pairs).

(** [data] is a valid upload with entries [z] and meta [pairs]: it
    opens as a zip within the size limits, its [_meta] reads as
    [pairs], every other member is named by an index into [pairs], the
    pairs with an empty ordinal and the other members together are as
    many as the pairs, the name of every such member leads to a place
    where a regular file can be written, and no name marked as deleted
    makes [os.remove] raise anything but an [OSError]. *)
Record valid_upload `{Codec} `{MediaEnv} `{MediaDir} (data : bytes) (z : list ZipInfo)
    (pairs : list (string * string)) : Prop := {
  valid_open : zip_open data = Ok z;
  valid_sizes : MediaHandler._check_zip_data z = Ok tt;
  valid_meta : MediaHandler.read_meta z = Ok (meta_of pairs);
  valid_members :
    forall i, In i z -> is_added i = true ->
      exists idx, int_of_str (filename i) = Ok idx /\
                  - Z.of_nat (length pairs) <= idx < Z.of_nat (length pairs);
  valid_count :
    length pairs = (length (List.filter empty_ordinal pairs) + added z)%nat;
  valid_writable :
    forall i n, In i z -> is_added i = true ->
      member_name (meta_of pairs) i = Ok n ->
      exists key, locate ForWrite n = Ok (RegularFile key);
  valid_removable :
    forall n e, In n (deleted_names pairs) ->
      locate ForRemove n = Raise e -> is_OSError e = true
}.

(** The files an archive adds, in the order of its members: the name
    and the bytes of every member but [_meta]. *)
Definition added_files `{MediaEnv} (meta : value) (z : list ZipInfo)
  : list (string * bytes) :=
  flat_map (fun i =>
              if is_added i then
                match member_name meta i with
                | Ok n => [(n, content i)]
                | Raise _ => []
                end
              else []) z.

(** The same by place: the key of the place each added file is written
    to, with the bytes. *)
Definition written_files `{MediaEnv} `{MediaDir} (meta : value) (z : list ZipInfo)
  : list (string * bytes) :=
  flat_map (fun f => match place ForWrite (fst f) with
                     | Some key => [(key, snd f)]
                     | None => []
                     end) (added_files meta z).

(** The places of the files that [os.remove] is to remove. *)
Definition removed_places `{MediaDir} (filenames : list string) : list string :=
  flat_map (fun name => match place ForRemove name with
                        | Some key => [key]
                        | None => []
                        end) filenames.

(** The row [(filename, csum, mtime, 0)] of an added file. *)
Definition row_of_file `{MediaEnv} (f : string * bytes) : MediaRow :=
  {| fname := fst f; csum := Some (checksum (snd f));
     mtime := path_mtime (fst f); dirty := 0 |}.

(** The bytes of the last of the added files that goes by the name. *)
Definition last_written (adds : list (string * bytes)) (n : string) : option bytes :=
  option_map snd (List.find (fun f => String.eqb (fst f) n) (rev adds)).



(** The [usn] a model, deck or deck configuration carries, when it is
    a dict with a number under that key. *)
Definition usn_of (g : value) : option Z :=
  match py_getitem "usn" g with
  | Ok u => as_int u
  | Raise _ => None
  end.

Definition changed_since (min_usn : Z) (g : value) : bool :=
  match usn_of g with
  | Some u => u >=? min_usn
  | None => false
  end.

(** The same for an item [(tag, usn)] of the tags. *)
Definition tag_item (item : string * Z) : value :=
  VList [VStr (fst item); VInt (snd item)].

(** The names a method of [SyncMediaHandler] can be given. *)
Definition media_parameters : list string :=
  ["skey"; "lastUsn"; "local"; "data"; "files"].

(** *** Handlers *)

(** The handler object a collection operation runs on. *)
Definition collection_handler_of (s : SyncUserSession) (c : Collection)
  : SyncCollectionHandler :=
  CollectionHandler.with_col
    (default (new_collection_handler c) (collection_handler s)) c.

(** ** The setting of the examples: Anki 2.1

    The constants of [anki/consts.py], and the part of
    [anki.sync.Syncer] that the examples run: on the server [remove]
    logs a tombstone at the collection's usn for every note and card id
    and for every deck id but the default deck's, notes first (the rows
    of the cards, notes and decks themselves are not modelled), and
    [finish(mod)] sets the collection's usn to [maxUsn + 1], saves with
    modification time [mod] and returns [mod]. *)
Module Anki21.

Definition consts : AnkiConsts :=
  {| SYNC_VER := 9; SYNC_ZIP_SIZE := 2621440; SYNC_ZIP_COUNT := 25;
     REM_CARD := 0; REM_NOTE := 1 |}.

Definition log_rem (usn : Z) (ids : list Z) (type : Z) : list GraveRow :=
  map (fun id => {| g_usn := usn; g_oid := id; g_type := type |}) ids.

Definition remove (g : Graves) (c : Collection) : Collection :=
  {| scm := scm c; col_mod := col_mod c; _usn := _usn c; sched_ver := sched_ver c;
     graves := graves c
               ++ log_rem (_usn c) (notes g) (@REM_NOTE consts)
               ++ log_rem (_usn c) (cards g) (@REM_CARD consts)
               ++ log_rem (_usn c) (List.filter (fun d => negb (d =? 1)) (decks g)) 2;
     media := media c |}.

Definition finish_base (mod_time : Z) (h : SyncCollectionHandler)
  : SyncCollectionHandler * res value :=
  match maxUsn h with
  | None => (h, Raise AttributeError)
  | Some m =>
      (CollectionHandler.with_col h
         {| scm := scm (col h); col_mod := mod_time; _usn := m + 1;
            sched_ver := sched_ver (col h); graves := graves (col h);
            media := media (col h) |},
       Ok (VInt mod_time))
  end.

Definition syncer : Syncer :=
  {| Syncer_remove := remove; Syncer_finish := finish_base |}.

Definition empty_media : MediaManager :=
  {| db_open := true; last_usn := 0; rows := []; files := ∅ |}.

(** A collection at usn 5 with no tombstones and an empty media store. *)
Definition col5 : Collection :=
  {| scm := 1; col_mod := 2; _usn := 5; sched_ver := 1; graves := [];
     media := empty_media |}.

End Anki21.

(** *** A media directory for the examples

    A media directory without subdirectories, in a parent directory
    the server can read and write.  A name with a NUL character is no
    path; [./] in front of a name changes nothing; the empty name, [.]
    and [..] are directories; [../name] is a place in the parent
    directory; any other name with a slash leads through a directory
    that is not there, and a name of more than 255 characters is too
    long; every other name is the place of that name in the media
    directory. *)
Module Posix.

Definition NUL : string := String "000" "".

Fixpoint strip_dot (name : string) : string :=
  match name with
  | String "." (String "/" rest) => strip_dot rest
  | _ => name
  end.

Definition locate_flat (name : string) : res Place :=
  if contains NUL name then Raise ValueError
  else
    let rest := strip_dot name in
    if String.eqb rest "" || String.eqb rest "." || String.eqb rest ".."
    then Ok (Directory 4096)
    else if String.prefix "../" rest
            && negb (String.eqb rest "../")
            && negb (contains "/" (drop_prefix 3 rest))
    then Ok (RegularFile rest)
    else if contains "/" rest then Raise OSError
    else if 255 <? Z.of_nat (String.length rest) then Raise OSError
    else Ok (RegularFile rest).

Definition flat : MediaDir := {| locate := fun _ name => locate_flat name |}.

End Posix.

(** A handler on the example collection whose graves table holds one
    card tombstone, logged at the collection's own usn. *)
Definition handler_at_watermark : SyncCollectionHandler :=
  new_collection_handler
    {| scm := 1; col_mod := 2; _usn := 5; sched_ver := 1;
       graves := [{| g_usn := 5; g_oid := 1; g_type := 0 |}];
       media := Anki21.empty_media |}.

(** A handler whose only tombstone is older than the watermark. *)
Definition handler_below_watermark : SyncCollectionHandler :=
  new_collection_handler
    {| scm := 1; col_mod := 2; _usn := 5; sched_ver := 1;
       graves := [{| g_usn := 3; g_oid := 1; g_type := 0 |}];
       media := Anki21.empty_media |}.

(** A media directory with a one-byte file, asked for thirty times. *)
Definition one_file_handler : MediaHandler.SyncMediaHandler :=
  {| MediaHandler.col :=
       {| scm := 1; col_mod := 2; _usn := 5; sched_ver := 1; graves := [];
          media := {| db_open := true; last_usn := 0; rows := [];
                      files := {["a.jpg" := [Byte.x61]]} |} |} |}.

(** The same, with a file beside the media directory. *)
Definition outside_file_handler : MediaHandler.SyncMediaHandler :=
  {| MediaHandler.col :=
       {| scm := 1; col_mod := 2; _usn := 5; sched_ver := 1; graves := [];
          media := {| db_open := true; last_usn := 0; rows := [];
                      files := {["a.jpg" := [Byte.x61];
                                 "../outside.txt" := [Byte.x62]]} |} |} |}.

(** A media directory with an empty file. *)
Definition empty_file_handler : MediaHandler.SyncMediaHandler :=
  {| MediaHandler.col :=
       {| scm := 1; col_mod := 2; _usn := 5; sched_ver := 1; graves := [];
          media := {| db_open := true; last_usn := 0; rows := [];
                      files := {["empty.txt" := []]} |} |} |}.

(** *** The scenario of the specification

    [_meta] is [[["foo.jpg", ""], ["bar.jpg", "1"]]] and the member [1]
    holds three bytes; the server knows [foo.jpg]. The codec and the
    reader of the archive stand in for the library: the text of
    [_meta] is taken as read, and the archive as opened. *)
Module Scenario.

Definition meta : value :=
  meta_of [("foo.jpg", ""); ("bar.jpg", "1")].

Definition zip : list ZipInfo :=
  [{| filename := "1"; file_size := 3;
      content := [Byte.x01; Byte.x02; Byte.x03] |};
   {| filename := "_meta"; file_size := 34; content := [] |}].

Definition codec : Codec :=
  {| json_loads := fun _ => Ok meta;
     json_dumps := fun _ => Raise TypeError;
     decode := fun _ => Ok "" |}.

Definition env : MediaEnv :=
  {| zip_open := fun _ => Ok zip;
     checksum := fun _ => "7037807198c22a7d2b0807371d763779a84fdfcf";
     normalize := fun name => name;
     path_mtime := fun _ => 1600000000 |}.

Definition handler : MediaHandler.SyncMediaHandler :=
  {| MediaHandler.col :=
       {| scm := 1; col_mod := 2; _usn := 5; sched_ver := 1; graves := [];
          media := {| db_open := true; last_usn := 7;
                      rows := [{| fname := "foo.jpg"; csum := Some "aa";
                                  mtime := 1500000000; dirty := 0 |}];
                      files := {["foo.jpg" := [Byte.x09]]} |} |} |}.

(** An archive whose [_meta] names a member that is not there. *)
Definition zip_missing_member : list ZipInfo :=
  [{| filename := "_meta"; file_size := 34; content := [] |}].

Definition env_missing_member : MediaEnv :=
  {| zip_open := fun _ => Ok zip_missing_member;
     checksum := checksum (MediaEnv := env);
     normalize := fun name => name;
     path_mtime := fun _ => 1600000000 |}.

(** An archive whose [_meta] declares 100001 bytes. *)
Definition env_big_meta : MediaEnv :=
  {| zip_open := fun _ =>
       Ok [{| filename := "_meta"; file_size := 100001; content := [] |}];
     checksum := checksum (MediaEnv := env);
     normalize := fun name => name;
     path_mtime := fun _ => 1600000000 |}.

(** An archive with the members [0] and [00]: both name the first
    entry of [_meta], and none names the second. *)
Definition meta_two_adds : value :=
  meta_of [("foo.jpg", "0"); ("bar.jpg", "1")].

Definition zip_same_entry : list ZipInfo :=
  [{| filename := "0"; file_size := 1; content := [Byte.x01] |};
   {| filename := "00"; file_size := 1; content := [Byte.x02] |};
   {| filename := "_meta"; file_size := 35; content := [] |}].

Definition codec_same_entry : Codec :=
  {| json_loads := fun _ => Ok meta_two_adds;
     json_dumps := fun _ => Raise TypeError;
     decode := fun _ => Ok "" |}.

Definition env_same_entry : MediaEnv :=
  {| zip_open := fun _ => Ok zip_same_entry;
     checksum := checksum (MediaEnv := env);
     normalize := fun name => name;
     path_mtime := fun _ => 1600000000 |}.

End Scenario.

(** An upload that marks [foo.jpg] as deleted and also holds a member
    written under that name. *)
Module Rewritten.

Definition pairs : list (string * string) := [("foo.jpg", ""); ("foo.jpg", "1")].

Definition zip : list ZipInfo :=
  [{| filename := "1"; file_size := 3;
      content := [Byte.x01; Byte.x02; Byte.x03] |};
   {| filename := "_meta"; file_size := 34; content := [] |}].

Definition codec : Codec :=
  {| json_loads := fun _ => Ok (meta_of pairs);
     json_dumps := fun _ => Raise TypeError;
     decode := fun _ => Ok "" |}.

Definition env : MediaEnv :=
  {| zip_open := fun _ => Ok zip;
     checksum := checksum (MediaEnv := Scenario.env);
     normalize := fun name => name;
     path_mtime := fun _ => 1600000000 |}.

End Rewritten.

(** Uploads whose names are no plain file names: a member for
    [sub/x.jpg], where the media directory has no [sub]; a member for
    [./foo.jpg] beside the deletion of [foo.jpg]; and the deletion of
    [foo.jpg] and of a name with a NUL character. *)
Module Uploads.

Definition codec (pairs : list (string * string)) : Codec :=
  {| json_loads := fun _ => Ok (meta_of pairs);
     json_dumps := fun _ => Raise TypeError;
     decode := fun _ => Ok "" |}.

Definition env (zip : list ZipInfo) : MediaEnv :=
  {| zip_open := fun _ => Ok zip;
     checksum := checksum (MediaEnv := Scenario.env);
     normalize := fun name => name;
     path_mtime := fun _ => 1600000000 |}.

Definition one_member : list ZipInfo :=
  [{| filename := "0"; file_size := 1; content := [Byte.x01] |};
   {| filename := "_meta"; file_size := 24; content := [] |}].

Definition only_meta : list ZipInfo :=
  [{| filename := "_meta"; file_size := 24; content := [] |}].

Definition subdirectory : list (string * string) := [("sub/x.jpg", "0")].

Definition aliased : list (string * string) := [("./foo.jpg", "0"); ("foo.jpg", "")].

Definition nul_deleted : list (string * string) :=
  [("foo.jpg", ""); (String "a" Posix.NUL, "")].

End Uploads.

(** *** A small server for the examples

    Stand-ins for what a request needs from outside: a codec that does
    not decode anything, handler methods that answer with their family
    and name, except [meta], which is the collection handler's own
    [meta] at clock 0 with the integer [v] and the string [cv] of the
    payload, and one session under the host key [hk]. *)
Module Demo.

Definition codec : Codec :=
  {| json_loads := fun _ => Raise JSONDecodeError;
     json_dumps := fun _ => Ok "null";
     decode := fun _ => Raise UnicodeDecodeError |}.

Definition gz : Gzip := {| gunzip := fun b => Ok b |}.

Definition kw_int (k : string) (data : value) : option Z :=
  match py_get k data with
  | Ok (VInt z) => Some z
  | _ => None
  end.

Definition kw_str (k : string) (data : value) : option string :=
  match py_get k data with
  | Ok (VStr s) => Some s
  | _ => None
  end.

Definition collab : Collaborators :=
  {| collection_method := fun name data h =>
       if String.eqb name "meta"
       then @CollectionHandler.meta Anki21.consts 0%float (kw_int "v" data) (kw_str "cv" data) h
       else (h, Ok (Value (VStr ("collection:" +:+ name))));
     media_method := fun name data h => (h, Ok (Value (VStr ("media:" +:+ name))));
     col_save := fun c => c;
     open_collection := fun _ => Anki21.col5;
     authenticate := fun _ _ => false;
     userdir := fun _ => None;
     generateHostKey := fun _ => "hk";
     _generate_session_key := "sk";
     path_exists := fun _ => true;
     mkdir := fun _ => Raise OSError;
     full_sync_upload := fun c _ _ => (c, Ok (Str "OK"));
     full_sync_download := fun c _ => (c, Ok (Bytes [])) |}.

Definition session : SyncUserSession :=
  {| ident := 0; skey := Some "sk"; name := VStr "user"; path := "/data/user";
     version := VNone; client_version := VNone;
     collection_handler := None; media_handler := None |}.

Definition app : SyncApp :=
  {| data_root := "/data"; base_url := "/sync/"; base_media_url := "/msync/";
     sessions := {[Some "hk" := session]}; collections := ∅;
     prehooks := ∅; posthooks := ∅ |}.

Definition request (p : string) : Request :=
  {| req_path := p; POST := {["k" := Text "hk"]} |}.

End Demo.

(** A server that knows the user [user] with the password [secret],
    keeps every user's data in the directory of the user's name, and
    reads every payload as the credentials of that user. *)
Module Login.

Definition codec : Codec :=
  {| json_loads := fun _ => Ok (VDict [("u", VStr "user"); ("p", VStr "secret")]);
     json_dumps := fun _ => Ok "{key: hk}";
     decode := fun _ => Ok "" |}.

Definition collab : Collaborators :=
  {| collection_method := collection_method (Collaborators := Demo.collab);
     media_method := media_method (Collaborators := Demo.collab);
     col_save := fun c => c;
     open_collection := fun _ => Anki21.col5;
     authenticate := fun u p =>
       match u, p with
       | VStr a, VStr b => String.eqb a "user" && String.eqb b "secret"
       | _, _ => false
       end;
     userdir := fun u => match u with VStr a => Some a | _ => None end;
     generateHostKey := fun _ => "hk2";
     _generate_session_key := "sk2";
     path_exists := fun p => String.eqb p "/data";
     mkdir := fun p => if String.prefix "/data/" p then Ok tt else Raise OSError;
     full_sync_upload := fun c _ _ => (c, Ok (Str "OK"));
     full_sync_download := fun c _ => (c, Ok (Bytes [])) |}.

Definition request : Request :=
  {| req_path := "/sync/hostKey"; POST := {["data" := File []]} |}.

(** The same server, set up to keep its data in a directory that is
    not there. *)
Definition orphan_app : SyncApp :=
  {| data_root := "/missing"; base_url := "/sync/"; base_media_url := "/msync/";
     sessions := ∅; collections := ∅; prehooks := ∅; posthooks := ∅ |}.

End Login.

(** Requests of the session [hk] with a payload: the payload of a
    [meta] request reads as [{"v": 9, "cv": "ankidesktop,2.1.0,mac"}],
    and an upload is two bytes that are no text. *)
Module Payload.

Definition codec : Codec :=
  {| json_loads := fun _ =>
       Ok (VDict [("v", VInt 9); ("cv", VStr "ankidesktop,2.1.0,mac")]);
     json_dumps := fun _ => Ok "{}";
     decode := fun _ => Ok "" |}.

Definition meta_request : Request :=
  {| req_path := "/sync/meta";
     POST := {["k" := Text "hk"; "data" := File []]} |}.

Definition upload_request : Request :=
  {| req_path := "/sync/upload";
     POST := {["k" := Text "hk"; "data" := File [Byte.xff; Byte.xfe]]} |}.

(** A hook that refuses. *)
Definition refuse : hook := fun c _ => (c, Raise (Exception "refused")).

(** A hook that returns. *)
Definition pass : hook := fun c _ => (c, Ok tt).

(** An upload without a [data] field. *)
Definition empty_upload_request : Request :=
  {| req_path := "/sync/upload"; POST := {["k" := Text "hk"]} |}.

(** A stand-in for gzip: the compressed form of a payload is the
    payload after one marker byte. *)
Definition gz : Gzip :=
  {| gunzip := fun b => match b with
                        | [] => Raise OSError
                        | _ :: rest => Ok rest
                        end |}.

(** An upload with [c = 1]. *)
Definition compressed_request : Request :=
  {| req_path := "/sync/upload";
     POST := {["k" := Text "hk"; "c" := Text "1";
               "data" := File [Byte.x1f; Byte.xff; Byte.xfe]]} |}.

End Payload.

(** A configuration file and an environment: the file has the port
    27701, the environment the port 27702 and a variable that is none
    of the server's. *)
Module Config.

Definition file : gmap string string :=
  {["host" := "0.0.0.0"; "port" := "27701"; "data_root" := "./collections";
    "base_url" := "/sync"; "base_media_url" := "/msync/"]}.

Definition environ : list (string * string) :=
  [("HOME", "/root"); ("ANKISYNCD_PORT", "27702")].

Definition abspath (p : string) : string := "/srv/" +:+ p.

End Config.

(** A server whose media methods are those of [SyncMediaHandler], over
    the scenario's reader of archives; the media count is the number of
    rows with a checksum, and an archive is written as the bytes of its
    members one after the other. *)
Module MediaServer.

Definition lib : MediaLib :=
  {| mediaCount := fun m =>
       Z.of_nat (length (List.filter (fun r => bool_decide (is_Some (csum r))) (rows m)));
     zip_write := fun members => concat (map snd members);
     encode := fun _ => [] |}.

Definition collab : Collaborators :=
  {| collection_method := collection_method (Collaborators := Demo.collab);
     media_method := @call_media_method Anki21.consts Demo.codec Scenario.env lib Posix.flat;
     col_save := fun c => c;
     open_collection := fun _ => MediaHandler.col Scenario.handler;
     authenticate := fun _ _ => false;
     userdir := fun _ => None;
     generateHostKey := fun _ => "hk";
     _generate_session_key := "sk";
     path_exists := fun _ => true;
     mkdir := fun _ => Raise OSError;
     full_sync_upload := fun c _ _ => (c, Ok (Str "OK"));
     full_sync_download := fun c _ => (c, Ok (Bytes [])) |}.

(** The payload of every request reads as [{"files": ["foo.jpg"]}]. *)
Definition files_codec : Codec :=
  {| json_loads := fun _ => Ok (VDict [("files", VList [VStr "foo.jpg"])]);
     json_dumps := fun _ => Ok "{}";
     decode := fun _ => Ok "" |}.

Definition files_collab : Collaborators :=
  {| collection_method := collection_method (Collaborators := Demo.collab);
     media_method := @call_media_method Anki21.consts files_codec Scenario.env lib Posix.flat;
     col_save := fun c => c;
     open_collection := fun _ => MediaHandler.col Scenario.handler;
     authenticate := fun _ _ => false;
     userdir := fun _ => None;
     generateHostKey := fun _ => "hk";
     _generate_session_key := "sk";
     path_exists := fun _ => true;
     mkdir := fun _ => Raise OSError;
     full_sync_upload := fun c _ _ => (c, Ok (Str "OK"));
     full_sync_download := fun c _ => (c, Ok (Bytes [])) |}.

Definition download_request : Request :=
  {| req_path := "/msync/downloadFiles";
     POST := {["k" := Text "hk"; "data" := File []]} |}.

End MediaServer.

(** Two models of a collection, one last changed at usn 2 and one at
    usn 6. *)
Definition two_models : list value :=
  [VDict [("id", VInt 1); ("usn", VInt 2)]; VDict [("id", VInt 2); ("usn", VInt 6)]].

(** A configuration whose collection path is a prefix of its media
    path. *)
Definition shadowed_app : SyncApp :=
  {| data_root := "/data"; base_url := "/"; base_media_url := "/msync/";
     sessions := {[Some "hk" := Demo.session]}; collections := ∅;
     prehooks := ∅; posthooks := ∅ |}.

(** A request that carries no key. *)
Definition anonymous_request (p : string) : Request :=
  {| req_path := p; POST := ∅ |}.

(** * Properties *)

(** ** The built-ins on examples *)

Example split_examples :
  split "ankidesktop,2.0.26,mac" "," = ["ankidesktop"; "2.0.26"; "mac"] /\
  split "2.3alpha" "alpha" = ["2.3"; ""] /\
  split "a,,b," "," = ["a"; ""; "b"; ""] /\
  split "aaa" "aa" = [""; "a"] /\
  split "" "," = [""].
Proof. repeat split; reflexivity. Qed.

Example int_of_str_examples :
  int_of_str " -1_000 " = Ok (-1000) /\ int_of_str "+7" = Ok 7 /\
  int_of_str "0027" = Ok 27 /\ int_of_str "" = Raise ValueError /\
  int_of_str "1__0" = Raise ValueError /\ int_of_str "- 3" = Raise ValueError /\
  int_of_str "_1" = Raise ValueError /\ int_of_str "4b" = Raise ValueError.
Proof. repeat split; reflexivity. Qed.

Example sub_nosuffix_examples :
  sub_nosuffix "2.1.0-b5" = "2.1.0" /\ sub_nosuffix "2.0.26" = "2.0.26" /\
  sub_nosuffix (String "2" (String "a" (String "010" "3"))) = "2a" /\
  sub_nosuffix (String "2" (String "a" (String "010" ""))) = "2".
Proof. repeat split; reflexivity. Qed.

Example list_lt_examples :
  list_lt [2; 0; 26] [2; 0; 27] = true /\ list_lt [2; 1] [2; 0; 27] = false /\
  list_lt [2; 0] [2; 0; 27] = true /\ list_lt [2; 0; 27] [2; 0; 27] = false.
Proof. repeat split; reflexivity. Qed.

Example old_client_examples :
  CollectionHandler._old_client (Some "ankidesktop,2.0.26,mac") = Ok (Some true) /\
  CollectionHandler._old_client (Some "ankidesktop,2.1.0beta5,win") = Ok (Some false) /\
  CollectionHandler._old_client (Some "ankidroid,2.3alpha3,android") = Ok (Some true) /\
  CollectionHandler._old_client (Some "ankidroid,2.3alpha4,android") = Ok (Some false) /\
  CollectionHandler._old_client (Some "ankidroid,2.3beta1,android") = Ok None /\
  CollectionHandler._old_client (Some "ankidroid,2.2.2,android") = Ok (Some true) /\
  CollectionHandler._old_client (Some "ankimobile,2.0.50,ios") = Ok (Some false) /\
  CollectionHandler._old_client (Some "ankimobile") = Raise ValueError /\
  CollectionHandler._old_client (Some "") = Ok (Some false) /\
  CollectionHandler._old_client None = Ok (Some false).
Proof. repeat split; vm_compute; reflexivity. Qed.

(** ** The collection handler: [start], [removed] *)

Section Tombstones.

Context `{consts : AnkiConsts} `{syncer : Syncer}.

Import CollectionHandler.

(** The loop of [removed] appends, to each of the three lists, the ids
    of the rows of its kind, in row order. *)
Lemma removed_loop (l : list GraveRow) :
  forall acc : Graves,
    fold_left removed_step l acc =
    {| cards := cards acc ++ oids is_card l;
       notes := notes acc ++ oids is_note l;
       decks := decks acc ++ oids is_deck l |}.
Proof.
  induction l as [|row l IH]; intros acc; simpl.
  - unfold oids; simpl. rewrite !app_nil_r. by destruct acc.
  - rewrite IH. unfold removed_step, oids, is_card, is_note, is_deck; simpl.
    destruct (g_type row =? REM_CARD); simpl;
      [|destruct (g_type row =? REM_NOTE); simpl];
      rewrite <- ?app_assoc; reflexivity.
Qed.

Lemma removed_select (m : Z) (h : SyncCollectionHandler) :
  minUsn h = Some m ->
  sqlite_int m = true ->
  removed h =
  Ok {| cards := oids is_card (graves_since m (col h));
        notes := oids is_note (graves_since m (col h));
        decks := oids is_deck (graves_since m (col h)) |}.
Proof.
  intros Hm Hint. unfold removed, select_graves. rewrite Hm, Hint. cbn [bind].
  rewrite removed_loop. reflexivity.
Qed.

Lemma removed_overflow (m : Z) (h : SyncCollectionHandler) :
  minUsn h = Some m ->
  sqlite_int m = false ->
  removed h = Raise OverflowError.
Proof.
  intros Hm Hint. unfold removed, select_graves. by rewrite Hm, Hint.
Qed.

Lemma In_oids (kind : GraveRow -> bool) (m : Z) (c : Collection) (oid : Z) :
  In oid (oids kind (graves_since m c)) <->
  exists row, In row (graves c) /\ g_oid row = oid /\ m <= g_usn row /\ kind row = true.
Proof.
  unfold oids, graves_since. rewrite in_map_iff. split.
  - intros (row & Hoid & Hin). apply filter_In in Hin as [Hin Hk].
    apply filter_In in Hin as [Hin Hu]. exists row. repeat split; auto. lia.
  - intros (row & Hin & Hoid & Hu & Hk). exists row. split; [done|].
    apply filter_In. split; [|done]. apply filter_In. split; [done|]. lia.
Qed.

(** No row at or above the threshold: nothing is selected. *)
Lemma graves_since_below (m : Z) (c : Collection) :
  (forall row, In row (graves c) -> g_usn row < m) ->
  graves_since m c = [].
Proof.
  unfold graves_since. induction (graves c) as [|row l IH]; intros Hlt; simpl.
  - reflexivity.
  - assert (g_usn row < m) as Hrow by (apply Hlt; now left).
    destruct (g_usn row >=? m) eqn:E; [lia|].
    apply IH. intros r Hr. apply Hlt. now right.
Qed.

(** What [start] computes, in closed form, for a [minUsn] that SQLite
    can bind. *)
Lemma start_result (min_usn : Z) (lnewer_arg : bool) (g : Graves)
    (h : SyncCollectionHandler) :
  sqlite_int min_usn = true ->
  start min_usn lnewer_arg g h =
    ({| col := Syncer_remove g (col h);
        maxUsn := Some (_usn (col h));
        minUsn := Some min_usn;
        lnewer := Some (negb lnewer_arg) |},
     Ok {| cards := oids is_card (graves_since min_usn (col h));
           notes := oids is_note (graves_since min_usn (col h));
           decks := oids is_deck (graves_since min_usn (col h)) |}).
Proof.
  intros Hint. unfold start. cbv zeta.
  erewrite removed_select by (reflexivity || exact Hint). reflexivity.
Qed.

(** For any other [minUsn] the query raises, and [start] with it: the
    attributes are stored and the client's tombstones are not
    applied. *)
Lemma start_overflow (min_usn : Z) (lnewer_arg : bool) (g : Graves)
    (h : SyncCollectionHandler) :
  sqlite_int min_usn = false ->
  start min_usn lnewer_arg g h = (started min_usn lnewer_arg h, Raise OverflowError).
Proof.
  intros Hint. unfold start. cbv zeta.
  erewrite removed_overflow by (reflexivity || exact Hint). reflexivity.
Qed.

(** C4, as amended: for a [minUsn] that is an SQLite integer, [start]
    stores [maxUsn], [minUsn] and the negated [lnewer], returns the
    server's tombstones read from the collection as it was before the
    client's tombstones were applied, and leaves the collection with
    the client's tombstones applied; the returned ids are, kind by
    kind, those of the grave rows with usn >= minUsn.  For any other
    [minUsn] it stores the three attributes and raises
    [OverflowError] at the query, the client's tombstones not
    applied. *)
Theorem start_returns_server_graves
    (min_usn : Z) (lnewer_arg : bool) (g : Graves) (h : SyncCollectionHandler) :
  (- 2 ^ 63 <= min_usn < 2 ^ 63 ->
   exists T : Graves,
     start min_usn lnewer_arg g h =
       ({| col := Syncer_remove g (col h);
           maxUsn := Some (_usn (col h));
           minUsn := Some min_usn;
           lnewer := Some (negb lnewer_arg) |}, Ok T) /\
     removed {| col := col h; maxUsn := Some (_usn (col h));
                minUsn := Some min_usn; lnewer := Some (negb lnewer_arg) |} = Ok T /\
     (forall oid, In oid (cards T) <->
        exists row, In row (graves (col h)) /\ g_oid row = oid /\
                    min_usn <= g_usn row /\ g_type row = REM_CARD) /\
     (forall oid, In oid (notes T) <->
        exists row, In row (graves (col h)) /\ g_oid row = oid /\
                    min_usn <= g_usn row /\
                    g_type row <> REM_CARD /\ g_type row = REM_NOTE) /\
     (forall oid, In oid (decks T) <->
        exists row, In row (graves (col h)) /\ g_oid row = oid /\
                    min_usn <= g_usn row /\
                    g_type row <> REM_CARD /\ g_type row <> REM_NOTE)) /\
  (min_usn < - 2 ^ 63 \/ 2 ^ 63 <= min_usn ->
   start min_usn lnewer_arg g h =
     ({| col := col h; maxUsn := Some (_usn (col h));
         minUsn := Some min_usn; lnewer := Some (negb lnewer_arg) |},
      Raise OverflowError)).
Proof.
  split.
  2: { intros Hout. apply start_overflow. unfold sqlite_int.
       apply andb_false_iff. destruct Hout; [left|right]; lia. }
  intros Hrange.
  assert (sqlite_int min_usn = true) as Hint
    by (unfold sqlite_int; apply andb_true_intro; split; lia).
  eexists. split; [|split].
  - by apply start_result.
  - rewrite (removed_select min_usn) by (reflexivity || exact Hint). reflexivity.
  - simpl. repeat split; intros H.
    + apply In_oids in H as (row & ? & ? & ? & Hk). exists row.
      unfold is_card in Hk. repeat split; auto. lia.
    + destruct H as (row & ? & ? & ? & Hk). apply In_oids. exists row.
      unfold is_card. repeat split; auto. lia.
    + apply In_oids in H as (row & ? & ? & ? & Hk). exists row.
      unfold is_note in Hk. apply andb_prop in Hk as [Hc Hn].
      apply negb_true_iff in Hc. repeat split; auto; lia.
    + destruct H as (row & ? & ? & ? & Hc & Hn). apply In_oids. exists row.
      unfold is_note. repeat split; auto.
      apply andb_true_intro. split; [apply negb_true_iff|]; lia.
    + apply In_oids in H as (row & ? & ? & ? & Hk). exists row.
      unfold is_deck in Hk. apply andb_prop in Hk as [Hc Hn].
      apply negb_true_iff in Hc, Hn. repeat split; auto; lia.
    + destruct H as (row & ? & ? & ? & Hc & Hn). apply In_oids. exists row.
      unfold is_deck. repeat split; auto.
      apply andb_true_intro. split; apply negb_true_iff; lia.
Qed.

(** C6, as amended: a second [start] at the watermark the first one
    captured, which is the server's usn, returns the tombstones of the
    grave rows at or above that watermark in the collection the first
    call left, and so the empty set when no row is at or above it;
    this for a server usn that is an SQLite integer, as one read from
    the database is, the query raising [OverflowError] for any
    other. *)
Theorem start_again_at_watermark
    (min_usn m : Z) (l1 l2 : bool) (g1 g2 : Graves)
    (h h1 : SyncCollectionHandler) (T : Graves) :
  start min_usn l1 g1 h = (h1, Ok T) ->
  maxUsn h1 = Some m ->
  m = _usn (col h) /\
  (- 2 ^ 63 <= m < 2 ^ 63 ->
   snd (start m l2 g2 h1) =
     Ok {| cards := oids is_card (graves_since m (col h1));
           notes := oids is_note (graves_since m (col h1));
           decks := oids is_deck (graves_since m (col h1)) |} /\
   ((forall row, In row (graves (col h1)) -> g_usn row < m) ->
    snd (start m l2 g2 h1) = Ok no_graves)) /\
  (m < - 2 ^ 63 \/ 2 ^ 63 <= m ->
   snd (start m l2 g2 h1) = Raise OverflowError).
Proof.
  intros Hstart Hmax.
  assert (maxUsn h1 = Some (_usn (col h))) as Hcaptured.
  { unfold start in Hstart. cbv zeta in Hstart.
    destruct (removed _) as [lgraves|e]; [|discriminate].
    by injection Hstart as <- _. }
  rewrite Hcaptured in Hmax. injection Hmax as <-.
  split; [reflexivity|]. split.
  - intros Hrange.
    assert (sqlite_int (_usn (col h)) = true) as Hint
      by (unfold sqlite_int; apply andb_true_intro; split; lia).
    rewrite start_result by exact Hint. cbn [snd]. split; [reflexivity|].
    intros Hbelow. rewrite graves_since_below by exact Hbelow. reflexivity.
  - intros Hout. rewrite start_overflow; [reflexivity|].
    unfold sqlite_int. apply andb_false_iff. destruct Hout; [left|right]; lia.
Qed.

End Tombstones.

(** A [start] at usn 3 with the tombstone of card 7: the tombstone of
    card 1, logged at usn 3, is returned, and that of card 7 is
    logged. *)
Lemma start_returns_server_graves_witness :
  exists T : Graves,
    @CollectionHandler.start Anki21.consts Anki21.syncer 3 true
       {| cards := [7]; notes := []; decks := [] |} handler_below_watermark =
      ({| col := Syncer_remove (Syncer := Anki21.syncer)
                   {| cards := [7]; notes := []; decks := [] |}
                   (col handler_below_watermark);
          maxUsn := Some 5; minUsn := Some 3; lnewer := Some false |}, Ok T) /\
    (In 1 (cards T) <->
     exists row, In row (graves (col handler_below_watermark)) /\ g_oid row = 1 /\
                 3 <= g_usn row /\ g_type row = 0).
Proof.
  destruct (proj1 (@start_returns_server_graves Anki21.consts Anki21.syncer 3 true
                     {| cards := [7]; notes := []; decks := [] |}
                     handler_below_watermark) ltac:(lia))
    as (T & Hstart & _ & Hcards & _).
  exists T. split; [exact Hstart|exact (Hcards 1)].
Defined.

(** C4, as stated, fails: a [start] with [minUsn = 2**63] and the
    tombstone of card 7 returns no tombstone set; it raises
    [OverflowError] once the attributes are stored, and the graves
    table is as it was, the client's tombstone not logged. *)
Lemma start_overflows :
  @CollectionHandler.start Anki21.consts Anki21.syncer (2 ^ 63) true
     {| cards := [7]; notes := []; decks := [] |} handler_below_watermark =
  ({| col := col handler_below_watermark; maxUsn := Some 5;
      minUsn := Some (2 ^ 63); lnewer := Some false |}, Raise OverflowError) /\
  (forall T,
     snd (@CollectionHandler.start Anki21.consts Anki21.syncer (2 ^ 63) true
            {| cards := [7]; notes := []; decks := [] |} handler_below_watermark)
     <> Ok T) /\
  graves (col (fst (@CollectionHandler.start Anki21.consts Anki21.syncer (2 ^ 63) true
                      {| cards := [7]; notes := []; decks := [] |}
                      handler_below_watermark))) =
    [{| g_usn := 3; g_oid := 1; g_type := 0 |}] /\
  graves (col (fst (@CollectionHandler.start Anki21.consts Anki21.syncer (2 ^ 63 - 1) true
                      {| cards := [7]; notes := []; decks := [] |}
                      handler_below_watermark))) =
    [{| g_usn := 3; g_oid := 1; g_type := 0 |}; {| g_usn := 5; g_oid := 7; g_type := 0 |}].
Proof.
  split; [vm_compute; reflexivity|]. split; [intros T; vm_compute; discriminate|].
  split; vm_compute; reflexivity.
Qed.

(** C6, as stated, fails: with a tombstone logged at the server's usn,
    [start] captures [maxUsn = 5], and the second [start], at that
    watermark and with no client tombstones, returns the tombstone
    again. *)
Lemma start_at_watermark_not_empty :
  maxUsn (fst (@CollectionHandler.start Anki21.consts Anki21.syncer
                 0 true no_graves handler_at_watermark)) = Some 5 /\
  snd (@CollectionHandler.start Anki21.consts Anki21.syncer 5 true no_graves
         (fst (@CollectionHandler.start Anki21.consts Anki21.syncer
                 0 true no_graves handler_at_watermark))) =
    Ok {| cards := [1]; notes := []; decks := [] |} /\
  {| cards := [1]; notes := []; decks := [] |} <> no_graves.
Proof.
  split; [reflexivity|]. split; [vm_compute; reflexivity|]. discriminate.
Qed.

(** The same through the calls alone: the tombstone of card 7 that the
    client sends with the first [start] is logged at the watermark, and
    the second [start] hands it back. *)
Example start_echoes_client_graves :
  snd (@CollectionHandler.start Anki21.consts Anki21.syncer 5 true no_graves
         (fst (@CollectionHandler.start Anki21.consts Anki21.syncer 0 true
                 {| cards := [7]; notes := []; decks := [] |}
                 (new_collection_handler Anki21.col5)))) =
    Ok {| cards := [7]; notes := []; decks := [] |}.
Proof. vm_compute. reflexivity. Qed.

(** There the second [start], at the watermark 5, returns the empty set. *)
Lemma start_again_at_watermark_witness :
  snd (@CollectionHandler.start Anki21.consts Anki21.syncer 5 false no_graves
         (fst (@CollectionHandler.start Anki21.consts Anki21.syncer
                 0 true no_graves handler_below_watermark))) = Ok no_graves.
Proof.
  refine (proj2 (proj1 (proj2 (@start_again_at_watermark Anki21.consts Anki21.syncer
                                 0 5 true false no_graves no_graves
                                 handler_below_watermark _ _ eq_refl eq_refl))
                   ltac:(lia)) _).
  intros row [<-|[]]. simpl. lia.
Defined.

(** ** The collection handler: [finish] *)

Section Finish.

Context `{syncer : Syncer}.

Import CollectionHandler.

(** C5, as amended: [finish] passes [intTime(1000)] to the inherited
    [finish], whatever its own argument; that timestamp is the reading
    of the clock times 1000, a product of doubles, truncated to an
    integer, so the clock in milliseconds; and with the [finish] of
    Anki 2.1, once [start] has set [maxUsn], the call stores that
    timestamp as the collection's modification time and returns it. *)
Theorem finish_at_clock_milliseconds
    (now : float) (mod_arg : option Z) (h : SyncCollectionHandler) :
  finish now mod_arg h = Syncer_finish (intTime now 1000) h /\
  finish now mod_arg h = finish now None h /\
  intTime now 1000 = int_of_float (now * 1000)%float /\
  (forall m, maxUsn h = Some m ->
     exists h',
       @finish Anki21.syncer now mod_arg h = (h', Ok (VInt (intTime now 1000))) /\
       col_mod (col h') = intTime now 1000 /\
       _usn (col h') = m + 1).
Proof.
  split; [reflexivity|]. split; [reflexivity|]. split; [reflexivity|].
  intros m Hm. unfold finish. cbn [Syncer_finish Anki21.syncer].
  unfold Anki21.finish_base. rewrite Hm. eexists. split; [reflexivity|].
  split; reflexivity.
Qed.

End Finish.

(** C5, as stated, fails: five seconds after the epoch the pass is
    finished at 5000 ms, the clock itself, not at 6000 ms. *)
Lemma finish_not_skewed :
  @CollectionHandler.finish Anki21.syncer 5%float None
     {| col := Anki21.col5; maxUsn := Some 5; minUsn := Some 0; lnewer := Some false |} =
  Syncer_finish (Syncer := Anki21.syncer) 5000
     {| col := Anki21.col5; maxUsn := Some 5; minUsn := Some 0; lnewer := Some false |} /\
  snd (@CollectionHandler.finish Anki21.syncer 5%float None
         {| col := Anki21.col5; maxUsn := Some 5; minUsn := Some 0;
            lnewer := Some false |}) = Ok (VInt 5000) /\
  col_mod (col (fst (@CollectionHandler.finish Anki21.syncer 5%float None
         {| col := Anki21.col5; maxUsn := Some 5; minUsn := Some 0;
            lnewer := Some false |}))) = 5000 /\
  snd (@CollectionHandler.finish Anki21.syncer 5%float None
         {| col := Anki21.col5; maxUsn := Some 5; minUsn := Some 0;
            lnewer := Some false |}) <> Ok (VInt (5 * 1000 + 1000)).
Proof. repeat split; try (vm_compute; reflexivity). discriminate. Qed.

(** The timestamp is the product as the doubles give it.  The clock
    reading [0x1.7d78400222d0ep+30], the double written
    [1600000000.534], is a little less than 1600000000.534 seconds, and
    its product with 1000 rounds to the double 1600000000534: the
    timestamp is 1600000000534, one more than the milliseconds that
    have passed in full. *)
Example intTime_rounds_the_product :
  Prim2SF 0x1.7d78400222d0ep+30%float = S754_finite false 6710886402239758 (-22) /\
  6710886402239758 * 1000 < 1600000000534 * 2 ^ 22 /\
  intTime 0x1.7d78400222d0ep+30%float 1000 = 1600000000534 /\
  intTime 0x1.7d78400222d0ep+30%float 1 = 1600000000.
Proof. repeat split; vm_compute; reflexivity. Qed.

(** ** The collection handler: [meta] *)

Section Meta.

Context `{consts : AnkiConsts}.

Import CollectionHandler.

(** A client name outside the two known families is never old, once
    its version field has been read. *)
Lemma old_client_unknown (cv client version platform : string)
    (version_int : list Z) (note : gmap string Z) :
  cv <> "" ->
  split cv "," = [client; version; platform] ->
  parse_version version = Ok (version_int, note) ->
  client <> "ankidesktop" -> client <> "ankidroid" ->
  _old_client (Some cv) = Ok (Some false).
Proof.
  intros Hcv Hsplit Hparse Hd Ha. unfold _old_client.
  destruct cv as [|c cv']; [done|]. rewrite Hsplit, Hparse. simpl.
  apply String.eqb_neq in Hd, Ha. rewrite Hd, Ha. reflexivity.
Qed.

(** The desktop client is old exactly below 2.0.27. *)
Lemma old_client_ankidesktop (cv version platform : string)
    (version_int : list Z) (note : gmap string Z) :
  cv <> "" ->
  split cv "," = ["ankidesktop"; version; platform] ->
  parse_version version = Ok (version_int, note) ->
  _old_client (Some cv) = Ok (Some (list_lt version_int [2; 0; 27])).
Proof.
  intros Hcv Hsplit Hparse. unfold _old_client.
  destruct cv as [|c cv']; [done|]. rewrite Hsplit, Hparse. reflexivity.
Qed.

(** AnkiDroid is old below 2.2.3, and at 2.3 when it is an alpha
    before the fourth. *)
Lemma old_client_ankidroid (cv version platform : string)
    (version_int : list Z) (note : gmap string Z) :
  cv <> "" ->
  split cv "," = ["ankidroid"; version; platform] ->
  parse_version version = Ok (version_int, note) ->
  (old <- _old_client (Some cv) ;; Ok (truthy old)) =
  Ok (if list_eqb version_int [2; 3]
      then negb (note !!! "alpha" =? 0) && (note !!! "alpha" <? 4)
      else list_lt version_int [2; 2; 3]).
Proof.
  intros Hcv Hsplit Hparse. unfold _old_client.
  destruct cv as [|c cv']; [done|]. rewrite Hsplit, Hparse. simpl.
  destruct (list_eqb version_int [2; 3]);
    [|simpl; destruct (list_lt version_int [2; 2; 3]); reflexivity].
  destruct (note !!! "alpha" =? 0); simpl; [reflexivity|].
  destruct (note !!! "alpha" <? 4); reflexivity.
Qed.

(** C3, as amended: for an integer [v] and a [cv] that [_old_client]
    reads without raising, [meta] answers 501 when the client is old,
    else the rejection payload when [v] is above [SYNC_VER] or below 9
    with a scheduler of version 2 or more, else the metadata with
    [cont = True] and the media database open; the client of the
    scenario is old; and of the clients whose fields can be read, the
    desktop client is old below 2.0.27, AnkiDroid below 2.2.3 and at 2.3
    before its fourth alpha, and a client of another name never. *)
Theorem meta_outcomes (now : float) (v : Z) (cv : option string)
    (h : SyncCollectionHandler) (old : option bool) :
  _old_client cv = Ok old ->
  (truthy old = true ->
   meta now (Some v) cv h = (h, Ok (Response 501))) /\
  (truthy old = false -> v > SYNC_VER ->
   meta now (Some v) cv h =
     (h, Ok (Value (VDict [("cont", VBool false);
                           ("msg", VStr (unsupported_msg v))])))) /\
  (truthy old = false -> v <= SYNC_VER -> v < 9 -> sched_ver (col h) >= 2 ->
   meta now (Some v) cv h =
     (h, Ok (Value (VDict [("cont", VBool false);
                           ("msg", VStr (scheduler_msg (sched_ver (col h))))])))) /\
  (truthy old = false -> v <= SYNC_VER -> 9 <= v \/ sched_ver (col h) < 2 ->
   exists h',
     meta now (Some v) cv h =
       (h', Ok (Value (VDict [("scm", VInt (scm (col h)));
                              ("ts", VInt (intTime now 1));
                              ("mod", VInt (col_mod (col h)));
                              ("usn", VInt (_usn (col h)));
                              ("musn", VInt (last_usn (media (col h))));
                              ("msg", VStr "");
                              ("cont", VBool true)]))) /\
     db_open (media (col h')) = true /\
     graves (col h') = graves (col h) /\
     rows (media (col h')) = rows (media (col h))) /\
  (forall h0, meta now (Some v) (Some "ankidesktop,2.0.26,mac") h0
              = (h0, Ok (Response 501))) /\
  (forall cv' client version platform version_int note,
     cv' <> "" ->
     split cv' "," = [client; version; platform] ->
     parse_version version = Ok (version_int, note) ->
     (client = "ankidesktop" ->
      _old_client (Some cv') = Ok (Some (list_lt version_int [2; 0; 27]))) /\
     (client = "ankidroid" ->
      (o <- _old_client (Some cv') ;; Ok (truthy o)) =
      Ok (if list_eqb version_int [2; 3]
          then negb (note !!! "alpha" =? 0) && (note !!! "alpha" <? 4)
          else list_lt version_int [2; 2; 3])) /\
     (client <> "ankidesktop" -> client <> "ankidroid" ->
      _old_client (Some cv') = Ok (Some false))).
Proof.
  intros Hold. unfold meta. rewrite Hold.
  repeat apply conj.
  - intros ->. reflexivity.
  - intros -> Hv. destruct (v >? SYNC_VER) eqn:E; [reflexivity|lia].
  - intros -> Hv H9 Hs. destruct (v >? SYNC_VER) eqn:E; [lia|].
    destruct (v <? 9) eqn:E9; [|lia].
    destruct (sched_ver (col h) >=? 2) eqn:Es; [reflexivity|lia].
  - intros -> Hv Hor. destruct (v >? SYNC_VER) eqn:E; [lia|].
    assert ((v <? 9) && (sched_ver (col h) >=? 2) = false) as ->.
    { apply andb_false_iff. destruct Hor; [left|right]; lia. }
    destruct (db_open (media (col h))) eqn:Eo;
      (eexists; split; [reflexivity|]); simpl; auto.
  - intros h0. vm_compute. reflexivity.
  - intros cv' client version platform version_int note Hcv Hsplit Hparse.
    repeat apply conj.
    + intros ->. eapply old_client_ankidesktop; eauto.
    + intros ->. eapply old_client_ankidroid; eauto.
    + intros. eapply old_client_unknown; eauto.
Qed.

(** Without a protocol version, and with a client that is not old,
    [meta] raises [TypeError] at the comparison with [SYNC_VER] and
    leaves the handler as it was. *)
Lemma meta_None_raises (now : float) (cv : option string)
    (h : SyncCollectionHandler) (old : option bool) :
  _old_client cv = Ok old ->
  truthy old = false ->
  meta now None cv h = (h, Raise TypeError).
Proof.
  intros Hold Hnot. unfold meta. rewrite Hold, Hnot. reflexivity.
Qed.

End Meta.

(** C3, as stated, fails: a request without a protocol version, and a
    request of an unknown client whose version field is not numeric,
    get none of the three answers: [meta] raises. *)
Lemma meta_raises_instead :
  snd (@CollectionHandler.meta Anki21.consts 0%float None None
         (new_collection_handler Anki21.col5)) = Raise TypeError /\
  snd (@CollectionHandler.meta Anki21.consts 0%float (Some 9) (Some "newclient,one,linux")
         (new_collection_handler Anki21.col5)) = Raise ValueError.
Proof. split; vm_compute; reflexivity. Qed.

(** An AnkiDroid 2.9 alpha at protocol version 9 gets the metadata. *)
Lemma meta_outcomes_witness :
  exists h',
    @CollectionHandler.meta Anki21.consts 0%float (Some 9)
       (Some "ankidroid,2.9alpha4,android") (new_collection_handler Anki21.col5) =
      (h', Ok (Value (VDict [("scm", VInt 1); ("ts", VInt 0); ("mod", VInt 2);
                             ("usn", VInt 5); ("musn", VInt 0); ("msg", VStr "");
                             ("cont", VBool true)]))) /\
    db_open (media (col h')) = true.
Proof.
  destruct (proj2 (proj2 (proj2
    (@meta_outcomes Anki21.consts 0%float 9 (Some "ankidroid,2.9alpha4,android")
       (new_collection_handler Anki21.col5) (Some false) eq_refl))))
    as [Hmeta _].
  destruct (Hmeta eq_refl ltac:(simpl; lia) ltac:(left; lia)) as (h' & Heq & Hopen & _).
  exists h'. split; [exact Heq | exact Hopen].
Defined.

(** ** The media handler: [mediaChanges] *)

Section MediaChanges.

Import MediaHandler.



End MediaChanges.

(** On the scenario's handler, whose media usn is 7: a client at usn 3
    and a client at usn 0 are sent the row at usn 7, a client at usn 7
    nothing. *)
Example mediaChanges_examples :
  MediaHandler.mediaChanges 3 Scenario.handler =
    VDict [("data", VList [VList [VStr "foo.jpg"; VInt 7; VStr "aa"]]); ("err", VStr "")] /\
  MediaHandler.mediaChanges 0 Scenario.handler =
    VDict [("data", VList [VList [VStr "foo.jpg"; VInt 7; VStr "aa"]]); ("err", VStr "")] /\
  MediaHandler.mediaChanges 7 Scenario.handler =
    VDict [("data", VList []); ("err", VStr "")].
Proof. repeat split; reflexivity. Qed.

(** ** The media handler: [downloadFiles] *)

Section DownloadFiles.

Context `{consts : AnkiConsts} `{mdir : MediaDir}.

Import MediaHandler.


(** A regular file is read as it is. *)
Lemma stat_read_file (dir : gmap string bytes) (name : string) (file_data : bytes) :
  file_at dir name = Some file_data ->
  stat_read dir name = Ok (false, file_data, Z.of_nat (length file_data)).
Proof.
  unfold file_at, place, stat_read.
  destruct (locate ForRead name) as [[key|st_size]|e]; try discriminate.
  by intros ->.
Qed.



(** With empty files the size never counts: from counter [cnt] the loop
    goes on until the counter is past [SYNC_ZIP_COUNT], and so writes
    [SYNC_ZIP_COUNT + 2 - cnt] members when enough files are asked for. *)
Lemma pack_empty_files (dir : gmap string bytes) (name : string) (n : nat) :
  file_at dir name = Some [] ->
  0 <= SYNC_ZIP_SIZE ->
  forall (cnt : Z) (acc : Archive),
    0 <= cnt <= SYNC_ZIP_COUNT + 1 ->
    SYNC_ZIP_COUNT + 2 - cnt <= Z.of_nat n ->
    exists a,
      pack dir (repeat name n) cnt 0 acc = Ok a /\
      Z.of_nat (length (members a)) =
        Z.of_nat (length (members acc)) + (SYNC_ZIP_COUNT + 2 - cnt).
Proof.
  intros Hfile%stat_read_file Hsize. induction n as [|n IH]; intros cnt acc Hcnt Hn.
  - cbn [Z.of_nat] in Hn. lia.
  - cbn [repeat pack]. rewrite Hfile. cbn [length Z.of_nat]. rewrite Z.add_0_r.
    assert ((0 >? SYNC_ZIP_SIZE) = false) as -> by lia. cbn [orb].
    destruct (cnt >? SYNC_ZIP_COUNT) eqn:Estop.
    + eexists. split; [reflexivity|]. cbn [members]. rewrite length_app.
      cbn [length]. lia.
    + destruct (IH (cnt + 1)
                  {| members := members acc ++ [(member_arcname cnt false, [])];
                     flist := dict_set (pretty cnt) (VStr name) (flist acc) |})
        as (a & Hpack & Hlen); [lia|lia|].
      exists a. split; [exact Hpack|]. rewrite Hlen. cbn [members].
      rewrite length_app. cbn [length]. lia.
Qed.

(** Whatever the ceilings, as long as they are not negative: a request
    for [SYNC_ZIP_COUNT + 2] or more times an empty file is answered
    with [SYNC_ZIP_COUNT + 2] members. *)
Theorem downloadFiles_count_overrun (h : SyncMediaHandler) (name : string) (n : nat) :
  0 <= SYNC_ZIP_SIZE ->
  0 <= SYNC_ZIP_COUNT ->
  file_at (files (media (col h))) name = Some [] ->
  SYNC_ZIP_COUNT + 2 <= Z.of_nat n ->
  exists a,
    downloadFiles (repeat name n) h = Ok a /\
    Z.of_nat (length (members a)) = SYNC_ZIP_COUNT + 2.
Proof.
  intros Hsize Hcount Hfile Hn. unfold downloadFiles.
  destruct (pack_empty_files (files (media (col h))) name n Hfile Hsize 0
              {| members := []; flist := [] |}) as (a & Hpack & Hlen); [lia|lia|].
  exists a. split; [exact Hpack|]. rewrite Hlen. cbn [members length Z.of_nat]. lia.
Qed.

End DownloadFiles.

(** Forty empty files under the ceilings of Anki 2.1: 27 members. *)
Lemma downloadFiles_count_overrun_witness :
  exists a,
    @MediaHandler.downloadFiles Anki21.consts Posix.flat (repeat "empty.txt" 40)
      empty_file_handler = Ok a /\
    Z.of_nat (length (MediaHandler.members a)) = 25 + 2.
Proof.
  apply (@downloadFiles_count_overrun Anki21.consts Posix.flat empty_file_handler
           "empty.txt" 40);
    [simpl; lia | simpl; lia | reflexivity | simpl; lia].
Defined.


(** C2 at an input where the code and the claim part: with the ceiling
    at 25 files, a request for thirty one-byte files is answered with
    27 members (27 bytes in all, far below the size ceiling), two more
    than the ceiling. *)
Theorem downloadFiles_passes_count_ceiling_by_two :
  (a <- @MediaHandler.downloadFiles Anki21.consts Posix.flat (repeat "a.jpg" 30)
          one_file_handler ;;
   Ok (Z.of_nat (length (MediaHandler.members a)),
       total_size (MediaHandler.members a),
       map fst (MediaHandler.flist a))) =
  Ok (SYNC_ZIP_COUNT (AnkiConsts := Anki21.consts) + 2, 27,
      map pretty (map Z.of_nat (seq 0 27))).
Proof. vm_compute. reflexivity. Qed.

(** ** The media handler: [uploadChanges] *)

Section UploadChanges.

Context `{codec : Codec} `{env : MediaEnv} `{mdir : MediaDir}.

Import MediaHandler.

Lemma remove_loop_length (elems : list value) :
  forall acc l,
    foldM remove_step elems acc = Ok l ->
    length l = (length acc + deletions elems)%nat.
Proof.
  induction elems as [|elem elems IH]; intros acc l Hloop; cbn [foldM] in Hloop.
  - injection Hloop as <-. unfold deletions. simpl. lia.
  - unfold deletions. cbn [List.filter]. unfold remove_step in Hloop.
    destruct (unpack2 elem) as [[normname ordinal]|e] eqn:Hun; [|discriminate].
    assert (is_deletion elem = is_empty_str ordinal) as ->
      by (unfold is_deletion; rewrite Hun; reflexivity).
    cbn [bind] in Hloop. destruct (is_empty_str ordinal).
    + destruct (_normalize_filename normname) as [n|e]; [|discriminate].
      cbn [bind] in Hloop. apply IH in Hloop. rewrite Hloop, length_app.
      unfold deletions. cbn [length]. lia.
    + apply IH in Hloop. rewrite Hloop. unfold deletions. lia.
Qed.

(** Writing a file leaves the database as it is, whether [open] raises
    or not. *)
Lemma write_file_index (name : string) (file_data : bytes) (m m' : MediaManager)
    (r : res unit) :
  write_file name file_data m = (m', r) ->
  index m' = index m /\ db_open m' = db_open m.
Proof.
  unfold write_file. destruct (locate ForWrite name) as [[key|st_size]|e];
    by intros [= <- _].
Qed.

Lemma add_loop_length (meta : value) (infos : list ZipInfo) :
  forall m acc m' l,
    add_loop meta infos m acc = (m', Ok l) ->
    length l = (length acc + added infos)%nat.
Proof.
  induction infos as [|i infos IH]; intros m acc m' l Hloop; cbn [add_loop] in Hloop.
  - injection Hloop as _ <-. unfold added. simpl. lia.
  - unfold added, is_added. cbn [List.filter].
    destruct (String.eqb (filename i) "_meta"); cbn [negb].
    + apply IH in Hloop. exact Hloop.
    + match type of Hloop with
      | context [match ?x with Ok _ => _ | Raise _ => _ end] => destruct x as [n|e]
      end; [|discriminate].
      destruct (write_file n (content i) m) as [m1 [[]|e]]; [|discriminate].
      apply IH in Hloop. rewrite Hloop, length_app. unfold added, is_added.
      simpl. lia.
Qed.

(** The loop over the members writes files only: the index stays. *)
Lemma add_loop_index (meta : value) (infos : list ZipInfo) :
  forall m acc m' r,
    add_loop meta infos m acc = (m', r) -> index m' = index m.
Proof.
  induction infos as [|i infos IH]; intros m acc m' r Hloop; cbn [add_loop] in Hloop.
  - by injection Hloop as <- _.
  - destruct (String.eqb (filename i) "_meta"); [by apply IH in Hloop|].
    match type of Hloop with
    | context [match ?x with Ok _ => _ | Raise _ => _ end] => destruct x as [n|e]
    end; [|by injection Hloop as <- _].
    destruct (write_file n (content i) m) as [m1 [[]|e]] eqn:Hwrite;
      apply write_file_index in Hwrite as [Hindex _].
    + apply IH in Hloop. by rewrite Hloop.
    + by injection Hloop as <- _.
Qed.


Lemma remove_files_total (filenames : list string) :
  (forall n e, In n filenames -> locate ForRemove n = Raise e -> is_OSError e = true) ->
  forall fs, exists fs', remove_files filenames fs = (fs', Ok tt).
Proof.
  induction filenames as [|name rest IH]; intros Hok fs; cbn [remove_files].
  - by eexists.
  - assert (forall fs, exists fs', remove_files rest fs = (fs', Ok tt)) as IH'.
    { apply IH. intros n e Hin. apply Hok. by right. }
    unfold remove_file.
    destruct (locate ForRemove name) as [[key|st_size]|e] eqn:Hlocate;
      [apply IH'|apply IH'|].
    rewrite (Hok name e) by (by left || exact Hlocate). apply IH'.
Qed.

(** What [_remove_media_files] does to the index: the rows are marked,
    whether the loop over the files returns or raises. *)
Lemma remove_media_files_index (filenames : list string) (m m' : MediaManager)
    (r : res unit) :
  _remove_media_files filenames m = (m', r) ->
  rows m' = mark_deleted filenames (rows m) /\ last_usn m' = last_usn m /\
  db_open m' = db_open m.
Proof.
  unfold _remove_media_files. destruct (remove_files filenames (files m)) as [fs r'].
  by intros [= <- _].
Qed.




Lemma deletions_meta_of (pairs : list (string * string)) :
  deletions (map meta_pair pairs) = length (List.filter empty_ordinal pairs).
Proof.
  unfold deletions. induction pairs as [|[n o] pairs IH]; [reflexivity|].
  cbn [map List.filter]. unfold is_deletion at 1, empty_ordinal at 1.
  cbn [meta_pair unpack2 py_iter bind fst snd is_empty_str].
  destruct o; cbn [String.eqb length]; rewrite IH; reflexivity.
Qed.

Lemma remove_loop_names (pairs : list (string * string)) :
  forall acc,
    foldM remove_step (map meta_pair pairs) acc = Ok (acc ++ deleted_names pairs).
Proof.
  unfold deleted_names.
  induction pairs as [|[n o] pairs IH]; intros acc; cbn [map foldM List.filter].
  - by rewrite app_nil_r.
  - unfold remove_step at 1, empty_ordinal at 1.
    cbn [meta_pair unpack2 py_iter bind fst snd _normalize_filename is_empty_str].
    destruct o as [|c o]; cbn [String.eqb bind].
    + rewrite IH, <- app_assoc. reflexivity.
    + apply IH.
Qed.

Lemma seq_index_in_range (l : list value) (i : Z) :
  - Z.of_nat (length l) <= i < Z.of_nat (length l) ->
  exists x, seq_index l i = Ok x /\ In x l.
Proof.
  intros Hi. unfold seq_index.
  set (j := if i <? 0 then i + Z.of_nat (length l) else i).
  assert (0 <= j < Z.of_nat (length l)) as Hj
    by (unfold j; destruct (i <? 0) eqn:E; lia).
  assert ((j <? 0) || (j >=? Z.of_nat (length l)) = false) as ->
    by (apply orb_false_iff; split; lia).
  destruct (nth_error l (Z.to_nat j)) as [x|] eqn:Hnth.
  - exists x. split; [reflexivity|]. eapply nth_error_In; eauto.
  - apply nth_error_None in Hnth. lia.
Qed.

(** A member named by an index into the pairs has a name. *)
Lemma member_name_total (pairs : list (string * string)) (i : ZipInfo) (idx : Z) :
  int_of_str (filename i) = Ok idx ->
  - Z.of_nat (length pairs) <= idx < Z.of_nat (length pairs) ->
  exists n, member_name (meta_of pairs) i = Ok n.
Proof.
  intros Hint Hrange. unfold member_name. rewrite Hint. cbn [bind py_index meta_of].
  destruct (seq_index_in_range (map meta_pair pairs) idx) as (x & Hx & Hin).
  { by rewrite length_map. }
  rewrite Hx. cbn [bind]. apply in_map_iff in Hin as ([n o] & <- & _).
  by eexists.
Qed.

Lemma add_loop_total (pairs : list (string * string)) (infos : list ZipInfo) :
  (forall i, In i infos -> is_added i = true ->
     exists idx, int_of_str (filename i) = Ok idx /\
                 - Z.of_nat (length pairs) <= idx < Z.of_nat (length pairs)) ->
  (forall i n, In i infos -> is_added i = true ->
     member_name (meta_of pairs) i = Ok n ->
     exists key, locate ForWrite n = Ok (RegularFile key)) ->
  forall m acc, exists m' l, add_loop (meta_of pairs) infos m acc = (m', Ok l).
Proof.
  induction infos as [|i infos IH]; intros Hnames Hwritable m acc; cbn [add_loop].
  - by do 2 eexists.
  - assert (forall m acc, exists m' l,
              add_loop (meta_of pairs) infos m acc = (m', Ok l)) as IH'.
    { apply IH.
      - intros i' Hi'. apply Hnames. now right.
      - intros i' n Hi'. apply Hwritable. now right. }
    destruct (String.eqb (filename i) "_meta") eqn:Hname; [apply IH'|].
    assert (is_added i = true) as Hadded by (unfold is_added; by rewrite Hname).
    destruct (Hnames i) as (idx & Hint & Hrange); [now left|exact Hadded|].
    destruct (member_name_total pairs i idx Hint Hrange) as (n & Hn).
    change (idx <- int_of_str (filename i) ;;
            elem <- py_index (meta_of pairs) idx ;;
            n <- py_index elem 0 ;; _normalize_filename n)
      with (member_name (meta_of pairs) i).
    rewrite Hn.
    destruct (Hwritable i n) as (key & Hkey); [now left|exact Hadded|exact Hn|].
    unfold write_file. rewrite Hkey. apply IH'.
Qed.



(** An archive whose [_meta] is larger than 100000 bytes, or whose
    entries add up to more than 100 MiB, is refused with a [ValueError]
    before anything is read from it, and one without [_meta] with a
    [KeyError]; the handler is left as it was. *)
Theorem oversize_upload_rejected (data : bytes) (h : SyncMediaHandler)
    (z : list ZipInfo) :
  zip_open data = Ok z ->
  (forall info,
     getinfo "_meta" z = Ok info ->
     file_size info > 100000 \/
     fold_right Z.add 0 (map file_size z) > 100 * 1024 * 1024 ->
     uploadChanges data h = (h, Raise ValueError)) /\
  (getinfo "_meta" z = Raise KeyError ->
   uploadChanges data h = (h, Raise KeyError)).
Proof.
  intros Hopen. split.
  - intros info Hinfo Hbig. unfold uploadChanges, _check_zip_data.
    rewrite Hopen. cbn [bind]. rewrite Hinfo. cbn [bind].
    unfold max_meta_file_size, max_zip_size.
    destruct (file_size info >? 100000) eqn:Emeta; [reflexivity|].
    destruct (fold_right Z.add 0 (map file_size z) >? 100 * 1024 * 1024) eqn:Esum;
      [reflexivity|lia].
  - intros Hinfo. unfold uploadChanges, _check_zip_data.
    rewrite Hopen. cbn [bind]. rewrite Hinfo. reflexivity.
Qed.

End UploadChanges.

(** The names of the scenario are plain file names. *)
Lemma scenario_valid :
  @valid_upload Scenario.codec Scenario.env Posix.flat [] Scenario.zip
    [("foo.jpg", ""); ("bar.jpg", "1")].
Proof.
  split; try reflexivity.
  - intros i [<-|[<-|[]]] Hadded; [|discriminate].
    exists 1. split; [reflexivity|]. simpl. lia.
  - intros i n [<-|[<-|[]]] Hadded; [|discriminate].
    intros [= <-]. by eexists.
  - intros n e [<-|[]]. discriminate.
Qed.


(** After it [foo.jpg] is a tombstone and [bar.jpg] is in the index
    with the checksum of its bytes. *)
Example scenario_index :
  index (media (MediaHandler.col
           (fst (@MediaHandler.uploadChanges Scenario.codec Scenario.env Posix.flat []
                   Scenario.handler)))) =
  ([{| fname := "foo.jpg"; csum := None; mtime := 1500000000; dirty := 0 |};
    {| fname := "bar.jpg"; csum := Some "7037807198c22a7d2b0807371d763779a84fdfcf";
       mtime := 1600000000; dirty := 0 |}], 9).
Proof. vm_compute. reflexivity. Qed.

(** Without the member [1] the second entry has no action: the request
    raises [AssertionError] and the index is untouched. *)
Example scenario_missing_member :
  snd (@MediaHandler.uploadChanges Scenario.codec Scenario.env_missing_member Posix.flat []
         Scenario.handler) = Raise AssertionError /\
  index (media (MediaHandler.col
           (fst (@MediaHandler.uploadChanges Scenario.codec
                   Scenario.env_missing_member Posix.flat [] Scenario.handler)))) =
  index (media (MediaHandler.col Scenario.handler)).
Proof. split; vm_compute; reflexivity. Qed.

(** An archive with a [_meta] of 100001 bytes. *)
Lemma oversize_upload_rejected_witness :
  @MediaHandler.uploadChanges Scenario.codec Scenario.env_big_meta Posix.flat []
    Scenario.handler =
  (Scenario.handler, Raise ValueError).
Proof.
  refine (proj1 (@oversize_upload_rejected Scenario.codec Scenario.env_big_meta
                   Posix.flat [] Scenario.handler _ eq_refl) _ eq_refl _).
  left. simpl. lia.
Defined.

(** The assertion compares counts only: when two members name the same
    entry of [_meta], the counts agree and the upload returns, though
    the second entry has neither been added nor removed. *)
Example scenario_same_entry :
  snd (@MediaHandler.uploadChanges Scenario.codec_same_entry Scenario.env_same_entry
         Posix.flat [] Scenario.handler) =
    Ok (VDict [("data", VList [VInt 2; VInt 9]); ("err", VStr "")]) /\
  map fname (rows (media (MediaHandler.col
    (fst (@MediaHandler.uploadChanges Scenario.codec_same_entry
            Scenario.env_same_entry Posix.flat [] Scenario.handler))))) = ["foo.jpg"].
Proof. split; vm_compute; reflexivity. Qed.

(** ** The dispatcher: decoding the payload *)

Section Decode.

Context `{codec : Codec}.

Import App.

(** C8: with a nonzero flag the bytes are gunzipped first and the JSON
    decoding is tried on what comes out; when the decoding raises a
    [ValueError] (a JSON or a Unicode decode error) the result is
    [{'data': bytes}] with the bytes that were to be decoded; with the
    flag at zero, and so when the request has no [c], the payload is
    decoded as it is, whatever [gunzip] would do to it.  The flag of a
    request is the integer its field [c] reads as: a request whose [c]
    is nonzero has its [data] gunzipped and then decoded, and the
    gunzipped bytes wrapped when they are no JSON text; a request whose
    [c] reads as zero has its [data] decoded as it is. *)
Theorem decode_data_gunzip_then_json (gz : Gzip) (data : bytes) (compression : Z) :
  (compression <> 0 ->
   _decode_data data compression = (raw <- gunzip data ;; json_or_wrap raw)) /\
  _decode_data data 0 = json_or_wrap data /\
  (forall raw e,
     is_ValueError e = true ->
     decode raw = Raise e \/ (exists s, decode raw = Ok s /\ json_loads s = Raise e) ->
     json_or_wrap raw = Ok (VDict [("data", VBytes raw)])) /\
  (forall raw s v,
     decode raw = Ok s -> json_loads s = Ok v -> json_or_wrap raw = Ok v) /\
  (forall req, POST req !! "c" = None -> compression_of req = Ok 0) /\
  (forall (gz' : Gzip) req,
     POST req !! "c" = None ->
     @request_data codec gz req = @request_data codec gz' req) /\
  (forall req b,
     POST req !! "c" = None -> POST req !! "data" = Some (File b) ->
     request_data req = match json_or_wrap b with
                        | Raise KeyError => Ok (VDict [])
                        | r => r
                        end) /\
  (forall req t z,
     POST req !! "c" = Some (Text t) -> int_of_str t = Ok z ->
     compression_of req = Ok z) /\
  (forall req t z b,
     POST req !! "c" = Some (Text t) -> int_of_str t = Ok z -> z <> 0 ->
     POST req !! "data" = Some (File b) ->
     request_data req = match (raw <- gunzip b ;; json_or_wrap raw) with
                        | Raise KeyError => Ok (VDict [])
                        | r => r
                        end) /\
  (forall req t z b raw e,
     POST req !! "c" = Some (Text t) -> int_of_str t = Ok z -> z <> 0 ->
     POST req !! "data" = Some (File b) ->
     gunzip b = Ok raw ->
     is_ValueError e = true ->
     decode raw = Raise e \/ (exists s, decode raw = Ok s /\ json_loads s = Raise e) ->
     request_data req = Ok (VDict [("data", VBytes raw)])) /\
  (forall req t b,
     POST req !! "c" = Some (Text t) -> int_of_str t = Ok 0 ->
     POST req !! "data" = Some (File b) ->
     request_data req = match json_or_wrap b with
                        | Raise KeyError => Ok (VDict [])
                        | r => r
                        end).
Proof.
  assert (forall raw e,
            is_ValueError e = true ->
            decode raw = Raise e \/ (exists s, decode raw = Ok s /\ json_loads s = Raise e) ->
            json_or_wrap raw = Ok (VDict [("data", VBytes raw)])) as Hwrap.
  { intros raw e He [Hdec|(s & Hdec & Hjson)]; unfold json_or_wrap;
      rewrite Hdec; cbn [bind]; rewrite ?Hjson, ?He; reflexivity. }
  repeat apply conj.
  11: { intros req t b Hc Hint Hdata. unfold request_data, compression_of, data_of.
        rewrite Hc, Hint. cbn [bind]. rewrite Hdata. reflexivity. }
  10: { intros req t z b raw e Hc Hint Hz Hdata Hgz He Hnojson.
        unfold request_data, compression_of, data_of.
        rewrite Hc, Hint. cbn [bind]. rewrite Hdata. unfold _decode_data.
        destruct (z =? 0) eqn:E; [lia|]. cbn [negb]. rewrite Hgz. cbn [bind].
        by rewrite (Hwrap raw e He Hnojson). }
  9: { intros req t z b Hc Hint Hz Hdata. unfold request_data, compression_of, data_of.
       rewrite Hc, Hint. cbn [bind]. rewrite Hdata. unfold _decode_data.
       destruct (z =? 0) eqn:E; [lia|]. reflexivity. }
  8: { intros req t z Hc Hint. unfold compression_of. by rewrite Hc. }
  - intros Hc. unfold _decode_data.
    destruct (compression =? 0) eqn:E; [lia|]. reflexivity.
  - reflexivity.
  - intros raw e He [Hdec|(s & Hdec & Hjson)]; unfold json_or_wrap;
      rewrite Hdec; cbn [bind]; rewrite ?Hjson, ?He; reflexivity.
  - intros raw s v Hdec Hjson. unfold json_or_wrap.
    rewrite Hdec. cbn [bind]. rewrite Hjson. reflexivity.
  - intros req Hc. unfold compression_of. by rewrite Hc.
  - intros gz' req Hc. unfold request_data, compression_of. rewrite Hc.
    reflexivity.
  - intros req b Hc Hdata. unfold request_data, compression_of, data_of.
    rewrite Hc, Hdata. reflexivity.
Qed.

End Decode.

(** A payload that is no UTF-8 text comes out as [{'data': payload}],
    and a request without [c] and [data] has the empty dict. *)
Example binary_payload_is_wrapped :
  @App._decode_data Demo.codec Demo.gz [Byte.xff; Byte.xfe] 0 =
    Ok (VDict [("data", VBytes [Byte.xff; Byte.xfe])]) /\
  @App.request_data Demo.codec Demo.gz (Demo.request "/sync/meta") = Ok (VDict []).
Proof. split; reflexivity. Qed.

(** A request with [c = 1]: the payload is gunzipped, and what comes
    out is wrapped; without [c] the same payload is wrapped as it
    is. *)
Example compressed_payload_is_gunzipped :
  @App.request_data Demo.codec Payload.gz Payload.compressed_request =
    Ok (VDict [("data", VBytes [Byte.xff; Byte.xfe])]) /\
  @App.request_data Demo.codec Payload.gz
    {| req_path := "/sync/upload";
       POST := {["data" := File [Byte.x1f; Byte.xff; Byte.xfe]]} |} =
    Ok (VDict [("data", VBytes [Byte.x1f; Byte.xff; Byte.xfe])]).
Proof. split; reflexivity. Qed.

(** ** The dispatcher: routing *)

Section Routing.

Context `{consts : AnkiConsts} `{codec : Codec} `{gz : Gzip} `{collab : Collaborators}.

Import App.

Lemma prefix_append (base rest : string) : String.prefix base (base +:+ rest) = true.
Proof.
  induction base as [|c base IH]; [by destruct rest|].
  change (String c base +:+ rest) with (String c (base +:+ rest)).
  cbn [String.prefix]. destruct (ascii_dec c c); [exact IH|done].
Qed.

Lemma drop_prefix_append (base rest : string) :
  drop_prefix (String.length base) (base +:+ rest) = rest.
Proof.
  induction base as [|c base IH]; [by destruct rest|].
  change (String c base +:+ rest) with (String c (base +:+ rest)).
  cbn [String.length drop_prefix]. exact IH.
Qed.

Lemma mem_app (x : string) (l1 l2 : list string) :
  mem x (l1 ++ l2) = mem x l1 || mem x l2.
Proof. unfold mem. apply existsb_app. Qed.

Lemma meta_steps_returned (req : Request) (data : value) (s s1 : SyncUserSession) :
  meta_bookkeeping req data s = Ok s1 -> meta_steps req data s = (s1, Ok tt).
Proof.
  unfold meta_bookkeeping.
  destruct (meta_steps req data s) as [s' [[]|e]]; cbn [fst snd bind];
    [by intros [= ->]|discriminate].
Qed.

(** No name belongs to both operation lists, and [hostKey] to neither. *)
Lemma media_operation_not_collection (op : string) :
  mem op MediaHandler.operations = true ->
  mem op CollectionHandler.operations = false /\ String.eqb op "hostKey" = false.
Proof.
  intros Hop. unfold mem, MediaHandler.operations in Hop. cbn [existsb] in Hop.
  repeat (apply orb_prop in Hop as [Hop|Hop];
          [apply String.eqb_eq in Hop; subst op; split; reflexivity|]).
  discriminate.
Qed.

Lemma handler_for_collection_operation (op : string) (c : Collection)
    (s : SyncUserSession) :
  mem op CollectionHandler.operations = true ->
  get_handler_for_operation op c s =
    Ok (OfCollection (collection_handler_of s c),
        set_collection_handler s (collection_handler_of s c)).
Proof.
  intros Hop. unfold get_handler_for_operation, collection_handler_of.
  rewrite Hop. by destruct (collection_handler s).
Qed.

Lemma handler_for_media_operation (op : string) (c : Collection)
    (s : SyncUserSession) :
  mem op MediaHandler.operations = true ->
  get_handler_for_operation op c s =
    Ok (OfMedia {| MediaHandler.col := c |},
        set_media_handler s {| MediaHandler.col := c |}).
Proof.
  intros Hop. unfold get_handler_for_operation.
  destruct (media_operation_not_collection op Hop) as [-> _]. by rewrite Hop.
Qed.


(** A name outside [valid_urls] is answered "not found" under both
    paths; under the media path the session is asked for first, so
    without one the answer is "forbidden". *)
Theorem unknown_operation_not_found
    (req : Request) (app : SyncApp) (data : value) (op : string) :
  request_data req = Ok data ->
  mem op valid_urls = false ->
  (req_path req = base_url app +:+ op ->
   reply (__call__ req app) = Raise HTTPNotFound) /\
  (req_path req = base_media_url app +:+ op ->
   startswith (req_path req) (base_url app) = false ->
   reply (__call__ req app) =
     match resolve_session req app with
     | Some _ => Raise HTTPNotFound
     | None => Raise (HTTPForbidden "")
     end).
Proof.
  intros Hdata Hop. split.
  - intros Hpath. unfold __call__. rewrite Hdata.
    unfold startswith. rewrite Hpath, prefix_append, drop_prefix_append, Hop.
    reflexivity.
  - intros Hpath Hnot. unfold __call__. rewrite Hdata, Hnot.
    unfold startswith. rewrite Hpath, prefix_append, drop_prefix_append, Hop.
    destruct (resolve_session req app); reflexivity.
Qed.


(** C9: when the client is not old and no protocol version comes with
    the request, [meta] raises [TypeError] instead of returning; and a
    [meta] request whose handler call is that call is not answered: the
    exception leaves [__call__], which turns only webob's HTTP
    exceptions into responses. *)
Theorem meta_without_version_fails_request
    (now : float) (cv : option string) (old : option bool) :
  CollectionHandler._old_client cv = Ok old ->
  CollectionHandler.truthy old = false ->
  (forall h, CollectionHandler.meta now None cv h = (h, Raise TypeError)) /\
  (forall h r, snd (CollectionHandler.meta now None cv h) <> Ok r) /\
  (forall (req : Request) (app : SyncApp) (s s1 : SyncUserSession) (data : value),
     resolve_session req app = Some s ->
     request_data req = Ok data ->
     req_path req = base_url app +:+ "meta" ->
     meta_bookkeeping req data s = Ok s1 ->
     prehooks app !! "meta" = None ->
     (forall h, collection_method "meta" data h = CollectionHandler.meta now None cv h) ->
     reply (__call__ req app) = Raise TypeError).
Proof.
  intros Hold Hnot.
  assert (forall h, CollectionHandler.meta now None cv h = (h, Raise TypeError)) as Hmeta
    by (intros h; eapply meta_None_raises; eauto).
  split; [exact Hmeta|]. split; [intros h r; rewrite Hmeta; discriminate|].
  intros req app s s1 data Hsession Hdata Hpath Hbook Hpre Hmethod.
  unfold __call__. rewrite Hsession, Hdata.
  unfold startswith. rewrite Hpath, prefix_append, drop_prefix_append.
  change (mem "meta" valid_urls) with true.
  change (String.eqb "meta" "hostKey") with false.
  change (mem "meta" (CollectionHandler.operations ++ MediaHandler.operations))
    with true.
  cbn [negb]. unfold run_operation.
  change (String.eqb "meta" "meta") with true. cbv zeta.
  rewrite (meta_steps_returned _ _ _ _ Hbook).
  unfold load, save, write_session, with_sessions. cbn [sessions].
  rewrite lookup_insert_eq. unfold run_hook at 1. cbn [prehooks]. rewrite Hpre.
  unfold _execute_handler_method_in_thread.
  rewrite handler_for_collection_operation by reflexivity.
  rewrite Hmethod, Hmeta. reflexivity.
Qed.

End Routing.


(** [/sync/nothing] is not found, and [/msync/upload] has no handler. *)
Lemma unknown_operation_not_found_witness :
  App.reply (@App.__call__ Demo.codec Demo.gz Demo.collab
               (Demo.request "/sync/nothing") Demo.app) = Raise HTTPNotFound.
Proof.
  exact (proj1 (@unknown_operation_not_found Demo.codec Demo.gz Demo.collab
                  (Demo.request "/sync/nothing") Demo.app (VDict []) "nothing"
                  eq_refl eq_refl) eq_refl).
Defined.


(** A [meta] request with an empty payload: the reply is the
    [TypeError]. *)
Lemma meta_without_version_fails_request_witness :
  App.reply (@App.__call__ Demo.codec Demo.gz Demo.collab
           (Demo.request "/sync/meta") Demo.app) = Raise TypeError.
Proof.
  refine (proj2 (proj2 (@meta_without_version_fails_request
                          Anki21.consts Demo.codec Demo.gz Demo.collab
                          0%float None (Some false) eq_refl eq_refl))
            (Demo.request "/sync/meta") Demo.app Demo.session Demo.session (VDict [])
            eq_refl eq_refl eq_refl eq_refl eq_refl _).
  intros h. reflexivity.
Defined.

(** ** The media handler: what [downloadFiles] packs *)

Section DownloadFilesMembers.

Context `{consts : AnkiConsts} `{mdir : MediaDir}.

Import MediaHandler.

Lemma has_key_snoc (k k' : string) (x : value) (items : list (string * value)) :
  has_key k (items ++ [(k', x)]) = has_key k items || String.eqb k k'.
Proof. unfold has_key. rewrite existsb_app. cbn. by rewrite orb_false_r. Qed.

(** Setting a key the dict does not have appends the item. *)
Lemma dict_set_fresh (k : string) (x : value) (items : list (string * value)) :
  has_key k items = false -> dict_set k x items = items ++ [(k, x)].
Proof.
  induction items as [|[k' v] items IH]; [reflexivity|].
  unfold has_key. cbn [existsb fst dict_set app]. intros Hfresh.
  apply orb_false_iff in Hfresh as [-> Hrest]. by rewrite IH.
Qed.

Lemma pretty_Z_eqb (i j : Z) : String.eqb (pretty i) (pretty j) = bool_decide (i = j).
Proof.
  case_bool_decide as Hij.
  - subst. apply String.eqb_refl.
  - apply String.eqb_neq. intros Heq. by apply (inj pretty) in Heq.
Qed.

(** The loop names the files it packs by the counter: from [(cnt, acc)]
    it appends, for the first [n] files and in their order, a member
    named after [str(cnt + k)] with what is read at the path of the
    file, and the item [str(cnt + k): name] to [flist]. *)
Lemma pack_members (dir : gmap string bytes) (files_arg : list string) :
  forall (cnt sz : Z) (acc a : Archive),
    (forall j, cnt <= j -> has_key (pretty j) (flist acc) = false) ->
    pack dir files_arg cnt sz acc = Ok a ->
    exists (n : nat) (reads : list (bool * bytes)),
      (n <= length files_arg)%nat /\
      Forall2 (fun name rd => exists size,
                 stat_read dir name = Ok (fst rd, snd rd, size))
              (take n files_arg) reads /\
      members a =
        members acc ++
        imap (fun k rd => (member_arcname (cnt + Z.of_nat k) (fst rd), snd rd)) reads /\
      flist a =
        flist acc ++ imap (fun k name => (pretty (cnt + Z.of_nat k), VStr name))
                          (take n files_arg).
Proof.
  induction files_arg as [|name rest IH]; intros cnt sz acc a Hfresh Hpack;
    cbn [pack] in Hpack.
  - injection Hpack as <-. exists O, []. cbn. rewrite !app_nil_r.
    repeat split; [lia|constructor].
  - destruct (stat_read dir name) as [[[is_dir file_data] size]|e] eqn:Hfile;
      [|discriminate].
    assert (dict_set (pretty cnt) (VStr name) (flist acc) =
            flist acc ++ [(pretty cnt, VStr name)]) as Hset
      by (apply dict_set_fresh, Hfresh; lia).
    rewrite Hset in Hpack.
    destruct ((sz + size >? SYNC_ZIP_SIZE) || (cnt >? SYNC_ZIP_COUNT)).
    + injection Hpack as <-. exists 1%nat, [(is_dir, file_data)].
      cbn [members flist take imap length fst snd]. rewrite Z.add_0_r.
      repeat split; [lia|]. repeat constructor. by exists size.
    + apply IH in Hpack as (n & reads & Hn & Hfiles & Hmem & Hflist).
      * exists (S n), ((is_dir, file_data) :: reads).
        cbn [members flist] in Hmem, Hflist. cbn [take length].
        rewrite !imap_cons, Z.add_0_r. cbn [fst snd].
        repeat split; [lia|constructor; [by exists size|exact Hfiles]| |].
        -- rewrite Hmem, <- app_assoc. cbn [app]. do 2 f_equal.
           apply imap_ext. intros k d _. cbn. do 2 f_equal. lia.
        -- rewrite Hflist, <- app_assoc. cbn [app]. do 2 f_equal.
           apply imap_ext. intros k d _. cbn. do 2 f_equal. lia.
      * intros j Hj. cbn [flist]. rewrite has_key_snoc, Hfresh by lia.
        rewrite pretty_Z_eqb. case_bool_decide; [lia|reflexivity].
Qed.

(** The archive [downloadFiles] returns holds a prefix of the request:
    for some [n], the [k]-th name asked for, [k < n], is the [k]-th
    item of [_meta], under the key [str(k)], and the [k]-th member of
    the archive is what the path of that name leads to for reading:
    for a regular file (of the media directory or, for a name as
    [../a.jpg], of another), the member [str(k)] with the bytes of the
    file, and for a directory the member [str(k)/] without bytes; the
    archive and [_meta] hold nothing else, so a request for no file is
    answered with an archive without members. *)
Theorem downloadFiles_names_members (files_arg : list string) (h : SyncMediaHandler)
    (a : Archive) :
  downloadFiles files_arg h = Ok a ->
  exists n : nat,
    (n <= length files_arg)%nat /\
    length (members a) = n /\ length (flist a) = n /\
    forall (k : nat) (name : string),
      (k < n)%nat -> files_arg !! k = Some name ->
      match locate ForRead name with
      | Ok (RegularFile key) =>
          exists file_data,
            files (media (col h)) !! key = Some file_data /\
            members a !! k = Some (pretty (Z.of_nat k), file_data)
      | Ok (Directory _) =>
          members a !! k = Some (pretty (Z.of_nat k) +:+ "/", [])
      | Raise _ => False
      end /\
      flist a !! k = Some (pretty (Z.of_nat k), VStr name) /\
      dict_get (pretty (Z.of_nat k)) (flist a) = Some (VStr name).
Proof.
  intros Hdown. unfold downloadFiles in Hdown.
  apply pack_members in Hdown as (n & reads & Hn & Hfiles & Hmem & Hflist);
    [|reflexivity].
  cbn [members flist app] in Hmem, Hflist.
  pose proof (Forall2_length _ _ _ Hfiles) as Hlen.
  rewrite length_take in Hlen.
  exists n. split; [exact Hn|].
  split; [rewrite Hmem, length_imap; lia|].
  split; [rewrite Hflist, length_imap, length_take; lia|].
  intros k name Hk Hname.
  assert (take n files_arg !! k = Some name) as Htake
    by (rewrite lookup_take_lt by lia; exact Hname).
  destruct (Forall2_lookup_l _ _ _ _ _ Hfiles Htake)
    as ([is_dir file_data] & Hdata & size & Hfile).
  cbn [fst snd] in Hfile.
  assert (members a !! k = Some (member_arcname (Z.of_nat k) is_dir, file_data))
    as Hmember by (rewrite Hmem, list_lookup_imap, Hdata; reflexivity).
  split.
  { unfold stat_read in Hfile.
    destruct (locate ForRead name) as [[key|st_size]|e]; [| |discriminate].
    - destruct (files (media (col h)) !! key) as [d|]; [|discriminate].
      injection Hfile as <- <- _. by exists d.
    - by injection Hfile as <- <- _. }
  assert (flist a !! k = Some (pretty (Z.of_nat k), VStr name)) as Hitem
    by (rewrite Hflist, list_lookup_imap, Htake; reflexivity).
  split; [exact Hitem|].
  rewrite Hflist. clear -Htake.
  assert (forall (l : list string) (c : Z) (k : nat) (name : string),
            l !! k = Some name ->
            dict_get (pretty (c + Z.of_nat k))
              (imap (fun k name => (pretty (c + Z.of_nat k), VStr name)) l) =
            Some (VStr name)) as Hget.
  { clear. induction l as [|x l IH]; intros c k name Hk; [done|].
    rewrite imap_cons. cbn [dict_get]. rewrite Z.add_0_r, pretty_Z_eqb.
    destruct k as [|k].
    - injection Hk as ->. rewrite Z.add_0_r. by rewrite bool_decide_eq_true_2.
    - rewrite bool_decide_eq_false_2 by lia. cbn in Hk.
      rewrite <- (IH (c + 1) k name Hk).
      replace (c + Z.of_nat (S k)) with (c + 1 + Z.of_nat k) by lia.
      f_equal. apply imap_ext. intros i y _. cbn. do 2 f_equal. lia. }
  apply (Hget _ 0 k name Htake).
Qed.

Lemma requested_size_nonneg (dir : gmap string bytes) (files_arg : list string) :
  0 <= requested_size dir files_arg.
Proof.
  unfold requested_size. induction files_arg as [|name rest IH]; cbn [map fold_right]; lia.
Qed.

Lemma pack_all (dir : gmap string bytes) (files_arg : list string) :
  forall (cnt sz : Z) (acc : Archive),
    Forall (fun name => is_Some (file_at dir name)) files_arg ->
    sz + requested_size dir files_arg <= SYNC_ZIP_SIZE ->
    cnt + Z.of_nat (length files_arg) <= SYNC_ZIP_COUNT + 2 ->
    exists a,
      pack dir files_arg cnt sz acc = Ok a /\
      length (members a) = (length (members acc) + length files_arg)%nat.
Proof.
  induction files_arg as [|name rest IH]; intros cnt sz acc Hall Hsz Hcnt; cbn [pack].
  - exists acc. split; [reflexivity|]. cbn [length]. lia.
  - apply Forall_cons in Hall as [[file_data Hfile] Hall].
    rewrite (stat_read_file _ _ _ Hfile).
    unfold requested_size in Hsz. cbn [map fold_right] in Hsz.
    fold (requested_size dir rest) in Hsz. rewrite Hfile in Hsz. cbn [default id] in Hsz.
    pose proof (requested_size_nonneg dir rest) as Hrest.
    assert ((sz + Z.of_nat (length file_data) >? SYNC_ZIP_SIZE) = false) as -> by lia.
    cbn [orb length] in *. destruct (cnt >? SYNC_ZIP_COUNT) eqn:Estop.
    + destruct rest as [|name' rest']; [|cbn [length] in Hcnt; lia].
      eexists. split; [reflexivity|]. cbn [members]. rewrite length_app. reflexivity.
    + destruct (IH (cnt + 1) (sz + Z.of_nat (length file_data))
                  {| members := members acc ++ [(member_arcname cnt false, file_data)];
                     flist := dict_set (pretty cnt) (VStr name) (flist acc) |})
        as (a & Hpack & Hlen); [exact Hall|lia|lia|].
      exists a. split; [exact Hpack|]. rewrite Hlen. cbn [members].
      rewrite length_app. cbn [length]. lia.
Qed.

(** A request that fits is answered in full: when every name asked for
    leads to a regular file, the files together are no larger than
    [SYNC_ZIP_SIZE] and they are at most [SYNC_ZIP_COUNT + 2], the
    archive has a member for each of them. *)
Theorem downloadFiles_packs_all (files_arg : list string) (h : SyncMediaHandler) :
  Forall (fun name => is_Some (file_at (files (media (col h))) name)) files_arg ->
  requested_size (files (media (col h))) files_arg <= SYNC_ZIP_SIZE ->
  Z.of_nat (length files_arg) <= SYNC_ZIP_COUNT + 2 ->
  exists a,
    downloadFiles files_arg h = Ok a /\
    length (members a) = length files_arg /\
    length (flist a) = length files_arg.
Proof.
  intros Hall Hsz Hcnt. unfold downloadFiles.
  destruct (pack_all (files (media (col h))) files_arg 0 0
              {| members := []; flist := [] |} Hall) as (a & Hpack & Hlen); [lia|lia|].
  exists a. split; [exact Hpack|]. split; [exact Hlen|].
  apply pack_members in Hpack as (n & reads & Hn & Hfiles & Hmem & Hflist);
    [|reflexivity].
  cbn [members flist app] in Hmem, Hflist.
  apply Forall2_length in Hfiles. rewrite length_take in Hfiles.
  rewrite Hmem, length_imap in Hlen. cbn [members length] in Hlen.
  rewrite Hflist, length_imap, length_take. lia.
Qed.

Lemma pack_missing (dir : gmap string bytes) (name : string) (post : list string)
    (pre : list string) (e : exn) :
  forall (cnt sz : Z) (acc : Archive),
    Forall (fun name => is_Some (file_at dir name)) pre ->
    stat_read dir name = Raise e ->
    sz + requested_size dir pre <= SYNC_ZIP_SIZE ->
    cnt + Z.of_nat (length pre) <= SYNC_ZIP_COUNT + 1 ->
    pack dir (pre ++ name :: post) cnt sz acc = Raise e.
Proof.
  induction pre as [|x pre IH]; intros cnt sz acc Hall Hname Hsz Hcnt;
    cbn [app pack].
  - by rewrite Hname.
  - apply Forall_cons in Hall as [[file_data Hfile] Hall].
    rewrite (stat_read_file _ _ _ Hfile).
    unfold requested_size in Hsz. cbn [map fold_right] in Hsz.
    fold (requested_size dir pre) in Hsz. rewrite Hfile in Hsz. cbn [default id] in Hsz.
    pose proof (requested_size_nonneg dir pre) as Hrest. cbn [length] in Hcnt.
    assert ((sz + Z.of_nat (length file_data) >? SYNC_ZIP_SIZE) = false) as -> by lia.
    assert ((cnt >? SYNC_ZIP_COUNT) = false) as -> by lia.
    cbn [orb]. apply IH; [exact Hall|exact Hname|lia|lia].
Qed.

(** A name that leads to no file fails the whole request: when the
    names asked for before it lead to regular files that stay within
    the two ceilings, [downloadFiles] returns no archive, not even of
    the files before, and raises [OSError] when the place the name
    leads to holds no file, and what the resolution of the path raised
    when it leads nowhere, [ValueError] for a name with a NUL
    character. *)
Theorem downloadFiles_missing_file (pre post : list string) (name : string)
    (h : SyncMediaHandler) :
  Forall (fun name => is_Some (file_at (files (media (col h))) name)) pre ->
  requested_size (files (media (col h))) pre <= SYNC_ZIP_SIZE ->
  Z.of_nat (length pre) <= SYNC_ZIP_COUNT + 1 ->
  (forall key,
     locate ForRead name = Ok (RegularFile key) ->
     files (media (col h)) !! key = None ->
     downloadFiles (pre ++ name :: post) h = Raise OSError) /\
  (forall e,
     locate ForRead name = Raise e ->
     downloadFiles (pre ++ name :: post) h = Raise e).
Proof.
  intros Hall Hsz Hcnt. unfold downloadFiles. split.
  - intros key Hlocate Hfile. apply pack_missing; [exact Hall| |lia|lia].
    unfold stat_read. by rewrite Hlocate, Hfile.
  - intros e Hlocate. apply pack_missing; [exact Hall| |lia|lia].
    unfold stat_read. by rewrite Hlocate.
Qed.

End DownloadFilesMembers.

(** The one file of a directory, asked for twice. *)
Lemma downloadFiles_names_members_witness :
  match @MediaHandler.downloadFiles Anki21.consts Posix.flat ["a.jpg"; "a.jpg"]
          one_file_handler with
  | Ok a =>
      length (MediaHandler.members a) = 2%nat /\
      MediaHandler.members a !! 1%nat = Some ("1", [Byte.x61]) /\
      MediaHandler.flist a !! 1%nat = Some ("1", VStr "a.jpg")
  | Raise _ => False
  end.
Proof.
  destruct (@MediaHandler.downloadFiles Anki21.consts Posix.flat ["a.jpg"; "a.jpg"]
              one_file_handler) as [a|e] eqn:Hdown.
  - destruct (@downloadFiles_names_members Anki21.consts Posix.flat ["a.jpg"; "a.jpg"]
                one_file_handler a Hdown) as (n & Hn & Hmembers & Hflist & Hnames).
    assert (n = 2%nat) as ->.
    { rewrite <- Hmembers. vm_compute in Hdown. by injection Hdown as <-. }
    split; [exact Hmembers|].
    destruct (Hnames 1%nat "a.jpg" ltac:(lia) eq_refl)
      as ((file_data & Hfile & Hmember) & Hitem & _).
    vm_compute in Hfile. injection Hfile as <-.
    split; [exact Hmember|exact Hitem].
  - vm_compute in Hdown. discriminate Hdown.
Defined.

Lemma downloadFiles_packs_all_witness :
  exists a,
    @MediaHandler.downloadFiles Anki21.consts Posix.flat ["a.jpg"; "a.jpg"]
      one_file_handler = Ok a /\
    length (MediaHandler.members a) = 2%nat /\
    length (MediaHandler.flist a) = 2%nat.
Proof.
  apply (@downloadFiles_packs_all Anki21.consts Posix.flat ["a.jpg"; "a.jpg"]
           one_file_handler).
  - repeat constructor; by eexists.
  - vm_compute. discriminate.
  - vm_compute. discriminate.
Defined.

(** [b.jpg] is not in the directory, and [a] followed by a NUL
    character is no path. *)
Lemma downloadFiles_missing_file_witness :
  @MediaHandler.downloadFiles Anki21.consts Posix.flat ["a.jpg"; "b.jpg"; "a.jpg"]
    one_file_handler = Raise OSError /\
  @MediaHandler.downloadFiles Anki21.consts Posix.flat
    ["a.jpg"; String "a" Posix.NUL; "a.jpg"] one_file_handler = Raise ValueError.
Proof.
  split.
  - apply (proj1 (@downloadFiles_missing_file Anki21.consts Posix.flat ["a.jpg"] ["a.jpg"]
                    "b.jpg" one_file_handler
                    ltac:(repeat constructor; by eexists)
                    ltac:(vm_compute; discriminate) ltac:(vm_compute; discriminate))
             "b.jpg"); reflexivity.
  - apply (proj2 (@downloadFiles_missing_file Anki21.consts Posix.flat ["a.jpg"] ["a.jpg"]
                    (String "a" Posix.NUL) one_file_handler
                    ltac:(repeat constructor; by eexists)
                    ltac:(vm_compute; discriminate) ltac:(vm_compute; discriminate))
             ValueError); reflexivity.
Defined.

(** Names that are no plain file names.  A file of the parent
    directory is served under the name [../outside.txt]; the empty
    name is the media directory itself and goes into the archive as
    the directory [0/]; and [./a.jpg] is the file [a.jpg]. *)
Example downloadFiles_paths :
  @MediaHandler.downloadFiles Anki21.consts Posix.flat ["../outside.txt"]
    outside_file_handler =
    Ok {| MediaHandler.members := [("0", [Byte.x62])];
          MediaHandler.flist := [("0", VStr "../outside.txt")] |} /\
  @MediaHandler.downloadFiles Anki21.consts Posix.flat [""; "./a.jpg"]
    one_file_handler =
    Ok {| MediaHandler.members := [("0/", []); ("1", [Byte.x61])];
          MediaHandler.flist := [("0", VStr ""); ("1", VStr "./a.jpg")] |}.
Proof. split; vm_compute; reflexivity. Qed.

(** ** The media handler: what [uploadChanges] leaves behind *)

Section UploadEffects.

Context `{codec : Codec} `{env : MediaEnv} `{mdir : MediaDir}.

Import MediaHandler.

Lemma added_files_cons (meta : value) (i : ZipInfo) (infos : list ZipInfo) :
  added_files meta (i :: infos) =
  (if is_added i then
     match member_name meta i with
     | Ok n => [(n, content i)]
     | Raise _ => []
     end
   else []) ++ added_files meta infos.
Proof. reflexivity. Qed.

Lemma written_files_cons (meta : value) (i : ZipInfo) (infos : list ZipInfo) :
  written_files meta (i :: infos) =
  (if is_added i then
     match member_name meta i with
     | Ok n => match place ForWrite n with
               | Some key => [(key, content i)]
               | None => []
               end
     | Raise _ => []
     end
   else []) ++ written_files meta infos.
Proof.
  unfold written_files. rewrite added_files_cons, flat_map_app. f_equal.
  destruct (is_added i); [|reflexivity].
  destruct (member_name meta i) as [n|e]; [|reflexivity].
  cbn [flat_map fst snd]. by rewrite app_nil_r.
Qed.

(** The loop over the members writes the added files in their order,
    each to the place its name leads to, and collects their rows; the
    database is not touched. *)
Lemma add_loop_effect (meta : value) (infos : list ZipInfo) :
  forall m acc m' l,
    add_loop meta infos m acc = (m', Ok l) ->
    l = acc ++ map row_of_file (added_files meta infos) /\
    files m' = fold_left (fun fs f => <[fst f := snd f]> fs)
                         (written_files meta infos) (files m) /\
    rows m' = rows m /\ last_usn m' = last_usn m /\ db_open m' = db_open m.
Proof.
  induction infos as [|i infos IH]; intros m acc m' l Hloop; cbn [add_loop] in Hloop.
  - injection Hloop as <- <-. cbn. by rewrite app_nil_r.
  - rewrite added_files_cons, written_files_cons.
    unfold is_added. destruct (String.eqb (filename i) "_meta"); cbn [negb app].
    + by apply IH in Hloop.
    + change (idx <- int_of_str (filename i) ;;
              elem <- py_index meta idx ;;
              n <- py_index elem 0 ;; _normalize_filename n)
        with (member_name meta i) in Hloop.
      destruct (member_name meta i) as [n|e]; [|discriminate].
      unfold write_file in Hloop. unfold place.
      destruct (locate ForWrite n) as [[key|st_size]|e]; [|discriminate|discriminate].
      apply IH in Hloop as (-> & -> & -> & -> & ->).
      cbn [app map fold_left files rows last_usn db_open fst snd].
      rewrite <- app_assoc. repeat split; reflexivity.
Qed.

(** A loop over the files to remove that returns has removed the files
    at the places the names lead to. *)
Lemma remove_files_effect (filenames : list string) :
  forall fs fs',
    remove_files filenames fs = (fs', Ok tt) ->
    fs' = fold_left (fun fs key => delete key fs) (removed_places filenames) fs.
Proof.
  induction filenames as [|name rest IH]; intros fs fs' Hloop;
    cbn [remove_files] in Hloop.
  - by injection Hloop as <-.
  - unfold removed_places. cbn [flat_map]. fold (removed_places rest).
    unfold remove_file in Hloop. unfold place.
    destruct (locate ForRemove name) as [[key|st_size]|e].
    + apply IH in Hloop. exact Hloop.
    + apply IH in Hloop. exact Hloop.
    + destruct (is_OSError e); [|discriminate]. apply IH in Hloop. exact Hloop.
Qed.

Lemma mark_deleted_nil (rs : list MediaRow) : mark_deleted [] rs = rs.
Proof.
  unfold mark_deleted. induction rs as [|r rs IH]; [reflexivity|].
  cbn [map existsb]. f_equal. exact IH.
Qed.

Lemma insert_media_nil (m : MediaManager) : insert_media [] m = m.
Proof. by destruct m. Qed.

(** What a valid upload makes of the media manager. *)
Lemma adopt_valid_effect (data : bytes) (z : list ZipInfo)
    (pairs : list (string * string)) (m : MediaManager) :
  valid_upload data z pairs ->
  rows (fst (_adopt_media_changes_from_zip z m)) =
    fold_left insert_or_replace (map row_of_file (added_files (meta_of pairs) z))
      (mark_deleted (deleted_names pairs) (rows m)) /\
  files (fst (_adopt_media_changes_from_zip z m)) =
    fold_left (fun fs key => delete key fs) (removed_places (deleted_names pairs))
      (fold_left (fun fs f => <[fst f := snd f]> fs)
                 (written_files (meta_of pairs) z) (files m)).
Proof.
  intros [Hopen Hsizes Hmeta Hmembers Hcount Hwritable Hremovable].
  unfold _adopt_media_changes_from_zip. rewrite Hmeta.
  cbn [bind meta_of py_iter].
  pose proof (remove_loop_names pairs []) as Hrem. cbn [app] in Hrem.
  rewrite Hrem. cbn [bind].
  destruct (add_loop_total pairs z Hmembers Hwritable m []) as (m1 & media_to_add & Hadd).
  change (VList (map meta_pair pairs)) with (meta_of pairs).
  rewrite Hadd.
  pose proof (add_loop_effect _ _ _ _ _ _ Hadd) as (Hl & Hfiles1 & Hrows1 & _).
  cbn [app] in Hl. subst media_to_add.
  unfold py_len, meta_of. cbn [py_iter bind]. rewrite length_map.
  apply remove_loop_length in Hrem. apply add_loop_length in Hadd.
  rewrite deletions_meta_of in Hrem. cbn [length] in Hrem, Hadd.
  change (VList (map meta_pair pairs)) with (meta_of pairs) in *.
  assert (Z.of_nat (length pairs) =
          Z.of_nat (length (deleted_names pairs)) +
          Z.of_nat (length (map row_of_file (added_files (meta_of pairs) z)))) as Heq
    by lia.
  rewrite <- Heq, Z.eqb_refl. cbn [negb].
  assert (exists m2,
            match deleted_names pairs with
            | [] => (m1, Ok tt)
            | _ :: _ => _remove_media_files (deleted_names pairs) m1
            end = (m2, Ok tt) /\
            rows m2 = mark_deleted (deleted_names pairs) (rows m) /\
            files m2 = fold_left (fun fs key => delete key fs)
                         (removed_places (deleted_names pairs)) (files m1))
    as (m2 & -> & Hrows2 & Hfiles2).
  { destruct (deleted_names pairs) as [|x xs] eqn:Hdel.
    - exists m1. rewrite mark_deleted_nil. by repeat split.
    - unfold _remove_media_files.
      destruct (remove_files_total (x :: xs) Hremovable (files m1)) as (fs & Hloop).
      rewrite Hloop. eexists. split; [reflexivity|]. cbn [rows files].
      rewrite Hrows1. split; [reflexivity|]. by apply remove_files_effect. }
  cbn [fst]. rewrite <- Hfiles1, <- Hfiles2, <- Hrows2.
  destruct (map row_of_file (added_files (meta_of pairs) z)); by cbn.
Qed.

Lemma uploadChanges_valid_media (data : bytes) (z : list ZipInfo)
    (pairs : list (string * string)) (h : SyncMediaHandler) :
  valid_upload data z pairs ->
  rows (media (col (fst (uploadChanges data h)))) =
    fold_left insert_or_replace (map row_of_file (added_files (meta_of pairs) z))
      (mark_deleted (deleted_names pairs) (rows (media (col h)))) /\
  files (media (col (fst (uploadChanges data h)))) =
    fold_left (fun fs key => delete key fs) (removed_places (deleted_names pairs))
      (fold_left (fun fs f => <[fst f := snd f]> fs)
                 (written_files (meta_of pairs) z) (files (media (col h)))).
Proof.
  intros Hvalid.
  destruct (adopt_valid_effect data z pairs (media (col h)) Hvalid) as [Hrows Hfiles].
  destruct Hvalid as [Hopen Hsizes _ _ _ _ _].
  unfold uploadChanges. rewrite Hopen. cbn [bind]. rewrite Hsizes. cbn [bind].
  destruct (_adopt_media_changes_from_zip z (media (col h))) as [m [pc|e]];
    cbn [fst] in Hrows, Hfiles; cbn; by split.
Qed.

Lemma lookup_fold_delete (keys : list string) (n : string) :
  forall fs : gmap string bytes,
    fold_left (fun fs key => delete key fs) keys fs !! n =
    if mem n keys then None else fs !! n.
Proof.
  induction keys as [|x keys IH]; intros fs; [reflexivity|].
  cbn [fold_left]. rewrite IH. unfold mem. cbn [existsb].
  destruct (String.eqb n x) eqn:E; cbn [orb].
  - apply String.eqb_eq in E. subst x. rewrite lookup_delete_eq.
    by destruct (existsb _ keys).
  - apply String.eqb_neq in E. rewrite lookup_delete_ne by done. reflexivity.
Qed.

Lemma last_written_snoc (adds : list (string * bytes)) (f : string * bytes) (n : string) :
  last_written (adds ++ [f]) n =
  if String.eqb (fst f) n then Some (snd f) else last_written adds n.
Proof.
  unfold last_written. rewrite rev_app_distr. cbn [rev app List.find].
  by destruct (String.eqb (fst f) n).
Qed.

Lemma lookup_fold_write (adds : list (string * bytes)) (n : string)
    (fs : gmap string bytes) :
  fold_left (fun fs f => <[fst f := snd f]> fs) adds fs !! n =
  match last_written adds n with
  | Some file_data => Some file_data
  | None => fs !! n
  end.
Proof.
  induction adds as [|f adds IH] using rev_ind; [reflexivity|].
  rewrite fold_left_app, last_written_snoc. cbn [fold_left].
  destruct (String.eqb (fst f) n) eqn:E.
  - apply String.eqb_eq in E. subst n. by rewrite lookup_insert_eq.
  - apply String.eqb_neq in E. rewrite lookup_insert_ne by done. exact IH.
Qed.




Lemma upload_directory (data : bytes) (z : list ZipInfo)
    (pairs : list (string * string)) (h : SyncMediaHandler) (key : string) :
  valid_upload data z pairs ->
  files (media (col (fst (uploadChanges data h)))) !! key =
    if mem key (removed_places (deleted_names pairs)) then None
    else match last_written (written_files (meta_of pairs) z) key with
         | Some file_data => Some file_data
         | None => files (media (col h)) !! key
         end.
Proof.
  intros Hvalid.
  destruct (uploadChanges_valid_media data z pairs h Hvalid) as [_ ->].
  rewrite lookup_fold_delete.
  destruct (mem key (removed_places (deleted_names pairs))); [reflexivity|].
  apply lookup_fold_write.
Qed.





(** *** The table keeps its names *)

Lemma fname_insert_or_replace (rs : list MediaRow) (r : MediaRow) :
  map fname (insert_or_replace rs r) =
  List.filter (fun n => negb (String.eqb n (fname r))) (map fname rs) ++ [fname r].
Proof.
  unfold insert_or_replace. rewrite map_app. cbn [map]. f_equal.
  induction rs as [|r' rs IH]; [reflexivity|]. cbn [List.filter map].
  destruct (String.eqb (fname r') (fname r)); cbn [negb map]; by rewrite IH.
Qed.

Lemma insert_or_replace_names (rs : list MediaRow) (r : MediaRow) :
  (NoDup (map fname rs) -> NoDup (map fname (insert_or_replace rs r))) /\
  (forall n, In n (map fname rs) -> In n (map fname (insert_or_replace rs r))).
Proof.
  rewrite fname_insert_or_replace. split.
  - intros Hnodup. apply NoDup_app. split; [|split].
    + by apply NoDup_ListNoDup, List.NoDup_filter, NoDup_ListNoDup.
    + intros n Hin%list_elem_of_In%filter_In Hr%list_elem_of_singleton. subst n.
      destruct Hin as [_ Hne]. by rewrite String.eqb_refl in Hne.
    + apply NoDup_singleton.
  - intros n Hin. apply in_or_app.
    destruct (String.eqb n (fname r)) eqn:E.
    + right. apply String.eqb_eq in E. subst n. by left.
    + left. apply filter_In. by rewrite E.
Qed.

Lemma fold_insert_names (adds : list MediaRow) :
  forall rs,
    (NoDup (map fname rs) -> NoDup (map fname (fold_left insert_or_replace adds rs))) /\
    (forall n, In n (map fname rs) ->
               In n (map fname (fold_left insert_or_replace adds rs))).
Proof.
  induction adds as [|r adds IH]; intros rs; cbn [fold_left]; [by split|].
  destruct (insert_or_replace_names rs r) as [Hnodup Hin].
  destruct (IH (insert_or_replace rs r)) as [Hnodup' Hin']. split; auto.
Qed.

Lemma fname_mark_deleted (names : list string) (rs : list MediaRow) :
  map fname (mark_deleted names rs) = map fname rs.
Proof.
  unfold mark_deleted. rewrite map_map. apply map_ext.
  intros r. by destruct (existsb _ names).
Qed.

(** The rows that [_adopt_media_changes_from_zip] leaves are those of
    [INSERT OR REPLACE]s after [UPDATE]s, whatever the archive, and
    whether it returns or raises. *)
Lemma adopt_rows (z : list ZipInfo) (m : MediaManager) :
  exists names adds,
    rows (fst (_adopt_media_changes_from_zip z m)) =
    fold_left insert_or_replace adds (mark_deleted names (rows m)).
Proof.
  assert (exists names adds,
            rows m = fold_left insert_or_replace adds (mark_deleted names (rows m)))
    as Hsame by (exists [], []; by rewrite mark_deleted_nil).
  unfold _adopt_media_changes_from_zip.
  destruct (read_meta z) as [meta|e]; cbn [bind]; [|exact Hsame].
  destruct (py_iter meta) as [elems|e]; cbn [bind]; [|exact Hsame].
  destruct (foldM remove_step elems []) as [media_to_remove|e]; cbn [bind];
    [|exact Hsame].
  destruct (add_loop meta z m []) as [m1 [media_to_add|e]] eqn:Hadd;
    apply add_loop_index in Hadd; injection Hadd as Hrows _;
    [|cbn [fst]; rewrite Hrows; exact Hsame].
  destruct (py_len meta) as [n|e]; cbn [fst]; [|rewrite Hrows; exact Hsame].
  destruct (negb _); cbn [fst]; [rewrite Hrows; exact Hsame|].
  destruct media_to_remove as [|x xs].
  - destruct media_to_add as [|r rs]; cbn [fst].
    + rewrite Hrows. exact Hsame.
    + exists [], (r :: rs). cbn [insert_media rows]. by rewrite mark_deleted_nil, Hrows.
  - destruct (_remove_media_files (x :: xs) m1) as [m2 r2] eqn:Hremove.
    apply remove_media_files_index in Hremove as (Hrows2 & _).
    rewrite Hrows in Hrows2.
    destruct r2 as [[]|e]; cbn [fst].
    + destruct media_to_add as [|r rs].
      * exists (x :: xs), []. exact Hrows2.
      * exists (x :: xs), (r :: rs). cbn [insert_media rows]. by rewrite Hrows2.
    + exists (x :: xs), []. exact Hrows2.
Qed.

(** Whatever is uploaded, and whether the call returns or raises: no
    name leaves the media table (a deleted file keeps its row, so that
    [mediaChanges] can report the deletion), and names that were unique
    in the table stay unique. *)
Theorem uploadChanges_keeps_names (data : bytes) (h : SyncMediaHandler) :
  (forall n,
     In n (map fname (rows (media (col h)))) ->
     In n (map fname (rows (media (col (fst (uploadChanges data h))))))) /\
  (NoDup (map fname (rows (media (col h)))) ->
   NoDup (map fname (rows (media (col (fst (uploadChanges data h))))))).
Proof.
  assert (exists names adds,
            rows (media (col (fst (uploadChanges data h)))) =
            fold_left insert_or_replace adds
              (mark_deleted names (rows (media (col h)))))
    as (names & adds & ->).
  { unfold uploadChanges.
    destruct (zip_open data) as [z|e]; cbn [bind];
      [|exists [], []; by rewrite mark_deleted_nil].
    destruct (_check_zip_data z) as [[]|e]; cbn [bind];
      [|exists [], []; by rewrite mark_deleted_nil].
    destruct (adopt_rows z (media (col h))) as (names & adds & Hrows).
    exists names, adds. rewrite <- Hrows.
    by destruct (_adopt_media_changes_from_zip z (media (col h))) as [m [pc|e]]. }
  destruct (fold_insert_names adds (mark_deleted names (rows (media (col h)))))
    as [Hnodup Hin].
  rewrite fname_mark_deleted in Hnodup, Hin. split; [exact Hin|exact Hnodup].
Qed.

(** *** Uploads seen through the other operations *)

Section Compose.

Context `{consts : AnkiConsts}.


(** What a valid upload adds can be downloaded: when the last member
    written to a place holds [file_data], no name marked as deleted
    leads to the place, and the name [n] leads to it for reading,
    [downloadFiles] serves [n] with these bytes, as the member [0] of
    an archive whose [_meta] names it. *)
Theorem upload_then_download (data : bytes) (z : list ZipInfo)
    (pairs : list (string * string)) (h : SyncMediaHandler) (n key : string)
    (file_data : bytes) :
  valid_upload data z pairs ->
  mem key (removed_places (deleted_names pairs)) = false ->
  last_written (written_files (meta_of pairs) z) key = Some file_data ->
  locate ForRead n = Ok (RegularFile key) ->
  downloadFiles [n] (fst (uploadChanges data h)) =
    Ok {| members := [("0", file_data)]; flist := [("0", VStr n)] |}.
Proof.
  intros Hvalid Hdel Hadd Hread. unfold downloadFiles. cbn [pack]. unfold stat_read.
  rewrite Hread, (upload_directory data z pairs h key Hvalid), Hdel, Hadd.
  by destruct (_ || _).
Qed.


End Compose.

End UploadEffects.



Lemma uploadChanges_keeps_names_witness :
  In "foo.jpg" (map fname (rows (media (MediaHandler.col
    (fst (@MediaHandler.uploadChanges Scenario.codec Scenario.env Posix.flat []
            Scenario.handler)))))) /\
  NoDup (map fname (rows (media (MediaHandler.col
    (fst (@MediaHandler.uploadChanges Scenario.codec Scenario.env Posix.flat []
            Scenario.handler)))))).
Proof.
  split.
  - apply (proj1 (@uploadChanges_keeps_names Scenario.codec Scenario.env Posix.flat []
                    Scenario.handler)).
    simpl. left. reflexivity.
  - apply (proj2 (@uploadChanges_keeps_names Scenario.codec Scenario.env Posix.flat []
                    Scenario.handler)).
    simpl. apply NoDup_singleton.
Defined.



(** The upload that deletes [foo.jpg] and has a member for
    [./foo.jpg] is a valid one. *)
Lemma aliased_valid :
  @valid_upload (Uploads.codec Uploads.aliased) (Uploads.env Uploads.one_member)
    Posix.flat [] Uploads.one_member Uploads.aliased.
Proof.
  split; try reflexivity.
  - intros i [<-|[<-|[]]] Hadded; [|discriminate].
    exists 0. split; [reflexivity|]. simpl. lia.
  - intros i n [<-|[<-|[]]] Hadded; [|discriminate].
    intros [= <-]. by eexists.
  - intros n e [<-|[]]. discriminate.
Qed.

(** There the member is written under another name of the place of
    [foo.jpg]: the upload returns, [./foo.jpg] is in the table with
    the checksum of the member, [foo.jpg] is a tombstone, and the file
    both names lead to is gone. *)
Example upload_under_another_name :
  snd (@MediaHandler.uploadChanges (Uploads.codec Uploads.aliased)
         (Uploads.env Uploads.one_member) Posix.flat [] Scenario.handler) =
    Ok (VDict [("data", VList [VInt 2; VInt 9]); ("err", VStr "")]) /\
  map (fun r => (fname r, csum r))
    (rows (media (MediaHandler.col
      (fst (@MediaHandler.uploadChanges (Uploads.codec Uploads.aliased)
              (Uploads.env Uploads.one_member) Posix.flat [] Scenario.handler))))) =
    [("foo.jpg", None);
     ("./foo.jpg", Some "7037807198c22a7d2b0807371d763779a84fdfcf")] /\
  files (media (MediaHandler.col
    (fst (@MediaHandler.uploadChanges (Uploads.codec Uploads.aliased)
            (Uploads.env Uploads.one_member) Posix.flat [] Scenario.handler))))
    !! "foo.jpg" = None /\
  @MediaHandler.downloadFiles Anki21.consts Posix.flat ["./foo.jpg"]
    (fst (@MediaHandler.uploadChanges (Uploads.codec Uploads.aliased)
            (Uploads.env Uploads.one_member) Posix.flat [] Scenario.handler)) =
    Raise OSError.
Proof. repeat split; vm_compute; reflexivity. Qed.

(** A member for [sub/x.jpg], in a media directory without [sub]: the
    file cannot be opened, the upload raises [OSError], and nothing has
    changed. *)
Example upload_into_missing_directory :
  @MediaHandler.uploadChanges (Uploads.codec Uploads.subdirectory)
    (Uploads.env Uploads.one_member) Posix.flat [] Scenario.handler =
  (Scenario.handler, Raise OSError).
Proof. vm_compute. reflexivity. Qed.

(** The deletion of [foo.jpg] and of a name with a NUL character:
    [os.remove] raises [ValueError] for the second, which
    [except OSError] does not catch.  The upload raises, the media usn
    stays at 7, and yet the row of [foo.jpg] has its checksum set to
    NULL and the file is removed. *)
Example upload_deleting_nul_name :
  snd (@MediaHandler.uploadChanges (Uploads.codec Uploads.nul_deleted)
         (Uploads.env Uploads.only_meta) Posix.flat [] Scenario.handler) =
    Raise ValueError /\
  index (media (MediaHandler.col
    (fst (@MediaHandler.uploadChanges (Uploads.codec Uploads.nul_deleted)
            (Uploads.env Uploads.only_meta) Posix.flat [] Scenario.handler)))) =
    ([{| fname := "foo.jpg"; csum := None; mtime := 1500000000; dirty := 0 |}], 7) /\
  files (media (MediaHandler.col
    (fst (@MediaHandler.uploadChanges (Uploads.codec Uploads.nul_deleted)
            (Uploads.env Uploads.only_meta) Posix.flat [] Scenario.handler))))
    !! "foo.jpg" = None.
Proof. repeat split; vm_compute; reflexivity. Qed.

(** [bar.jpg] of the scenario comes back as it was sent. *)
Lemma upload_then_download_witness :
  @MediaHandler.downloadFiles Anki21.consts Posix.flat ["bar.jpg"]
    (fst (@MediaHandler.uploadChanges Scenario.codec Scenario.env Posix.flat []
            Scenario.handler)) =
  Ok {| MediaHandler.members := [("0", [Byte.x01; Byte.x02; Byte.x03])];
        MediaHandler.flist := [("0", VStr "bar.jpg")] |}.
Proof.
  exact (@upload_then_download Scenario.codec Scenario.env Posix.flat Anki21.consts
           [] Scenario.zip [("foo.jpg", ""); ("bar.jpg", "1")] Scenario.handler
           "bar.jpg" "bar.jpg" [Byte.x01; Byte.x02; Byte.x03] scenario_valid
           eq_refl eq_refl eq_refl).
Defined.


(** ** The dispatcher: sessions *)

Section Sessions.

Context `{codec : Codec} `{gz : Gzip} `{collab : Collaborators}.

Import App.

Lemma prefix_drop (p s : string) :
  String.prefix p s = true -> s = p +:+ drop_prefix (String.length p) s.
Proof.
  revert s. induction p as [|a p IH]; intros s Hprefix; [reflexivity|].
  destruct s as [|b s]; [discriminate|]. cbn [String.prefix] in Hprefix.
  destruct (ascii_dec a b) as [->|]; [|discriminate].
  cbn [String.length drop_prefix]. change (String b p +:+ ?t) with (String b (p +:+ t)).
  f_equal. by apply IH.
Qed.

(** A request that resolves to no session, and is not the login
    [hostKey], is never served and changes nothing: the application is
    left as it was, and the reply is the exception of the decoding, or
    [HTTPForbidden] under the two sync paths ([HTTPNotFound] for a
    name outside [valid_urls] under the collection path, where the name
    is looked at first), or the banner elsewhere. *)
Theorem request_without_session (req : Request) (app : SyncApp) :
  resolve_session req app = None ->
  req_path req <> base_url app +:+ "hostKey" ->
  app_after (__call__ req app) = app /\
  session_after (__call__ req app) = None /\
  (forall e, request_data req = Raise e -> reply (__call__ req app) = Raise e) /\
  (forall data,
     request_data req = Ok data ->
     reply (__call__ req app) =
       if startswith (req_path req) (base_url app) then
         if mem (drop_prefix (String.length (base_url app)) (req_path req)) valid_urls
         then Raise (HTTPForbidden "") else Raise HTTPNotFound
       else if startswith (req_path req) (base_media_url app)
       then Raise (HTTPForbidden "")
       else Ok (Str "Anki Sync Server")).
Proof.
  intros Hsession Hpath. unfold __call__. rewrite Hsession.
  destruct (request_data req) as [data|e]; cbn [app_after session_after reply].
  2: { repeat split; [|discriminate]. by intros e' [= ->]. }
  assert (startswith (req_path req) (base_url app) = true ->
          String.eqb (drop_prefix (String.length (base_url app)) (req_path req))
                     "hostKey" = false) as Hurl.
  { intros Hstarts. apply String.eqb_neq. intros Heq. apply Hpath.
    rewrite <- Heq. by apply prefix_drop. }
  destruct (startswith (req_path req) (base_url app)) eqn:Hbase.
  - rewrite (Hurl eq_refl).
    destruct (mem _ valid_urls); cbn [negb app_after session_after reply];
      repeat split; try discriminate; by intros data' [= <-].
  - destruct (startswith (req_path req) (base_media_url app));
      cbn [app_after session_after reply];
      repeat split; try discriminate; by intros data' [= <-].
Qed.



End Sessions.

(** A [meta] request without a key is refused and leaves the server as
    it was. *)
Lemma request_without_session_witness :
  App.app_after (@App.__call__ Demo.codec Demo.gz Demo.collab
                   (anonymous_request "/sync/meta") Demo.app) = Demo.app /\
  App.reply (@App.__call__ Demo.codec Demo.gz Demo.collab
               (anonymous_request "/sync/meta") Demo.app) = Raise (HTTPForbidden "").
Proof.
  destruct (@request_without_session Demo.codec Demo.gz Demo.collab
              (anonymous_request "/sync/meta") Demo.app eq_refl)
    as (Happ & _ & _ & Hreply).
  { intros Hpath. vm_compute in Hpath. discriminate Hpath. }
  split; [exact Happ|]. exact (Hreply (VDict []) eq_refl).
Defined.


(** With a data directory that is not there the login fails with the
    [OSError] of [os.mkdir], and no session is stored. *)
Example hostKey_without_data_root :
  App.reply (@App.__call__ Login.codec Demo.gz Login.collab Login.request
               Login.orphan_app) = Raise OSError /\
  App.app_after (@App.__call__ Login.codec Demo.gz Login.collab Login.request
                   Login.orphan_app) = Login.orphan_app.
Proof. split; vm_compute; reflexivity. Qed.

(** ** The dispatcher: operations of a session *)

Section Operations.

Context `{codec : Codec} `{gz : Gzip} `{collab : Collaborators}.

Import App.

Lemma run_hook_keeps (hooks : gmap string hook) (url : string) (s : SyncUserSession)
    (app app' : SyncApp) (r : res unit) :
  run_hook hooks url s app = (app', r) ->
  sessions app' = sessions app /\ prehooks app' = prehooks app /\
  posthooks app' = posthooks app.
Proof.
  unfold run_hook. destruct (hooks !! url) as [f|].
  - destruct (f (live_col s app) s) as [c r']. by intros [= <- _].
  - by intros [= <- _].
Qed.

Lemma execute_keeps (method_name : string) (kw : value) (s s' : SyncUserSession)
    (app app' : SyncApp) (r : res result) :
  _execute_handler_method_in_thread method_name kw s app = (app', s', r) ->
  (sessions app' = sessions app \/
   sessions app' =
     (fun s0 => if (ident s0 =? ident s')%nat then s' else s0) <$> sessions app) /\
  prehooks app' = prehooks app /\ posthooks app' = posthooks app /\
  ident s' = ident s /\ skey s' = skey s /\ name s' = name s /\ path s' = path s /\
  version s' = version s /\ client_version s' = client_version s.
Proof.
  unfold _execute_handler_method_in_thread, get_handler_for_operation.
  destruct (mem method_name CollectionHandler.operations).
  - destruct (collection_method method_name kw _) as [h' r'].
    intros [= <- <- _]. split; [right; reflexivity|by repeat split].
  - destruct (mem method_name MediaHandler.operations).
    + destruct (media_method method_name kw _) as [h' r'].
      intros [= <- <- _]. split; [right; reflexivity|by repeat split].
    + intros [= <- <- _]. split; [left; reflexivity|by repeat split].
Qed.

Lemma has_key_dict_get (k : string) (items : list (string * value)) :
  has_key k items = match dict_get k items with Some _ => true | None => false end.
Proof.
  unfold has_key. induction items as [|[k' v] items IH]; [reflexivity|].
  cbn [existsb fst dict_get]. by destruct (String.eqb k k').
Qed.

(** The session bookkeeping of [meta] on a dict payload. *)
Lemma meta_bookkeeping_dict (req : Request) (items : list (string * value))
    (s : SyncUserSession) :
  exists s',
    meta_steps req (VDict items) s = (s', Ok tt) /\
    ident s' = ident s /\
    version s' = default (version s) (dict_get "v" items) /\
    client_version s' = default (client_version s) (dict_get "cv" items) /\
    name s' = name s /\ path s' = path s /\
    (forall k0, skey s = Some k0 -> skey s' = Some k0) /\
    (forall k, skey s = None -> POST req !! "s" = Some (Text k) -> skey s' = Some k) /\
    (skey s = None -> POST req !! "s" = None -> skey s' = None).
Proof.
  unfold meta_steps. cbn [py_contains bind py_getitem].
  rewrite !has_key_dict_get.
  set (s1 := match skey s, POST req !! "s" with
             | None, Some (Text k) => set_skey s (Some k)
             | _, _ => s
             end).
  assert (ident s1 = ident s /\
          version s1 = version s /\ client_version s1 = client_version s /\
          name s1 = name s /\ path s1 = path s /\
          (forall k0, skey s = Some k0 -> skey s1 = Some k0) /\
          (forall k, skey s = None -> POST req !! "s" = Some (Text k) ->
                     skey s1 = Some k) /\
          (skey s = None -> POST req !! "s" = None -> skey s1 = None))
    as (Hid & Hv & Hcv & Hname & Hpath & Hkeep & Hadopt & Hnone).
  { subst s1. destruct (skey s) as [k0|] eqn:Hskey;
      [|destruct (POST req !! "s") as [[k|b]|]];
      cbn; repeat split; intros; try done; congruence. }
  rewrite <- Hid, <- Hv, <- Hcv, <- Hname, <- Hpath. clearbody s1.
  destruct (dict_get "v" items) as [v|], (dict_get "cv" items) as [cv|];
    cbn [bind default]; eexists; (split; [reflexivity|]); cbn; auto 10.
Qed.

(** A [meta] request records the client on the session before anything
    else is done with it: whatever the pre-hook and the handler then
    do, be it that [meta] turns the client away or raises, the session
    stored under the request's key has the [v] and [cv] of the payload
    (and the ones it had where the payload has none), and its session
    key is the one it had, or else the [s] of the request. *)
Theorem meta_request_records_client (req : Request) (app : SyncApp)
    (s : SyncUserSession) (items : list (string * value)) :
  resolve_session req app = Some s ->
  request_data req = Ok (VDict items) ->
  req_path req = base_url app +:+ "meta" ->
  exists s',
    load (post_text "k" req) (app_after (__call__ req app)) = Some s' /\
    version s' = default (version s) (dict_get "v" items) /\
    client_version s' = default (client_version s) (dict_get "cv" items) /\
    name s' = name s /\ path s' = path s /\
    (forall k0, skey s = Some k0 -> skey s' = Some k0) /\
    (forall k, skey s = None -> POST req !! "s" = Some (Text k) -> skey s' = Some k) /\
    (skey s = None -> POST req !! "s" = None -> skey s' = None).
Proof.
  intros Hsession Hdata Hpath.
  destruct (meta_bookkeeping_dict req items s)
    as (s1 & Hbook & Hid & Hv & Hcv & Hname & Hspath & Hkeep & Hadopt & Hnone).
  assert (forall s', skey s' = skey s1 /\ name s' = name s1 /\ path s' = path s1 /\
                     version s' = version s1 /\ client_version s' = client_version s1 ->
                     version s' = default (version s) (dict_get "v" items) /\
                     client_version s' = default (client_version s) (dict_get "cv" items) /\
                     name s' = name s /\ path s' = path s /\
                     (forall k0, skey s = Some k0 -> skey s' = Some k0) /\
                     (forall k, skey s = None -> POST req !! "s" = Some (Text k) ->
                                skey s' = Some k) /\
                     (skey s = None -> POST req !! "s" = None -> skey s' = None))
    as Hfields.
  { intros s' (Hk' & Hn' & Hp' & Hv' & Hcv'). rewrite Hk', Hn', Hp', Hv', Hcv'.
    by repeat split. }
  unfold __call__. rewrite Hsession, Hdata.
  unfold startswith. rewrite Hpath, prefix_append, drop_prefix_append.
  change (mem "meta" valid_urls) with true.
  change (String.eqb "meta" "hostKey") with false.
  change (mem "meta" (CollectionHandler.operations ++ MediaHandler.operations))
    with true.
  cbn [negb]. unfold run_operation.
  change (String.eqb "meta" "meta") with true. cbv zeta. rewrite Hbook.
  set (hkey := post_text "k" req).
  set (app1 := save hkey s1 (write_session s1 app)).
  assert (load hkey app1 = Some s1) as Hload1.
  { unfold load, app1, save, with_sessions. cbn [sessions]. apply lookup_insert_eq. }
  rewrite Hload1.
  destruct (run_hook (prehooks app1) "meta" s1 app1) as [app2 r2] eqn:Hpre.
  apply run_hook_keeps in Hpre as (Hs2 & _).
  assert (load hkey app2 = Some s1) as Hload2 by (unfold load in *; by rewrite Hs2).
  destruct r2 as [[]|e]; [|exists s1; split; [exact Hload2|by apply Hfields]].
  destruct (_execute_handler_method_in_thread "meta" (VDict items) s1 app2)
    as [[app3 s3] r3] eqn:Hrun.
  apply execute_keeps in Hrun
    as (Hs3 & _ & _ & Hid3 & Hk3 & Hn3 & Hp3 & Hv3 & Hcv3).
  assert (exists s', load hkey app3 = Some s' /\
                     skey s' = skey s1 /\ name s' = name s1 /\ path s' = path s1 /\
                     version s' = version s1 /\ client_version s' = client_version s1)
    as (s' & Hload3 & Hsame).
  { unfold load in *. destruct Hs3 as [-> | ->].
    - exists s1. by repeat split.
    - exists s3. rewrite lookup_fmap, Hload2. cbn [fmap option_fmap option_map].
      rewrite Hid3, Nat.eqb_refl. by repeat split. }
  assert (forall app4 r4 (o : Outcome),
            run_hook (posthooks app3) "meta" s3 app3 = (app4, r4) ->
            app_after o = app3 \/ app_after o = app4 ->
            exists s', load hkey (app_after o) = Some s' /\
                       version s' = default (version s) (dict_get "v" items) /\
                       client_version s' = default (client_version s) (dict_get "cv" items) /\
                       name s' = name s /\ path s' = path s /\
                       (forall k0, skey s = Some k0 -> skey s' = Some k0) /\
                       (forall k, skey s = None -> POST req !! "s" = Some (Text k) ->
                                  skey s' = Some k) /\
                       (skey s = None -> POST req !! "s" = None -> skey s' = None))
    as Hend.
  { intros app4 r4 o Hpost Ho. apply run_hook_keeps in Hpost as (Hs4 & _).
    exists s'. split; [|by apply Hfields].
    unfold load in *. destruct Ho as [-> | ->]; [exact Hload3|by rewrite Hs4]. }
  destruct (run_hook (posthooks app3) "meta" s3 app3) as [app4 r4] eqn:Hpost.
  destruct r3 as [r|e]; [|eapply Hend; eauto].
  destruct (serialize true r) as [b|e]; [|eapply Hend; eauto].
  destruct r4 as [[]|e]; eapply Hend; eauto.
Qed.

(** A full upload hands the payload over as it came.  The body of an
    upload is a collection file, not JSON text: the decoding wraps its
    bytes (gunzipped when [c] is set) as [{'data': bytes}], and once
    the pre-hook of [upload], when there is one, has returned, [upload]
    passes exactly these bytes, with the live collection and the
    session, to the full-sync manager; what it raises fails the
    request, and what it returns is the reply once the post-hook, when
    there is one, has returned.  A pre-hook that raises keeps the
    payload from being looked at.  An upload request without a [data]
    field ends in [KeyError] when the pre-hook has run, since
    [data['data']] is evaluated after it: the full-sync manager is not
    called, and the application is as the pre-hook left it, unchanged
    when there is none. *)
Theorem upload_passes_raw_payload (req : Request) (app : SyncApp)
    (s : SyncUserSession) (c : Z) :
  resolve_session req app = Some s ->
  req_path req = base_url app +:+ "upload" ->
  compression_of req = Ok c ->
  (forall data e,
     request_data req = Ok data ->
     snd (run_hook (prehooks app) "upload" s app) = Raise e ->
     reply (__call__ req app) = Raise e /\
     app_after (__call__ req app) = fst (run_hook (prehooks app) "upload" s app)) /\
  (prehooks app !! "upload" = None ->
   run_hook (prehooks app) "upload" s app = (app, Ok tt)) /\
  (forall app1,
     run_hook (prehooks app) "upload" s app = (app1, Ok tt) ->
     (forall b raw e,
        POST req !! "data" = Some (File b) ->
        (if negb (c =? 0) then gunzip b else Ok b) = Ok raw ->
        is_ValueError e = true ->
        decode raw = Raise e \/ (exists t, decode raw = Ok t /\ json_loads t = Raise e) ->
        let called := full_sync_upload (live_col s app1) (VBytes raw) s in
        let app2 := with_collection app1 (path s) (fst called) in
        (forall e', snd called = Raise e' ->
           reply (__call__ req app) = Raise e' /\ app_after (__call__ req app) = app2) /\
        (forall b', snd called = Ok b' -> posthooks app !! "upload" = None ->
           reply (__call__ req app) = Ok b' /\ app_after (__call__ req app) = app2) /\
        (forall b' app3 r3, snd called = Ok b' ->
           run_hook (posthooks app) "upload" s app2 = (app3, r3) ->
           reply (__call__ req app) = (_ <- r3 ;; Ok b') /\
           app_after (__call__ req app) = app3)) /\
     (POST req !! "data" = None ->
      reply (__call__ req app) = Raise KeyError /\ app_after (__call__ req app) = app1)).
Proof.
  intros Hsession Hpath Hc.
  assert (forall data,
            request_data req = Ok data ->
            __call__ req app = run_full_sync "upload" data s app) as Hcall.
  { intros data Hdata. unfold __call__. rewrite Hsession, Hdata.
    unfold startswith. rewrite Hpath, prefix_append, drop_prefix_append.
    reflexivity. }
  split; [|split].
  - intros data e Hdata Hpre. rewrite (Hcall _ Hdata). unfold run_full_sync.
    destruct (run_hook (prehooks app) "upload" s app) as [app1 [[]|e0]];
      cbn [snd fst] in *; [discriminate|]. injection Hpre as ->. split; reflexivity.
  - intros Hpre. unfold run_hook. by rewrite Hpre.
  - intros app1 Hpre. split.
    + intros b raw e Hfield Hraw He Hnojson.
      assert (request_data req = Ok (VDict [("data", VBytes raw)])) as Hdata.
      { unfold request_data. rewrite Hc. cbn [bind]. unfold data_of. rewrite Hfield.
        unfold _decode_data. rewrite Hraw. cbn [bind]. unfold json_or_wrap.
        destruct Hnojson as [Hdec|(t & Hdec & Hjson)]; rewrite Hdec; cbn [bind];
          rewrite ?Hjson, ?He; reflexivity. }
      cbv zeta. rewrite (Hcall _ Hdata). unfold run_full_sync. rewrite Hpre.
      change (String.eqb "upload" "upload") with true.
      cbn [py_getitem dict_get String.eqb Ascii.eqb Bool.eqb].
      destruct (full_sync_upload (live_col s app1) (VBytes raw) s) as [c' r'].
      cbn [fst snd].
      assert (posthooks (with_collection app1 (path s) c') = posthooks app) as Hposthooks.
      { apply run_hook_keeps in Hpre as (_ & _ & Hposthooks). exact Hposthooks. }
      rewrite Hposthooks. split; [|split].
      * by intros e' ->.
      * intros b' -> Hpost. unfold run_hook. by rewrite Hpost.
      * intros b' app3 r3 -> Hpost. rewrite Hpost. by destruct r3 as [[]|e3].
    + intros Hfield.
      assert (request_data req = Ok (VDict [])) as Hdata.
      { unfold request_data. rewrite Hc. cbn [bind]. unfold data_of.
        by rewrite Hfield. }
      rewrite (Hcall _ Hdata). unfold run_full_sync. rewrite Hpre.
      split; reflexivity.
Qed.

(** The hooks bracket an operation.  A pre-hook that raises keeps the
    operation from running: the reply is its exception, and the session
    has not been given a handler.  When the handler method raises, or
    its result cannot be serialized, the post-hook is not run.  A
    post-hook that raises fails the request after the operation has
    been carried out and saved. *)
Theorem hooks_bracket_operation (req : Request) (app : SyncApp)
    (s : SyncUserSession) (data : value) (op : string) :
  resolve_session req app = Some s ->
  request_data req = Ok data ->
  req_path req = base_url app +:+ op ->
  mem op (CollectionHandler.operations ++ MediaHandler.operations) = true ->
  op <> "meta" ->
  (forall f c e,
     prehooks app !! op = Some f -> f (live_col s app) s = (c, Raise e) ->
     __call__ req app =
       {| app_after := with_collection app (path s) c; session_after := Some s;
          reply := Raise e |}) /\
  (forall app3 s3,
     prehooks app !! op = None ->
     fst (_execute_handler_method_in_thread op data s app) = (app3, s3) ->
     (forall e,
        snd (_execute_handler_method_in_thread op data s app) = Raise e ->
        __call__ req app =
          {| app_after := app3; session_after := Some s3; reply := Raise e |}) /\
     (forall r e,
        snd (_execute_handler_method_in_thread op data s app) = Ok r ->
        serialize true r = Raise e ->
        __call__ req app =
          {| app_after := app3; session_after := Some s3; reply := Raise e |}) /\
     (forall r b g c e,
        snd (_execute_handler_method_in_thread op data s app) = Ok r ->
        serialize true r = Ok b ->
        posthooks app !! op = Some g -> g (live_col s3 app3) s3 = (c, Raise e) ->
        __call__ req app =
          {| app_after := with_collection app3 (path s3) c; session_after := Some s3;
             reply := Raise e |})).
Proof.
  intros Hsession Hdata Hpath Hop Hmeta.
  assert (__call__ req app = run_operation req op data s app) as ->.
  { unfold __call__. rewrite Hsession, Hdata.
    unfold startswith. rewrite Hpath, prefix_append, drop_prefix_append.
    assert (mem op valid_urls = true) as ->.
    { unfold valid_urls. rewrite app_assoc, mem_app, Hop. reflexivity. }
    assert (String.eqb op "hostKey" = false) as ->.
    { apply String.eqb_neq. intros ->. discriminate Hop. }
    cbn [negb]. by rewrite Hop. }
  unfold run_operation.
  assert (String.eqb op "meta" = false) as -> by (by apply String.eqb_neq).
  cbv zeta. split.
  - intros f c e Hpre Hf. unfold run_hook at 1. rewrite Hpre, Hf. reflexivity.
  - intros app3 s3 Hpre Hfst.
    assert (run_hook (prehooks app) op s app = (app, Ok tt)) as ->
      by (unfold run_hook; by rewrite Hpre).
    cbv beta iota.
    destruct (_execute_handler_method_in_thread op data s app) as [[app3' s3'] r3]
      eqn:Hrun.
    cbn [fst snd] in *. injection Hfst as -> ->.
    apply execute_keeps in Hrun as (_ & _ & Hposthooks & _).
    repeat split.
    + intros e ->. reflexivity.
    + intros r e -> Hser. by rewrite Hser.
    + intros r b g c e -> Hser Hpost Hg. rewrite Hser.
      unfold run_hook. rewrite Hposthooks, Hpost, Hg. reflexivity.
Qed.

(** The backwards-compatible hook properties are entries of the two
    hook tables: what is written to [hook_pre_sync], [hook_post_sync],
    [hook_upload] or [hook_download] is read back from it, is the
    pre-hook of [start], the post-hook of [finish], the pre-hook of
    [upload] and the post-hook of [download], and leaves the hooks of
    every other name as they were. *)
Theorem legacy_hook_properties (f : hook) (app : SyncApp) :
  (hook_pre_sync (set_hook_pre_sync f app) = Some f /\
   prehooks (set_hook_pre_sync f app) !! "start" = Some f /\
   (forall op, op <> "start" ->
      prehooks (set_hook_pre_sync f app) !! op = prehooks app !! op) /\
   posthooks (set_hook_pre_sync f app) = posthooks app) /\
  (hook_post_sync (set_hook_post_sync f app) = Some f /\
   posthooks (set_hook_post_sync f app) !! "finish" = Some f /\
   (forall op, op <> "finish" ->
      posthooks (set_hook_post_sync f app) !! op = posthooks app !! op) /\
   prehooks (set_hook_post_sync f app) = prehooks app) /\
  (hook_upload (set_hook_upload f app) = Some f /\
   prehooks (set_hook_upload f app) !! "upload" = Some f /\
   (forall op, op <> "upload" ->
      prehooks (set_hook_upload f app) !! op = prehooks app !! op) /\
   posthooks (set_hook_upload f app) = posthooks app) /\
  (hook_download (set_hook_download f app) = Some f /\
   posthooks (set_hook_download f app) !! "download" = Some f /\
   (forall op, op <> "download" ->
      posthooks (set_hook_download f app) !! op = posthooks app !! op) /\
   prehooks (set_hook_download f app) = prehooks app).
Proof.
  unfold hook_pre_sync, hook_post_sync, hook_upload, hook_download,
    set_hook_pre_sync, set_hook_post_sync, set_hook_upload, set_hook_download.
  cbn [with_prehooks with_posthooks prehooks posthooks].
  repeat split; try apply lookup_insert_eq; intros op Hop; by apply lookup_insert_ne.
Qed.

End Operations.

(** The session [hk] after a [meta] request of protocol version 9. *)
Lemma meta_request_records_client_witness :
  exists s',
    App.load (Some "hk")
      (App.app_after (@App.__call__ Payload.codec Demo.gz Demo.collab
                        Payload.meta_request Demo.app)) = Some s' /\
    version s' = VInt 9 /\ client_version s' = VStr "ankidesktop,2.1.0,mac" /\
    skey s' = Some "sk".
Proof.
  destruct (@meta_request_records_client Payload.codec Demo.gz Demo.collab
              Payload.meta_request Demo.app Demo.session
              [("v", VInt 9); ("cv", VStr "ankidesktop,2.1.0,mac")]
              eq_refl eq_refl eq_refl)
    as (s' & Hload & Hv & Hcv & _ & _ & Hskey & _).
  exists s'. split; [exact Hload|]. split; [exact Hv|]. split; [exact Hcv|].
  exact (Hskey "sk" eq_refl).
Defined.

(** Two bytes that are no text reach the full-sync manager, which
    answers [OK]. *)
Lemma upload_passes_raw_payload_witness :
  App.reply (@App.__call__ Demo.codec Demo.gz Demo.collab
               Payload.upload_request Demo.app) = Ok (Str "OK").
Proof.
  destruct (@upload_passes_raw_payload Demo.codec Demo.gz Demo.collab
              Payload.upload_request Demo.app Demo.session 0
              eq_refl eq_refl eq_refl) as (_ & _ & Hrun).
  destruct (Hrun Demo.app eq_refl) as [Hraw _].
  destruct (Hraw [Byte.xff; Byte.xfe] [Byte.xff; Byte.xfe] UnicodeDecodeError
              eq_refl eq_refl eq_refl (or_introl eq_refl)) as (_ & Hreply & _).
  exact (proj1 (Hreply (Str "OK") eq_refl eq_refl)).
Defined.

(** An upload without [data] on a server with a [hook_upload]: the
    hook has run, and opened the collection of the session, when the
    [KeyError] is raised. *)
Example upload_without_data_after_hook :
  App.reply (@App.__call__ Demo.codec Demo.gz Demo.collab Payload.empty_upload_request
               (App.set_hook_upload Payload.pass Demo.app)) = Raise KeyError /\
  collections (App.app_after
                 (@App.__call__ Demo.codec Demo.gz Demo.collab
                    Payload.empty_upload_request
                    (App.set_hook_upload Payload.pass Demo.app)))
    !! "/data/user" = Some Anki21.col5 /\
  collections (App.set_hook_upload Payload.pass Demo.app) !! "/data/user" = None.
Proof. repeat split; vm_compute; reflexivity. Qed.

(** The session of the examples after a [start] request: the store
    holds it with its collection handler, and the [finish] request
    that follows runs on that handler. *)
Example second_request_finds_handler :
  option_map collection_handler
    (App.load (Some "hk")
       (App.app_after (@App.__call__ Demo.codec Demo.gz Demo.collab
                         (Demo.request "/sync/start") Demo.app))) =
    Some (Some (new_collection_handler Anki21.col5)) /\
  App.resolve_session (Demo.request "/sync/finish")
    (App.app_after (@App.__call__ Demo.codec Demo.gz Demo.collab
                      (Demo.request "/sync/start") Demo.app)) =
    App.session_after (@App.__call__ Demo.codec Demo.gz Demo.collab
                         (Demo.request "/sync/start") Demo.app).
Proof. split; vm_compute; reflexivity. Qed.

(** A [start] request on a server whose [hook_pre_sync] refuses. *)
Lemma hooks_bracket_operation_witness :
  App.reply (@App.__call__ Demo.codec Demo.gz Demo.collab (Demo.request "/sync/start")
               (App.set_hook_pre_sync Payload.refuse Demo.app)) =
  Raise (Exception "refused").
Proof.
  destruct (@hooks_bracket_operation Demo.codec Demo.gz Demo.collab
              (Demo.request "/sync/start")
              (App.set_hook_pre_sync Payload.refuse Demo.app)
              Demo.session (VDict []) "start" eq_refl eq_refl eq_refl eq_refl)
    as [Hpre _].
  { intros Hname. discriminate Hname. }
  rewrite (Hpre Payload.refuse Anki21.col5 (Exception "refused") eq_refl eq_refl).
  reflexivity.
Defined.

(** ** The application object: [__init__] *)

Section Init.

Import App.

Lemma endswith_snoc (s : string) : endswith (s +:+ "/") "/" = true.
Proof.
  induction s as [|c s IH]; [reflexivity|].
  change (String c s +:+ "/") with (String c (s +:+ "/")).
  cbn [endswith]. rewrite IH. apply orb_true_r.
Qed.

Lemma with_slash_ends (url : string) : endswith (with_slash url) "/" = true.
Proof.
  unfold with_slash. destruct (endswith url "/") eqn:E; [exact E|apply endswith_snoc].
Qed.

(** Both URL prefixes of the application end with a slash, whatever the
    configuration: a configured URL that ends with one is taken as it
    is, any other gets one slash appended, so doing it again changes
    nothing.  The application starts without hooks, and a
    configuration that lacks one of [data_root], [base_url] and
    [base_media_url] is a [KeyError]. *)
Theorem init_trailing_slashes (abspath : string -> string)
    (config : gmap string string) (store : gmap (option string) SyncUserSession) :
  (forall root url media_url,
     config !! "data_root" = Some root -> config !! "base_url" = Some url ->
     config !! "base_media_url" = Some media_url ->
     exists app,
       __init__ abspath config store = Ok app /\
       data_root app = abspath root /\
       endswith (base_url app) "/" = true /\
       endswith (base_media_url app) "/" = true /\
       base_url app = (if endswith url "/" then url else url +:+ "/") /\
       base_media_url app =
         (if endswith media_url "/" then media_url else media_url +:+ "/") /\
       with_slash (base_url app) = base_url app /\
       with_slash (base_media_url app) = base_media_url app /\
       hook_pre_sync app = None /\ hook_post_sync app = None /\
       hook_upload app = None /\ hook_download app = None /\
       sessions app = store) /\
  (config !! "data_root" = None \/ config !! "base_url" = None \/
   config !! "base_media_url" = None ->
   __init__ abspath config store = Raise KeyError).
Proof.
  split.
  - intros root url media_url Hroot Hurl Hmedia. unfold __init__.
    rewrite Hroot, Hurl, Hmedia. eexists. split; [reflexivity|].
    cbn [data_root base_url base_media_url sessions].
    repeat split; try apply with_slash_ends.
    + unfold with_slash at 1. by rewrite with_slash_ends.
    + unfold with_slash at 1. by rewrite with_slash_ends.
  - intros Hmissing. unfold __init__.
    destruct (config !! "data_root"), (config !! "base_url"),
      (config !! "base_media_url"); try reflexivity.
    destruct Hmissing as [|[|]]; discriminate.
Qed.

End Init.

Lemma init_trailing_slashes_witness :
  exists app,
    App.__init__ Config.abspath Config.file ∅ = Ok app /\
    base_url app = "/sync/" /\ base_media_url app = "/msync/" /\
    data_root app = "/srv/./collections".
Proof.
  destruct (proj1 (init_trailing_slashes Config.abspath Config.file ∅)
              "./collections" "/sync" "/msync/" eq_refl eq_refl eq_refl)
    as (app & Hinit & Hroot & _ & _ & Hurl & Hmedia & _).
  exists app. split; [exact Hinit|]. split; [exact Hurl|]. split; [exact Hmedia|].
  exact Hroot.
Defined.

(** ** The controller: configuration *)

Section ControllerConfig.

Import Controller.

Lemma getenv_In (key : string) (environ : list (string * string)) (v : string) :
  getenv key environ = Some v -> In key (map fst environ).
Proof.
  induction environ as [|[k v'] environ IH]; [discriminate|].
  cbn [getenv map fst In]. destruct (String.eqb key k) eqn:E.
  - apply String.eqb_eq in E. by left.
  - intros Hget. right. by apply IH.
Qed.

(** A name that starts with [ANKISYNCD_] is the prefix followed by what
    [key[10:]] keeps: the prefix has ten characters. *)
Lemma anki_key (key : string) :
  startswith key "ANKISYNCD_" = true -> key = "ANKISYNCD_" +:+ drop_prefix 10 key.
Proof. intros Hkey. by apply (prefix_drop "ANKISYNCD_"). Qed.

Lemma env_fold_sound (environ : list (string * string)) (keys : list string)
    (conf : gmap string string) (k v : string) :
  fold_left (env_step environ) keys conf !! k = Some v ->
  conf !! k = Some v \/
  exists key, In key keys /\ k = lower (drop_prefix 10 key) /\ getenv key environ = Some v.
Proof.
  revert conf.
  induction keys as [|key keys IH] using rev_ind; intros conf; [by left|].
  rewrite fold_left_app. cbn [fold_left]. unfold env_step at 1.
  destruct (getenv key environ) as [v'|] eqn:Hget.
  - destruct (decide (lower (drop_prefix 10 key) = k)) as [<-|Hne].
    + rewrite lookup_insert_eq. intros [= ->]. right. exists key.
      split; [apply in_or_app; right; by left|done].
    + rewrite lookup_insert_ne by done. intros Hfold.
      destruct (IH conf Hfold) as [Hconf|(key' & Hin & Hk & Hv)]; [by left|].
      right. exists key'. split; [apply in_or_app; by left|done].
  - intros Hfold. destruct (IH conf Hfold) as [Hconf|(key' & Hin & Hk & Hv)]; [by left|].
    right. exists key'. split; [apply in_or_app; by left|done].
Qed.

Lemma env_fold_complete (environ : list (string * string)) (key v : string)
    (keys : list string) (conf : gmap string string) :
  getenv key environ = Some v ->
  In key keys ->
  (forall key', In key' keys ->
     lower (drop_prefix 10 key') = lower (drop_prefix 10 key) -> key' = key) ->
  fold_left (env_step environ) keys conf !! lower (drop_prefix 10 key) = Some v.
Proof.
  intros Hget. revert conf.
  induction keys as [|x keys IH] using rev_ind; intros conf Hin Huniq; [done|].
  rewrite fold_left_app. cbn [fold_left]. unfold env_step at 1.
  destruct (decide (x = key)) as [->|Hx].
  - rewrite Hget. apply lookup_insert_eq.
  - assert (In key keys) as Hin'
      by (apply in_app_or in Hin as [|[|[]]]; [done|congruence]).
    assert (fold_left (env_step environ) keys conf !! lower (drop_prefix 10 key) = Some v)
      as Hrest.
    { apply IH; [exact Hin'|]. intros key' Hkey'. apply Huniq, in_or_app. by left. }
    destruct (getenv x environ) as [v'|]; [|exact Hrest].
    rewrite lookup_insert_ne; [exact Hrest|].
    intros Heq. apply Hx, Huniq; [apply in_or_app; right; by left|exact Heq].
Qed.

Lemma env_config_complete (environ : list (string * string)) (name v : string) :
  getenv ("ANKISYNCD_" +:+ name) environ = Some v ->
  (forall name', In ("ANKISYNCD_" +:+ name') (map fst environ) ->
                 lower name' = lower name -> name' = name) ->
  get_config_from_os_env environ !! lower name = Some v.
Proof.
  intros Hget Huniq. unfold get_config_from_os_env.
  change (lower name) with (lower (drop_prefix 10 ("ANKISYNCD_" +:+ name))).
  apply env_fold_complete; [exact Hget| |].
  - apply filter_In. split; [by eapply getenv_In|apply prefix_append].
  - intros key' [Hin Hstart]%filter_In Hlower.
    rewrite (anki_key key' Hstart) in Hin |- *. f_equal.
    apply Huniq; [exact Hin|exact Hlower].
Qed.

(** The configuration read from the environment has an entry for a key
    only if some variable is named [ANKISYNCD_] followed by a name that
    is the key in lower case, and the entry is that variable's value;
    variables of other names leave no trace.  Conversely a variable
    [ANKISYNCD_NAME] gives the key [name] its value, provided no other
    variable has a name that differs from it by case only (of such
    variables the last one iterated over wins). *)
Theorem env_config_entries (environ : list (string * string)) :
  (forall k v,
     get_config_from_os_env environ !! k = Some v ->
     exists name,
       In ("ANKISYNCD_" +:+ name) (map fst environ) /\ k = lower name /\
       getenv ("ANKISYNCD_" +:+ name) environ = Some v) /\
  (forall name v,
     getenv ("ANKISYNCD_" +:+ name) environ = Some v ->
     (forall name', In ("ANKISYNCD_" +:+ name') (map fst environ) ->
                    lower name' = lower name -> name' = name) ->
     get_config_from_os_env environ !! lower name = Some v).
Proof.
  split; [|apply env_config_complete].
  intros k v Hconf. unfold get_config_from_os_env in Hconf.
  apply env_fold_sound in Hconf as [Hempty|(key & Hin & Hk & Hget)]; [done|].
  apply filter_In in Hin as [Hin Hstart].
  exists (drop_prefix 10 key). rewrite <- (anki_key key Hstart). done.
Qed.

(** The environment overrides the file: the loaded configuration has,
    for every key, the entry read from the environment when there is
    one and the entry of the file's [sync_app] section otherwise; a
    file without that section is a [KeyError].  So when the environment
    names a port in [ANKISYNCD_PORT], the server is made for that port,
    whatever port the file has. *)
Theorem environment_overrides_file (environ : list (string * string)) :
  (forall conf,
     exists config,
       load_config (Some conf) environ = Ok config /\
       forall k,
         config !! k = match get_config_from_os_env environ !! k with
                       | Some v => Some v
                       | None => conf !! k
                       end) /\
  load_config None environ = Raise KeyError /\
  (forall conf config abspath store p n server,
     load_config (Some conf) environ = Ok config ->
     getenv "ANKISYNCD_PORT" environ = Some p ->
     (forall name', In ("ANKISYNCD_" +:+ name') (map fst environ) ->
                    lower name' = "port" -> name' = "PORT") ->
     int_of_str p = Ok n ->
     make_server abspath store config = Ok server ->
     port server = n).
Proof.
  assert (forall conf k,
            update (update ∅ conf) (get_config_from_os_env environ) !! k =
            match get_config_from_os_env environ !! k with
            | Some v => Some v
            | None => conf !! k
            end) as Hupdate.
  { intros conf k. unfold update. rewrite lookup_union.
    destruct (get_config_from_os_env environ !! k) as [v|]; [by rewrite union_Some_l|].
    rewrite (left_id None _). rewrite lookup_union, lookup_empty.
    by rewrite (right_id None _). }
  split; [|split; [reflexivity|]].
  - intros conf. eexists. split; [reflexivity|]. apply Hupdate.
  - intros conf config abspath store p n server Hload Hget Huniq Hint Hmake.
    injection Hload as <-.
    pose proof (env_config_complete environ "PORT" p Hget Huniq) as Hport.
    change (lower "PORT") with "port" in Hport.
    unfold make_server in Hmake. rewrite !Hupdate, Hport in Hmake.
    destruct (match get_config_from_os_env environ !! "host" with
              | Some v => Some v
              | None => conf !! "host"
              end) as [h|]; [|discriminate].
    rewrite Hint in Hmake. cbn [bind] in Hmake.
    destruct (App.__init__ abspath _ store) as [a|e]; [|discriminate].
    by injection Hmake as <-.
Qed.

End ControllerConfig.

(** [ANKISYNCD_PORT] is read as the key [port]. *)
Lemma env_config_entries_witness :
  Controller.get_config_from_os_env Config.environ !! "port" = Some "27702".
Proof.
  apply (proj2 (env_config_entries Config.environ) "PORT" "27702" eq_refl).
  intros name' [Hhome|[Hport|[]]] _.
  - discriminate Hhome.
  - cbn in Hport. injection Hport as Hname. by symmetry.
Defined.

(** The file says 27701 and the environment 27702: the server is made
    for 27702. *)
Lemma environment_overrides_file_witness :
  option_map Controller.port
    (match Controller.make_server Config.abspath ∅
             (Controller.update (Controller.update ∅ Config.file)
                (Controller.get_config_from_os_env Config.environ)) with
     | Ok server => Some server
     | Raise _ => None
     end) = Some 27702.
Proof.
  destruct (Controller.make_server Config.abspath ∅
              (Controller.update (Controller.update ∅ Config.file)
                 (Controller.get_config_from_os_env Config.environ)))
    as [server|e] eqn:Hmake.
  - cbn [option_map]. f_equal.
    apply (proj2 (proj2 (environment_overrides_file Config.environ))
             Config.file _ Config.abspath ∅ "27702" 27702 server
             eq_refl eq_refl); [|reflexivity|exact Hmake].
    intros name' [Hhome|[Hport|[]]] _.
    + discriminate Hhome.
    + cbn in Hport. injection Hport as Hname. by symmetry.
  - vm_compute in Hmake. discriminate Hmake.
Defined.

(** ** The dispatcher: the media operations, end to end *)

Section MediaRequests.

Context `{consts : AnkiConsts} `{codec : Codec} `{gz : Gzip} `{env : MediaEnv}
        `{lib : MediaLib} `{mdir : MediaDir} `{collab : Collaborators}.

(** The media methods of the server are those of [SyncMediaHandler]. *)
Hypothesis media_methods :
  forall name kw h, media_method name kw h = call_media_method name kw h.

Import App.

(** Comparisons of two string literals are computed. *)
Ltac eqb_literals :=
  repeat match goal with
         | |- context [String.eqb ?a ?b] =>
             let v := eval vm_compute in (String.eqb a b) in
             change (String.eqb a b) with v
         end.

Lemma dict_get_set (k : string) (x : value) (items : list (string * value)) :
  dict_get k (dict_set k x items) = Some x.
Proof.
  induction items as [|[k' v] items IH]; cbn [dict_set dict_get].
  - by rewrite String.eqb_refl.
  - destruct (String.eqb k k') eqn:E; cbn [dict_get]; rewrite E; [reflexivity|exact IH].
Qed.

Lemma has_key_set (k : string) (x : value) (items : list (string * value)) :
  has_key k (dict_set k x items) = true.
Proof. by rewrite has_key_dict_get, dict_get_set. Qed.

Lemma forallb_dict_set (f : string -> bool) (k : string) (x : value)
    (items : list (string * value)) :
  forallb (fun kv => f (fst kv)) (dict_set k x items) =
  f k && forallb (fun kv => f (fst kv)) items.
Proof.
  induction items as [|[k' v] items IH]; cbn [dict_set forallb fst].
  - reflexivity.
  - destruct (String.eqb k k') eqn:E; cbn [forallb fst].
    + apply String.eqb_eq in E. subst k'. by destruct (f k).
    + rewrite IH. by destruct (f k), (f k').
Qed.

Lemma forallb_has_key (f : string -> bool) (k : string)
    (items : list (string * value)) :
  has_key k items = true -> f k = false ->
  forallb (fun kv => f (fst kv)) items = false.
Proof.
  unfold has_key. intros Hkey Hf. apply existsb_exists in Hkey as ([k' v] & Hin & Heq).
  apply String.eqb_eq in Heq. cbn [fst] in Heq. subst k'.
  destruct (forallb _ items) eqn:Hall; [|reflexivity].
  rewrite forallb_forall in Hall. specialize (Hall _ Hin). cbn [fst] in Hall. congruence.
Qed.

(** A request under the media path for an operation of the media
    handler, up to the call of the method. *)
Lemma media_request (req : Request) (app : SyncApp) (s : SyncUserSession)
    (data : value) (op : string) :
  resolve_session req app = Some s ->
  request_data req = Ok data ->
  req_path req = base_media_url app +:+ op ->
  startswith (req_path req) (base_url app) = false ->
  mem op MediaHandler.operations = true ->
  __call__ req app = run_media op data s app.
Proof.
  intros Hsession Hdata Hpath Hnot Hop. unfold __call__.
  rewrite Hsession, Hdata, Hnot. unfold startswith.
  rewrite Hpath, prefix_append, drop_prefix_append.
  assert (mem op valid_urls = true) as ->; [|reflexivity].
  unfold valid_urls. rewrite !mem_app, Hop. apply orb_true_r.
Qed.

Lemma media_execute (op : string) (kw : value) (s : SyncUserSession) (app : SyncApp) :
  mem op MediaHandler.operations = true ->
  _execute_handler_method_in_thread op kw s app =
    let '(h', r) := call_media_method op kw {| MediaHandler.col := live_col s app |} in
    let c' := match r with
              | Ok _ => col_save (MediaHandler.col h')
              | Raise _ => MediaHandler.col h'
              end in
    let s' :=
      set_media_handler (set_media_handler s {| MediaHandler.col := live_col s app |})
        {| MediaHandler.col := c' |} in
    (write_session s' (with_collection app (path s) c'), s', r).
Proof.
  intros Hop. unfold _execute_handler_method_in_thread.
  rewrite handler_for_media_operation by exact Hop. by rewrite media_methods.
Qed.

(** [begin] answers with the session's own key.  A [begin] request
    under the media path whose payload has no key other than [skey]
    is answered with the JSON text of
    [{'data': {'sk': key, 'usn': usn}, 'err': ''}], where [key] is the
    session key of the session the request resolved to, whatever
    [skey] the payload itself carried, and [usn] the media usn of the
    session's collection; a payload with any other key is a
    [TypeError]. *)
Theorem media_begin_reports_session_key (req : Request) (app : SyncApp)
    (s : SyncUserSession) (items : list (string * value)) :
  resolve_session req app = Some s ->
  request_data req = Ok (VDict items) ->
  req_path req = base_media_url app +:+ "begin" ->
  startswith (req_path req) (base_url app) = false ->
  (Forall (fun kv => fst kv = "skey") items ->
   reply (__call__ req app) =
     (t <- json_dumps
             (VDict [("data", VDict [("sk", skey_value s);
                                     ("usn", VInt (last_usn (media (live_col s app))))]);
                     ("err", VStr "")]) ;;
      Ok (Str t))) /\
  (forall k, has_key k items = true -> k <> "skey" ->
             reply (__call__ req app) = Raise TypeError).
Proof.
  intros Hsession Hdata Hpath Hnot.
  rewrite (media_request req app s _ "begin" Hsession Hdata Hpath Hnot eq_refl).
  unfold run_media. eqb_literals. cbn [py_setitem].
  rewrite media_execute by reflexivity.
  unfold call_media_method. eqb_literals. unfold bind_kwargs.
  rewrite (forallb_dict_set (fun k => mem k ["skey"])).
  cbn [forallb]. rewrite has_key_set. split.
  - intros Honly.
    assert (forallb (fun kv => mem (fst kv) ["skey"]) items = true) as ->.
    { apply forallb_forall. intros kv Hin. rewrite Forall_forall in Honly.
      rewrite (Honly kv) by (by apply list_elem_of_In). reflexivity. }
    change (mem "skey" ["skey"]) with true. cbn [andb]. cbv beta iota.
    unfold kwarg. rewrite dict_get_set. reflexivity.
  - intros k Hkey Hk.
    rewrite (forallb_has_key (fun k => mem k ["skey"]) k items Hkey).
    + rewrite andb_false_r. reflexivity.
    + unfold mem. cbn [existsb]. rewrite orb_false_r. by apply String.eqb_neq.
Qed.

Lemma pack_values_strings (dir : gmap string bytes) (names : list string) :
  forall cnt sz acc,
    MediaHandler.pack_values dir (map VStr names) cnt sz acc =
    MediaHandler.pack dir names cnt sz acc.
Proof.
  induction names as [|name names IH]; intros cnt sz acc; [reflexivity|].
  cbn [map MediaHandler.pack_values MediaHandler.pack].
  destruct (MediaHandler.stat_read dir name) as [[[is_dir file_data] size]|e];
    [|reflexivity].
  destruct (_ || _); [reflexivity|apply IH].
Qed.

Lemma uploadChanges_returns_dict (data : bytes) (h h' : MediaHandler.SyncMediaHandler)
    (r : value) :
  MediaHandler.uploadChanges data h = (h', Ok r) -> exists items, r = VDict items.
Proof.
  unfold MediaHandler.uploadChanges.
  destruct (_ <- _ ;; _) as [z|e]; [|discriminate].
  destruct (MediaHandler._adopt_media_changes_from_zip z _) as [m [pc|e]];
    [|discriminate].
  intros [= _ <-]. by eexists.
Qed.

(** Files go in and come out as bytes.  The body of an
    [uploadChanges] request, a zip archive and so no JSON text, reaches
    [uploadChanges] as its bytes (gunzipped when [c] is set), the reply
    is the JSON text of what the method returns, and the collection is
    saved when the method returned and not when it raised.  A
    [downloadFiles] request for a list of names is answered with the
    bytes of the archive itself, not with JSON. *)
Theorem media_files_end_to_end (req : Request) (app : SyncApp) (s : SyncUserSession) :
  resolve_session req app = Some s ->
  startswith (req_path req) (base_url app) = false ->
  (forall c b raw e,
     req_path req = base_media_url app +:+ "uploadChanges" ->
     compression_of req = Ok c ->
     POST req !! "data" = Some (File b) ->
     (if negb (c =? 0) then gunzip b else Ok b) = Ok raw ->
     is_ValueError e = true ->
     decode raw = Raise e \/ (exists t, decode raw = Ok t /\ json_loads t = Raise e) ->
     let h := {| MediaHandler.col := live_col s app |} in
     reply (__call__ req app) =
       (r <- snd (MediaHandler.uploadChanges raw h) ;;
        t <- json_dumps r ;; Ok (Str t)) /\
     collections (app_after (__call__ req app)) !! path s =
       Some (match snd (MediaHandler.uploadChanges raw h) with
             | Ok _ => col_save (MediaHandler.col (fst (MediaHandler.uploadChanges raw h)))
             | Raise _ => MediaHandler.col (fst (MediaHandler.uploadChanges raw h))
             end)) /\
  (forall names,
     req_path req = base_media_url app +:+ "downloadFiles" ->
     request_data req = Ok (VDict [("files", VList (map VStr names))]) ->
     reply (__call__ req app) =
       (a <- MediaHandler.downloadFiles names {| MediaHandler.col := live_col s app |} ;;
        b <- MediaHandler.archive_bytes a ;; Ok (Bytes b))).
Proof.
  intros Hsession Hnot. split.
  - intros c b raw e Hpath Hc Hfield Hraw He Hnojson h.
    assert (request_data req = Ok (VDict [("data", VBytes raw)])) as Hdata.
    { unfold request_data. rewrite Hc. cbn [bind]. unfold data_of. rewrite Hfield.
      unfold _decode_data. rewrite Hraw. cbn [bind]. unfold json_or_wrap.
      destruct Hnojson as [Hdec|(t & Hdec & Hjson)]; rewrite Hdec; cbn [bind];
        rewrite ?Hjson, ?He; reflexivity. }
    rewrite (media_request req app s _ "uploadChanges" Hsession Hdata Hpath Hnot eq_refl).
    unfold run_media. eqb_literals. cbv beta iota.
    rewrite media_execute by reflexivity.
    subst h.
    change (call_media_method "uploadChanges" (VDict [("data", VBytes raw)])
              {| MediaHandler.col := live_col s app |})
      with (let '(h', r) := MediaHandler.uploadChanges raw
                              {| MediaHandler.col := live_col s app |} in
            (h', v <- r ;; Ok (Value v))).
    destruct (MediaHandler.uploadChanges raw {| MediaHandler.col := live_col s app |})
      as [h' [r|e']] eqn:Hup; cbn.
    + apply uploadChanges_returns_dict in Hup as (items & ->).
      split; [reflexivity|apply lookup_insert_eq].
    + split; [reflexivity|apply lookup_insert_eq].
  - intros names Hpath Hdata.
    rewrite (media_request req app s _ "downloadFiles" Hsession Hdata Hpath Hnot eq_refl).
    unfold run_media. eqb_literals. cbv beta iota.
    rewrite media_execute by reflexivity.
    change (call_media_method "downloadFiles"
              (VDict [("files", VList (map VStr names))])
              {| MediaHandler.col := live_col s app |})
      with ({| MediaHandler.col := live_col s app |},
            b <- MediaHandler.downloadFiles_value (VList (map VStr names))
                   {| MediaHandler.col := live_col s app |} ;;
            Ok (Value (VBytes b))).
    unfold MediaHandler.downloadFiles_value, MediaHandler.downloadFiles.
    cbn [py_iter bind]. rewrite pack_values_strings.
    destruct (MediaHandler.pack _ names 0 0 _) as [a|e]; cbn [bind]; [|reflexivity].
    destruct (MediaHandler.archive_bytes a) as [bs|e]; reflexivity.
Qed.

(** The payload has to fit the method.  Under the media path, a
    payload that is not a dict, or that has a key no method of the
    media handler takes, fails the request with [TypeError] before the
    method runs: the collection is neither changed nor saved.  With an
    empty payload [mediaSanity] still answers, with [FAILED], since its
    [local] defaults to [None]; [mediaChanges], [uploadChanges] and
    [downloadFiles] miss their argument and raise [TypeError]. *)
Theorem media_payload_must_fit (req : Request) (app : SyncApp) (s : SyncUserSession)
    (data : value) (op : string) :
  resolve_session req app = Some s ->
  request_data req = Ok data ->
  req_path req = base_media_url app +:+ op ->
  startswith (req_path req) (base_url app) = false ->
  mem op MediaHandler.operations = true ->
  ((forall items, data <> VDict items) ->
   reply (__call__ req app) = Raise TypeError) /\
  (forall items k,
     data = VDict items -> has_key k items = true -> mem k media_parameters = false ->
     reply (__call__ req app) = Raise TypeError /\
     collections (app_after (__call__ req app)) !! path s = Some (live_col s app)) /\
  (data = VDict [] ->
   reply (__call__ req app) =
     if String.eqb op "begin" then
       t <- json_dumps (MediaHandler.begin (skey_value s)
                          {| MediaHandler.col := live_col s app |}) ;;
       Ok (Str t)
     else if String.eqb op "mediaSanity" then
       t <- json_dumps (VDict [("data", VStr "FAILED"); ("err", VStr "")]) ;;
       Ok (Str t)
     else Raise TypeError).
Proof.
  intros Hsession Hdata Hpath Hnot Hop.
  rewrite (media_request req app s data op Hsession Hdata Hpath Hnot Hop).
  assert (op = "begin" \/ op = "mediaChanges" \/ op = "mediaSanity" \/
          op = "uploadChanges" \/ op = "downloadFiles") as Hops.
  { unfold mem, MediaHandler.operations in Hop. cbn [existsb] in Hop.
    repeat (apply orb_prop in Hop as [Hop|Hop];
            [apply String.eqb_eq in Hop; auto 10|]).
    discriminate. }
  split; [|split].
  - intros Hnodict. unfold run_media.
    destruct Hops as [->|Hops].
    + eqb_literals. destruct data; try reflexivity. by destruct (Hnodict items).
    + assert (String.eqb op "begin" = false) as ->
        by (destruct Hops as [->|[->|[->| ->]]]; reflexivity).
      cbv beta iota. rewrite media_execute by exact Hop.
      assert (forall params required, bind_kwargs params required data = Raise TypeError)
        as Hbind.
      { intros params required. destruct data; try reflexivity.
        by destruct (Hnodict items). }
      unfold call_media_method.
      destruct Hops as [->|[->|[->| ->]]]; eqb_literals; cbv beta iota;
        rewrite Hbind; reflexivity.
  - intros items k -> Hkey Hforeign.
    assert (forall p, In p media_parameters -> mem k [p] = false) as Hparam.
    { intros p Hp. unfold mem in *. cbn [existsb] in *. rewrite orb_false_r.
      unfold media_parameters in Hp. cbn [In] in Hp.
      repeat (apply orb_false_iff in Hforeign as [? Hforeign]).
      destruct Hp as [<-|[<-|[<-|[<-|[<-|[]]]]]]; assumption. }
    assert (forall p required,
              In p media_parameters ->
              bind_kwargs [p] required (VDict items) = Raise TypeError) as Hbind.
    { intros p required Hp. unfold bind_kwargs.
      rewrite (forallb_has_key (fun k => mem k [p]) k items Hkey (Hparam p Hp)).
      reflexivity. }
    unfold run_media.
    destruct Hops as [->|Hops].
    + eqb_literals. cbn [py_setitem]. rewrite media_execute by reflexivity.
      unfold call_media_method. eqb_literals. unfold bind_kwargs.
      rewrite (forallb_dict_set (fun k => mem k ["skey"])).
      rewrite (forallb_has_key (fun k => mem k ["skey"]) k items Hkey)
        by (apply Hparam; unfold media_parameters; cbn; auto).
      rewrite andb_false_r. cbn. split; [reflexivity|apply lookup_insert_eq].
    + assert (String.eqb op "begin" = false) as ->
        by (destruct Hops as [->|[->|[->| ->]]]; reflexivity).
      cbv beta iota. rewrite media_execute by exact Hop. unfold call_media_method.
      destruct Hops as [->|[->|[->| ->]]]; eqb_literals; cbv beta iota;
        rewrite Hbind by (unfold media_parameters; cbn; auto 10);
        cbn; (split; [reflexivity|apply lookup_insert_eq]).
  - intros ->. unfold run_media.
    destruct Hops as [->|[->|[->|[->| ->]]]]; eqb_literals; cbn [py_setitem dict_set];
      cbv beta iota; rewrite media_execute by reflexivity; unfold call_media_method;
      eqb_literals; reflexivity.
Qed.

End MediaRequests.

(** [begin] with an empty payload on the media server of the examples. *)
Lemma media_begin_reports_session_key_witness :
  App.reply (@App.__call__ Demo.codec Demo.gz MediaServer.collab
               (Demo.request "/msync/begin") Demo.app) =
  (t <- json_dumps (Codec := Demo.codec)
          (VDict [("data", VDict [("sk", VStr "sk"); ("usn", VInt 7)]);
                  ("err", VStr "")]) ;;
   Ok (Str t)).
Proof.
  exact (proj1 (@media_begin_reports_session_key Anki21.consts Demo.codec Demo.gz
                  Scenario.env MediaServer.lib Posix.flat MediaServer.collab
                  (fun _ _ _ => eq_refl)
                  (Demo.request "/msync/begin") Demo.app Demo.session []
                  eq_refl eq_refl eq_refl eq_refl)
           (List.Forall_nil _)).
Defined.

(** [foo.jpg] is sent as the bytes of the archive. *)
Lemma media_files_end_to_end_witness :
  App.reply (@App.__call__ MediaServer.files_codec Demo.gz MediaServer.files_collab
               MediaServer.download_request Demo.app) =
  Ok (Bytes [Byte.x09]).
Proof.
  exact (proj2 (@media_files_end_to_end Anki21.consts MediaServer.files_codec Demo.gz
                  Scenario.env MediaServer.lib Posix.flat MediaServer.files_collab
                  (fun _ _ _ => eq_refl)
                  MediaServer.download_request Demo.app Demo.session
                  eq_refl eq_refl)
           ["foo.jpg"] eq_refl eq_refl).
Defined.

(** [mediaChanges] without its argument. *)
Lemma media_payload_must_fit_witness :
  App.reply (@App.__call__ Demo.codec Demo.gz MediaServer.collab
               (Demo.request "/msync/mediaChanges") Demo.app) = Raise TypeError.
Proof.
  exact (proj2 (proj2 (@media_payload_must_fit Anki21.consts Demo.codec Demo.gz
                         Scenario.env MediaServer.lib Posix.flat MediaServer.collab
                         (fun _ _ _ => eq_refl)
                         (Demo.request "/msync/mediaChanges") Demo.app Demo.session
                         (VDict []) "mediaChanges"
                         eq_refl eq_refl eq_refl eq_refl eq_refl))
           eq_refl).
Defined.

(** ** The collection handler: the pass as a whole *)

Section Pass.

Context `{consts : AnkiConsts} `{syncer : Syncer}.

Import CollectionHandler.

(** Tombstones in [start] or in [applyGraves]: for a [minUsn] that is
    an SQLite integer, a client that sends its tombstones with [start]
    and a client that calls [start] without them, so with the default
    of no tombstones, and sends them in [applyGraves] afterwards are
    answered the same server tombstones and leave the handler and its
    collection in the same state, provided that removing nothing does
    nothing.  For any other [minUsn] both calls of [start] raise
    [OverflowError] and leave the same handler, with no tombstone
    applied: there the tombstones sent with [start] are lost, while an
    [applyGraves] that follows still applies its own. *)
Theorem graves_in_start_or_applyGraves (min_usn : Z) (lnewer_arg : bool)
    (g : Graves) (h : SyncCollectionHandler) :
  (forall c, Syncer_remove no_graves c = c) ->
  (- 2 ^ 63 <= min_usn < 2 ^ 63 ->
   start min_usn lnewer_arg g h =
     (applyGraves g (fst (start min_usn lnewer_arg no_graves h)),
      snd (start min_usn lnewer_arg no_graves h)) /\
   exists T, snd (start min_usn lnewer_arg g h) = Ok T) /\
  (min_usn < - 2 ^ 63 \/ 2 ^ 63 <= min_usn ->
   start min_usn lnewer_arg g h = start min_usn lnewer_arg no_graves h /\
   snd (start min_usn lnewer_arg g h) = Raise OverflowError /\
   col (fst (start min_usn lnewer_arg g h)) = col h /\
   col (applyGraves g (fst (start min_usn lnewer_arg no_graves h))) =
     Syncer_remove g (col h)).
Proof.
  intros Hnothing. split.
  - intros Hrange.
    assert (sqlite_int min_usn = true) as Hint
      by (unfold sqlite_int; apply andb_true_intro; split; lia).
    rewrite !start_result by exact Hint. cbn [fst snd]. unfold applyGraves.
    cbn [col with_col maxUsn minUsn lnewer]. rewrite Hnothing.
    split; [reflexivity|by eexists].
  - intros Hout.
    assert (sqlite_int min_usn = false) as Hint.
    { unfold sqlite_int. apply andb_false_iff. destruct Hout; [left|right]; lia. }
    rewrite !start_overflow by exact Hint. cbn [fst snd]. by repeat split.
Qed.

(** [meta] is a query: whatever its arguments and its outcome, the
    handler keeps its sync state and the collection its content; the
    one thing that can change is that the media database is open
    afterwards, which it is whenever [meta] returns the metadata. *)
Theorem meta_only_opens_media (now : float) (v : option Z) (cv : option string)
    (h : SyncCollectionHandler) :
  let h' := fst (meta now v cv h) in
  maxUsn h' = maxUsn h /\ minUsn h' = minUsn h /\ lnewer h' = lnewer h /\
  scm (col h') = scm (col h) /\ col_mod (col h') = col_mod (col h) /\
  _usn (col h') = _usn (col h) /\ sched_ver (col h') = sched_ver (col h) /\
  graves (col h') = graves (col h) /\
  last_usn (media (col h')) = last_usn (media (col h)) /\
  rows (media (col h')) = rows (media (col h)) /\
  files (media (col h')) = files (media (col h)) /\
  (db_open (media (col h)) = true -> db_open (media (col h')) = true) /\
  (snd (meta now v cv h) = Ok (metadata now (col h')) ->
   db_open (media (col h')) = true).
Proof.
  unfold meta. destruct (_old_client cv) as [old|e]; [|by cbn].
  destruct (truthy old); [by cbn|]. destruct v as [v|]; [|by cbn].
  destruct (v >? SYNC_VER); [by cbn|].
  destruct ((v <? 9) && (sched_ver (col h) >=? 2)) eqn:Hsched.
  - cbn. repeat split; done.
  - destruct (db_open (media (col h))) eqn:Hopen; cbn; repeat split; done.
Qed.

Lemma filterM_filter {A : Type} (keep : A -> res bool) (f : A -> bool) (l : list A) :
  (forall x, In x l -> keep x = Ok (f x)) ->
  filterM keep l = Ok (List.filter f l).
Proof.
  induction l as [|x l IH]; intros Hkeep; [reflexivity|].
  cbn [filterM List.filter]. rewrite (Hkeep x) by (by left). cbn [bind].
  rewrite IH by (intros y Hy; apply Hkeep; by right). cbn [bind].
  by destruct (f x).
Qed.

Lemma usn_at_least_changed (h : SyncCollectionHandler) (m : Z) (g : value) :
  minUsn h = Some m -> is_Some (usn_of g) ->
  usn_at_least h g = Ok (changed_since m g).
Proof.
  intros Hmin [u Hu]. unfold usn_at_least, changed_since, at_least_minUsn.
  unfold usn_of in *. rewrite Hmin.
  destruct (py_getitem "usn" g) as [x|e]; [|discriminate]. cbn [bind].
  by rewrite Hu.
Qed.

(** What a pass sends is what changed since [minUsn].  Once [start]
    has stored [minUsn], the models, decks and deck configurations
    that [getModels] and [getDecks] return are exactly those whose
    [usn] is at least [minUsn], and the tags of [getTags] those of the
    items whose usn is, each list in the order of the collection's; and
    [usnLim] is the SQL condition [usn >= minUsn].  On a handler that
    [start] has not run on, the three return the empty list for an
    empty collection list, and raise [AttributeError] as soon as they
    have an entry to compare. *)
Theorem changes_since_minUsn (min_usn : Z) (lnewer_arg : bool) (g : Graves)
    (h : SyncCollectionHandler) :
  let h1 := fst (start min_usn lnewer_arg g h) in
  (forall models_all,
     Forall (fun m => is_Some (usn_of m)) models_all ->
     getModels models_all h1 = Ok (List.filter (changed_since min_usn) models_all)) /\
  (forall decks_all decks_allConf,
     Forall (fun d => is_Some (usn_of d)) decks_all ->
     Forall (fun d => is_Some (usn_of d)) decks_allConf ->
     getDecks decks_all decks_allConf h1 =
       Ok (List.filter (changed_since min_usn) decks_all,
           List.filter (changed_since min_usn) decks_allConf)) /\
  (forall tags : list (string * Z),
     getTags (map tag_item tags) h1 =
       Ok (map (fun item => VStr (fst item))
               (List.filter (fun item => snd item >=? min_usn) tags))) /\
  usnLim h1 = Ok ("usn >= " +:+ pretty min_usn) /\
  (getModels [] (new_collection_handler (col h)) = Ok [] /\
   forall m models_all,
     is_Some (usn_of m) ->
     getModels (m :: models_all) (new_collection_handler (col h)) =
       Raise AttributeError).
Proof.
  intros h1.
  assert (minUsn h1 = Some min_usn) as Hmin.
  { subst h1. unfold start. cbv zeta. by destruct (removed _). }
  clearbody h1.
  split; [|split; [|split; [|split; [|split]]]].
  - intros models_all Hall. unfold getModels. apply filterM_filter.
    intros m Hm. apply usn_at_least_changed; [exact Hmin|].
    rewrite Forall_forall in Hall. by apply Hall, list_elem_of_In.
  - intros decks_all decks_allConf Hdecks Hconfs. unfold getDecks.
    rewrite (filterM_filter _ (changed_since min_usn) decks_all).
    2: { intros d Hd. apply usn_at_least_changed; [exact Hmin|].
         rewrite Forall_forall in Hdecks. by apply Hdecks, list_elem_of_In. }
    cbn [bind]. rewrite (filterM_filter _ (changed_since min_usn) decks_allConf).
    2: { intros d Hd. apply usn_at_least_changed; [exact Hmin|].
         rewrite Forall_forall in Hconfs. by apply Hconfs, list_elem_of_In. }
    reflexivity.
  - intros tags. unfold getTags.
    rewrite (filterM_filter _
               (fun item => match item with
                            | VList [_; VInt u] => u >=? min_usn
                            | _ => false
                            end) (map tag_item tags)).
    2: { intros item Hitem. apply in_map_iff in Hitem as ([t u] & <- & _).
         cbn. unfold at_least_minUsn. by rewrite Hmin. }
    cbn [bind]. induction tags as [|[t u] tags IH]; [reflexivity|].
    cbn [map tag_item fst snd List.filter].
    destruct (u >=? min_usn); cbn [mapM map fst]; cbn [mapM] in IH;
      [|exact IH].
    cbn [unpack2 py_iter bind fst]. by rewrite IH.
  - unfold usnLim. by rewrite Hmin.
  - reflexivity.
  - intros m models_all [u Hu]. unfold getModels. cbn [filterM].
    unfold usn_at_least, at_least_minUsn. unfold usn_of in Hu.
    destruct (py_getitem "usn" m) as [x|e]; [|discriminate]. reflexivity.
Qed.

End Pass.

(** With Anki's [remove], a card tombstone sent with [start] or after
    it. *)
Lemma graves_in_start_or_applyGraves_witness :
  @CollectionHandler.start Anki21.consts Anki21.syncer 3 true
    {| cards := [7]; notes := []; decks := [] |} handler_below_watermark =
  (@CollectionHandler.applyGraves Anki21.syncer
     {| cards := [7]; notes := []; decks := [] |}
     (fst (@CollectionHandler.start Anki21.consts Anki21.syncer 3 true no_graves
             handler_below_watermark)),
   snd (@CollectionHandler.start Anki21.consts Anki21.syncer 3 true no_graves
          handler_below_watermark)).
Proof.
  apply (@graves_in_start_or_applyGraves Anki21.consts Anki21.syncer); [|lia].
  intros [a b c d e f]. unfold Syncer_remove, Anki21.syncer, Anki21.remove. cbn.
  by rewrite app_nil_r.
Defined.

(** After [start] at usn 5 only the model changed at usn 6 is sent. *)
Lemma changes_since_minUsn_witness :
  CollectionHandler.getModels two_models
    (fst (@CollectionHandler.start Anki21.consts Anki21.syncer 5 true no_graves
            handler_below_watermark)) =
  Ok [VDict [("id", VInt 2); ("usn", VInt 6)]].
Proof.
  apply (proj1 (@changes_since_minUsn Anki21.consts Anki21.syncer 5 true no_graves
                  handler_below_watermark) two_models).
  repeat constructor; by eexists.
Defined.

(** ** The dispatcher: the two paths, and the handler of a session *)

Section Paths.

Context `{codec : Codec} `{gz : Gzip} `{collab : Collaborators}.

Import App.

Lemma append_assoc (a b c : string) : (a +:+ b) +:+ c = a +:+ (b +:+ c).
Proof.
  induction a as [|x a IH]; [reflexivity|].
  change ((String x a +:+ b) +:+ c) with (String x ((a +:+ b) +:+ c)).
  by rewrite IH.
Qed.

Lemma contains_middle (sub a b : string) : contains sub (a +:+ sub +:+ b) = true.
Proof.
  induction a as [|x a IH].
  - change ("" +:+ sub +:+ b) with (sub +:+ b).
    pose proof (prefix_append sub b) as Hprefix.
    destruct (sub +:+ b); cbn [contains]; by rewrite Hprefix.
  - change (String x a +:+ sub +:+ b) with (String x (a +:+ sub +:+ b)).
    cbn [contains]. rewrite IH. apply orb_true_r.
Qed.

(** No operation name has a slash in it. *)
Lemma valid_urls_no_slash (url : string) :
  mem url valid_urls = true -> contains "/" url = false.
Proof.
  intros Hurl. unfold mem, valid_urls in Hurl.
  cbn [CollectionHandler.operations MediaHandler.operations app existsb] in Hurl.
  repeat (apply orb_prop in Hurl as [Hurl|Hurl];
          [apply String.eqb_eq in Hurl; subst url; reflexivity|]).
  discriminate.
Qed.

(** The collection path is looked at first.  When [base_url] is a
    proper prefix of [base_media_url], as with [/] and [/msync/], a
    request under the media path is taken for a collection request
    whose operation name starts with the rest of the media path; no
    such name is known, so the reply is [HTTPNotFound], for the media
    operations too, and nothing is run. *)
Theorem media_path_shadowed (req : Request) (app : SyncApp) (data : value)
    (rest op : string) :
  request_data req = Ok data ->
  base_media_url app = base_url app +:+ rest +:+ "/" ->
  req_path req = base_media_url app +:+ op ->
  reply (__call__ req app) = Raise HTTPNotFound /\
  app_after (__call__ req app) = app.
Proof.
  intros Hdata Hmedia Hpath. unfold __call__. rewrite Hdata.
  assert (req_path req = base_url app +:+ (rest +:+ "/" +:+ op)) as ->
    by (rewrite Hpath, Hmedia, !append_assoc; reflexivity).
  unfold startswith. rewrite prefix_append, drop_prefix_append.
  destruct (mem (rest +:+ "/" +:+ op) valid_urls) eqn:Hurl; [|by cbn].
  apply valid_urls_no_slash in Hurl. by rewrite contains_middle in Hurl.
Qed.


End Paths.

(** With [/] as the collection path, [/msync/begin] is not found. *)
Lemma media_path_shadowed_witness :
  App.reply (@App.__call__ Demo.codec Demo.gz Demo.collab
               (Demo.request "/msync/begin") shadowed_app) = Raise HTTPNotFound.
Proof.
  exact (proj1 (@media_path_shadowed Demo.codec Demo.gz Demo.collab
                  (Demo.request "/msync/begin") shadowed_app (VDict [])
                  "msync" "begin" eq_refl eq_refl eq_refl)).
Defined.

